(** * The whiteboard drawing engine: history, erasing, text editing, zoom,
      gestures, painting and synchronisation

    Two drawing surfaces live in the repository:

    - the standalone board (component [Whiteboard], reducer [reducer]),
      modelled in [Module Board];
    - the room board (component [WhiteboardCanvas], reducer
      [whiteboardReducer]), which is wired to the socket, modelled in
      [Module Room].

    Conventions of the embedding.

    - A JavaScript [number] that holds a coordinate, a size or a zoom is an
      exact rational ([Q]); [NaN] and the infinities are outside the model.
      The boards compute on IEEE doubles, so what is proved of numbers is
      of three kinds: comparisons, signs and clamps, which rounding leaves
      as they are; equalities with the expression the code computes,
      written out term by term; and identities of exact arithmetic, each
      marked as such where it is stated.  [Module Float64] has, on
      doubles, the expressions at which the two arithmetics part, and
      [Module Doubles] evaluates them there.  Array indices and the history
      cursor are integers ([nat] where the source can only produce a length
      or a loop index, [Z] where the source subtracts).
    - The standalone board mutates shape objects in place while the same
      objects are referenced from [state.shapes] and from the snapshots of
      [state.history].  Shape objects therefore live in a heap
      ([list Shape], a reference is an index), and scenes are lists of
      references.  Arrays of references are never mutated after they are
      stored, so they are plain values.
    - The room board only builds new element objects, so its scenes are
      lists of element values.
    - A handler that would raise a [TypeError] returns [None]; so does, in
      the model only, a handler that follows a reference outside the heap;
      the references of the scene and of the snapshots stay inside the heap
      along every run ([Invariant.run_wf]).
    - Events are handled one at a time, each on the state the previous one
      left.  What a handler of the room board sends to the socket is given
      apart from the state it leaves ([Room.emitted]).
    - Painting is the list of the commands issued on the 2D context
      ([Canvas2D.Cmd]); what [Math.PI], [Math.atan2] and the like return
      and what [Math.random] returns on each call are parameters.

    [Module Meet] has the page that opens a room: the generator of room
    identifiers and the form that asks for a name. *)

From Stdlib Require Import ZArith QArith Qminmax Qabs Lqa Lia String Ascii.
From Stdlib Require Qround HexadecimalString.
From Corelib Require SpecFloat.
From stdpp Require Import base tactics option list pretty.

Local Open Scope Z_scope.

(** ** JavaScript array and string primitives used by both boards *)

Module Js.

(** [a.slice(0, e)] for an integer [e]: a negative end counts from the
    back, an end past the length is clamped. *)
Definition slice0 {A : Type} (a : list A) (e : Z) : list A :=
  let len := Z.of_nat (length a) in
  let k := if e <? 0 then Z.max (len + e) 0 else Z.min e len in
  take (Z.to_nat k) a.

(** [a[i]]: [None] stands for [undefined]. *)
Definition get {A : Type} (a : list A) (i : Z) : option A :=
  if i <? 0 then None else a !! Z.to_nat i.

(** [a.filter((element, index) => f)]. *)
Fixpoint filter_from {A : Type} (f : A -> nat -> bool) (i : nat) (a : list A) : list A :=
  match a with
  | [] => []
  | x :: r => if f x i then x :: filter_from f (S i) r else filter_from f (S i) r
  end.

Definition filter_idx {A : Type} (f : A -> nat -> bool) (a : list A) : list A :=
  filter_from f 0 a.

(** [a.includes(i)] on an array of indices. *)
Definition includes (a : list nat) (i : nat) : bool :=
  existsb (Nat.eqb i) a.

(** A string is its sequence of UTF-16 code units. *)
Definition jsstring := list N.

(** WhiteSpace and LineTerminator code points of ECMAScript, the ones
    [String.prototype.trim] strips. *)
Definition isWhiteSpace (c : N) : bool :=
  ((9 <=? c) && (c <=? 13) || (c =? 32) || (c =? 160) || (c =? 5760)
   || (8192 <=? c) && (c <=? 8202) || (c =? 8232) || (c =? 8233)
   || (c =? 8239) || (c =? 8287) || (c =? 12288) || (c =? 65279))%N.

Fixpoint trimStart (s : jsstring) : jsstring :=
  match s with
  | [] => []
  | c :: r => if isWhiteSpace c then trimStart r else s
  end.

Definition trimEnd (s : jsstring) : jsstring := rev (trimStart (rev s)).

Definition trim (s : jsstring) : jsstring := trimEnd (trimStart s).

Definition isEmptyString (s : jsstring) : bool :=
  match s with [] => true | _ => false end.

(** Comparisons of numbers. *)
Definition ltb (a b : Q) : bool := negb (Qle_bool b a).
Definition leb (a b : Q) : bool := Qle_bool a b.

(** [Math.min(...xs)] and [Math.max(...xs)] over a non-empty array, folded
    from its first element. *)
Definition minOf (x : Q) (xs : list Q) : Q := fold_left Qmin xs x.
Definition maxOf (x : Q) (xs : list Q) : Q := fold_left Qmax xs x.

(** [lo <= z <= hi]. *)
Definition within (lo hi z : Q) : Prop := (lo <= z /\ z <= hi)%Q.

(** The history contract, on a snapshot list [h] with cursor [i]:
    [inside h i] says that the cursor points at a snapshot, and
    [commits h i scene h' i'] that [(h', i')] is [(h, i)] cut after the
    cursor and extended with [scene], the cursor on the new last index. *)
Definition inside {A : Type} (h : list A) (i : Z) : Prop :=
  0 <= i < Z.of_nat (length h).

Definition commits {A : Type} (h : list A) (i : Z) (scene : A) (h' : list A) (i' : Z) : Prop :=
  h' = take (Z.to_nat (i + 1)) h ++ [scene]
  /\ i' = Z.of_nat (length h') - 1
  /\ inside h' i'
  /\ get h' i' = Some scene.

End Js.

(** ** Types the two boards declare alike *)

Module Types.

Inductive Tool := select | pan | freehand | rect | circle | arrow | text | eraser.

Definition Tool_eqb (a b : Tool) : bool :=
  match a, b with
  | select, select | pan, pan | freehand, freehand | rect, rect
  | circle, circle | arrow, arrow | text, text | eraser, eraser => true
  | _, _ => false
  end.

Record Point := { pt_x : Q; pt_y : Q }.

Record BBox := { bb_x : Q; bb_y : Q; bb_width : Q; bb_height : Q }.

End Types.

(** ** The transformation matrix of a 2D context

    Both boards call [ctx.translate] and [ctx.scale] before they paint and
    never rotate the scene as a whole, so the matrix stays diagonal with an
    offset: a point [(x, y)] of the scene is painted at
    [(a * x + e, d * y + f)].  Each call multiplies the current matrix on
    the right, as the canvas specification says.  One CSS pixel is one pixel
    of the canvas bitmap ([width] and [height] are given in pixels and no
    style resizes the element). *)

Module Canvas2D.

Import Types.

Record Matrix := { m_a : Q; m_d : Q; m_e : Q; m_f : Q }.

Definition identity : Matrix := {| m_a := 1; m_d := 1; m_e := 0; m_f := 0 |}.

(** [ctx.translate(tx, ty)]. *)
Definition translate (tx ty : Q) (m : Matrix) : Matrix :=
  {| m_a := m_a m; m_d := m_d m;
     m_e := (m_e m + m_a m * tx)%Q; m_f := (m_f m + m_d m * ty)%Q |}.

(** [ctx.scale(sx, sy)]. *)
Definition scale (sx sy : Q) (m : Matrix) : Matrix :=
  {| m_a := (m_a m * sx)%Q; m_d := (m_d m * sy)%Q; m_e := m_e m; m_f := m_f m |}.

(** Where the point [p] of the scene lands on the canvas. *)
Definition apply (m : Matrix) (p : Point) : Point :=
  {| pt_x := (m_a m * pt_x p + m_e m)%Q; pt_y := (m_d m * pt_y p + m_f m)%Q |}.

(** The calls and assignments the paint code makes on the context, in the
    order it makes them. *)
Inductive Composite := source_over | destination_out.

Inductive Cmd :=
| SetFillStyle (c : string)
| SetStrokeStyle (c : string)
| SetLineWidth (w : Q)
| SetLineCap (v : string)
| SetLineJoin (v : string)
| SetFont (px : Q) (family : string)
| SetGlobalCompositeOperation (op : Composite)
| SetLineDash (segments : list Q)
| FillRect (x y w h : Q)
| ClearRect (x y w h : Q)
| StrokeRect (x y w h : Q)
| FillText (t : Js.jsstring) (x y : Q)
| BeginPath
| MoveTo (x y : Q)
| LineTo (x y : Q)
| Stroke
| Ellipse (x y radiusX radiusY rotation startAngle endAngle : Q)
| Arc (x y radius startAngle endAngle : Q)
| Save
| Restore
| Translate (tx ty : Q)
| Scale (sx sy : Q)
| Rotate (angle : Q).

(** The commands that put something on the canvas. *)
Definition inks (c : Cmd) : bool :=
  match c with
  | FillRect _ _ _ _ | ClearRect _ _ _ _ | StrokeRect _ _ _ _ | FillText _ _ _ | Stroke => true
  | _ => false
  end.

End Canvas2D.

(** ** The standalone board *)

Module Board.

Import Types.

(** [BaseShape] without its [type] tag, which is the constructor of
    [Shape]. *)
Record BaseShape := {
  id : string;
  color : string;
  stroke : Q;
  fontSize : Q;
  bbox : option BBox
}.

(** The two tags of [FreehandShape]. *)
Inductive Ink := ink_freehand | ink_eraser.

Inductive Shape :=
| FreehandShape (type : Ink) (base : BaseShape) (points : list Point)
| RectShape (base : BaseShape) (x y width height : Q)
| CircleShape (base : BaseShape) (x y width height : Q)
| ArrowShape (base : BaseShape) (x1 y1 x2 y2 : Q)
| TextShape (base : BaseShape) (x y : Q) (text : Js.jsstring).

Definition shape_base (s : Shape) : BaseShape :=
  match s with
  | FreehandShape _ b _ | RectShape b _ _ _ _ | CircleShape b _ _ _ _
  | ArrowShape b _ _ _ _ | TextShape b _ _ _ => b
  end.

Definition shape_type (s : Shape) : Tool :=
  match s with
  | FreehandShape ink_freehand _ _ => freehand
  | FreehandShape ink_eraser _ _ => eraser
  | RectShape _ _ _ _ _ => rect
  | CircleShape _ _ _ _ _ => circle
  | ArrowShape _ _ _ _ _ => arrow
  | TextShape _ _ _ _ => text
  end.

Definition shape_bbox (s : Shape) : option BBox := bbox (shape_base s).

Definition with_bbox (b : BaseShape) (bb : BBox) : BaseShape :=
  {| id := id b; color := color b; stroke := stroke b; fontSize := fontSize b;
     bbox := Some bb |}.

(** [shape.bbox = bb]. *)
Definition set_bbox (s : Shape) (bb : BBox) : Shape :=
  match s with
  | FreehandShape k b ps => FreehandShape k (with_bbox b bb) ps
  | RectShape b x y w h => RectShape (with_bbox b bb) x y w h
  | CircleShape b x y w h => CircleShape (with_bbox b bb) x y w h
  | ArrowShape b x1 y1 x2 y2 => ArrowShape (with_bbox b bb) x1 y1 x2 y2
  | TextShape b x y t => TextShape (with_bbox b bb) x y t
  end.

(** A reference to a shape object, and the heap of shape objects. *)
Abbreviation ref := nat.
Abbreviation Heap := (list Shape).

(** [new] object: it is appended to the heap and its index is returned. *)
Definition alloc (h : Heap) (s : Shape) : Heap * ref := (h ++ [s], length h).

Record AppState := {
  shapes : list ref;
  history : list (list ref);
  historyIndex : Z
}.

Inductive AppAction :=
| ADD_SHAPE (payload : ref)
| UPDATE_SHAPES (payload : list ref)
| SET_SHAPES_NO_HISTORY (payload : list ref)
| UNDO
| REDO
| CLEAR.

Definition initialState : AppState :=
  {| shapes := []; history := [[]]; historyIndex := 0 |}.

(** [reducer].  [state.history[newIndex]] is [undefined] when the index is
    out of range; no [AppState] has an [undefined] scene, so the model has
    no result there ([None]).  [reducer_total] shows that this never
    happens on a state whose cursor is inside the snapshot list. *)
Definition reducer (state : AppState) (action : AppAction) : option AppState :=
  match action with
  | ADD_SHAPE payload =>
      let newShapes := shapes state ++ [payload] in
      let newHistory := Js.slice0 (history state) (historyIndex state + 1) ++ [newShapes] in
      Some {| shapes := newShapes; history := newHistory;
              historyIndex := Z.of_nat (length newHistory) - 1 |}
  | UPDATE_SHAPES payload =>
      let newShapes := payload in
      let newHistory := Js.slice0 (history state) (historyIndex state + 1) ++ [newShapes] in
      Some {| shapes := newShapes; history := newHistory;
              historyIndex := Z.of_nat (length newHistory) - 1 |}
  | SET_SHAPES_NO_HISTORY payload =>
      Some {| shapes := payload; history := history state;
              historyIndex := historyIndex state |}
  | UNDO =>
      if 0 <? historyIndex state then
        let newIndex := historyIndex state - 1 in
        match Js.get (history state) newIndex with
        | Some scene =>
            Some {| shapes := scene; history := history state; historyIndex := newIndex |}
        | None => None
        end
      else Some state
  | REDO =>
      if historyIndex state <? Z.of_nat (length (history state)) - 1 then
        let newIndex := historyIndex state + 1 in
        match Js.get (history state) newIndex with
        | Some scene =>
            Some {| shapes := scene; history := history state; historyIndex := newIndex |}
        | None => None
        end
      else Some state
  | CLEAR =>
      Some {| shapes := []; history := [[]]; historyIndex := 0 |}
  end.

(** The actions that record a snapshot. *)
Definition is_commit (action : AppAction) : bool :=
  match action with
  | ADD_SHAPE _ | UPDATE_SHAPES _ => true
  | _ => false
  end.

(** A sequence of dispatches. *)
Fixpoint reduce_all (actions : list AppAction) (state : AppState) : option AppState :=
  match actions with
  | [] => Some state
  | a :: rest => s ← reducer state a; reduce_all rest s
  end.

(** *** Geometry *)

Definition isPointInShape (px py : Q) (shape : Shape) : bool :=
  match shape_bbox shape with
  | None => false
  | Some b =>
      Js.leb (bb_x b) px && Js.leb px (bb_x b + bb_width b)
      && Js.leb (bb_y b) py && Js.leb py (bb_y b + bb_height b)
  end.

(** What [ctx.measureText] returns, as far as the board reads it. *)
Record TextMetrics := {
  tm_width : Q;
  actualBoundingBoxAscent : Q;
  actualBoundingBoxDescent : Q
}.

Record ViewState := { vw_x : Q; vw_y : Q; zoom : Q }.

Inductive Action := act_none | drawing | panning | dragging.

Definition Action_eqb (a b : Action) : bool :=
  match a, b with
  | act_none, act_none | drawing, drawing | panning, panning | dragging, dragging => true
  | _, _ => false
  end.

(** The fields of a pointer event the handlers read, with the position of
    the canvas ([getBoundingClientRect]) at the time of the event. *)
Record PointerEvent := {
  clientX : Q;
  clientY : Q;
  button : Z;
  movementX : Q;
  movementY : Q;
  rect_left : Q;
  rect_top : Q
}.

Record WheelEvent := {
  deltaY : Q;
  wh_clientX : Q;
  wh_clientY : Q;
  wh_rect_left : Q;
  wh_rect_top : Q
}.

Definition getPointerWorldPos (e : PointerEvent) (view : ViewState) : Point :=
  {| pt_x := (clientX e - rect_left e - vw_x view) / zoom view;
     pt_y := (clientY e - rect_top e - vw_y view) / zoom view |}.

(** The state of the [Whiteboard] component: the heap of shape objects, the
    reducer state and the [useState] cells.  The cells [color], [stroke]
    and [fontSize] are prefixed with [ui_] because shapes have fields of
    the same names. *)
Record Whiteboard := {
  heap : Heap;
  state : AppState;
  tool : Tool;
  ui_color : string;
  ui_stroke : Q;
  eraserStroke : Q;
  ui_fontSize : Q;
  isDrawing : bool;
  startPoint : option Point;
  selectedIndices : list nat;
  action : Action;
  editingShapeIndex : option nat;
  view : ViewState
}.

Definition set_heap (h : Heap) (b : Whiteboard) : Whiteboard :=
  {| heap := h; state := state b; tool := tool b; ui_color := ui_color b;
     ui_stroke := ui_stroke b; eraserStroke := eraserStroke b;
     ui_fontSize := ui_fontSize b; isDrawing := isDrawing b;
     startPoint := startPoint b; selectedIndices := selectedIndices b;
     action := action b; editingShapeIndex := editingShapeIndex b; view := view b |}.

Definition set_state (s : AppState) (b : Whiteboard) : Whiteboard :=
  {| heap := heap b; state := s; tool := tool b; ui_color := ui_color b;
     ui_stroke := ui_stroke b; eraserStroke := eraserStroke b;
     ui_fontSize := ui_fontSize b; isDrawing := isDrawing b;
     startPoint := startPoint b; selectedIndices := selectedIndices b;
     action := action b; editingShapeIndex := editingShapeIndex b; view := view b |}.

Definition setTool (t : Tool) (b : Whiteboard) : Whiteboard :=
  {| heap := heap b; state := state b; tool := t; ui_color := ui_color b;
     ui_stroke := ui_stroke b; eraserStroke := eraserStroke b;
     ui_fontSize := ui_fontSize b; isDrawing := isDrawing b;
     startPoint := startPoint b; selectedIndices := selectedIndices b;
     action := action b; editingShapeIndex := editingShapeIndex b; view := view b |}.

Definition setIsDrawing (d : bool) (b : Whiteboard) : Whiteboard :=
  {| heap := heap b; state := state b; tool := tool b; ui_color := ui_color b;
     ui_stroke := ui_stroke b; eraserStroke := eraserStroke b;
     ui_fontSize := ui_fontSize b; isDrawing := d;
     startPoint := startPoint b; selectedIndices := selectedIndices b;
     action := action b; editingShapeIndex := editingShapeIndex b; view := view b |}.

Definition setStartPoint (p : option Point) (b : Whiteboard) : Whiteboard :=
  {| heap := heap b; state := state b; tool := tool b; ui_color := ui_color b;
     ui_stroke := ui_stroke b; eraserStroke := eraserStroke b;
     ui_fontSize := ui_fontSize b; isDrawing := isDrawing b;
     startPoint := p; selectedIndices := selectedIndices b;
     action := action b; editingShapeIndex := editingShapeIndex b; view := view b |}.

Definition setSelectedIndices (l : list nat) (b : Whiteboard) : Whiteboard :=
  {| heap := heap b; state := state b; tool := tool b; ui_color := ui_color b;
     ui_stroke := ui_stroke b; eraserStroke := eraserStroke b;
     ui_fontSize := ui_fontSize b; isDrawing := isDrawing b;
     startPoint := startPoint b; selectedIndices := l;
     action := action b; editingShapeIndex := editingShapeIndex b; view := view b |}.

Definition setAction (a : Action) (b : Whiteboard) : Whiteboard :=
  {| heap := heap b; state := state b; tool := tool b; ui_color := ui_color b;
     ui_stroke := ui_stroke b; eraserStroke := eraserStroke b;
     ui_fontSize := ui_fontSize b; isDrawing := isDrawing b;
     startPoint := startPoint b; selectedIndices := selectedIndices b;
     action := a; editingShapeIndex := editingShapeIndex b; view := view b |}.

Definition setEditingShapeIndex (i : option nat) (b : Whiteboard) : Whiteboard :=
  {| heap := heap b; state := state b; tool := tool b; ui_color := ui_color b;
     ui_stroke := ui_stroke b; eraserStroke := eraserStroke b;
     ui_fontSize := ui_fontSize b; isDrawing := isDrawing b;
     startPoint := startPoint b; selectedIndices := selectedIndices b;
     action := action b; editingShapeIndex := i; view := view b |}.

Definition setView (v : ViewState) (b : Whiteboard) : Whiteboard :=
  {| heap := heap b; state := state b; tool := tool b; ui_color := ui_color b;
     ui_stroke := ui_stroke b; eraserStroke := eraserStroke b;
     ui_fontSize := ui_fontSize b; isDrawing := isDrawing b;
     startPoint := startPoint b; selectedIndices := selectedIndices b;
     action := action b; editingShapeIndex := editingShapeIndex b; view := v |}.

(** [dispatch(action)]: the reducer runs on the current state. *)
Definition dispatch (a : AppAction) (b : Whiteboard) : option Whiteboard :=
  s ← reducer (state b) a; Some (set_state s b).

(** The board as [useReducer] and the [useState] calls initialise it:
    [COLORS[0]], [STROKES[1]], [ERASER_STROKES[1]], [FONT_SIZES[1]]. *)
Definition initialBoard : Whiteboard :=
  {| heap := []; state := initialState; tool := select; ui_color := "#1e1e1e";
     ui_stroke := 4; eraserStroke := 12; ui_fontSize := 24; isDrawing := false;
     startPoint := None; selectedIndices := []; action := act_none;
     editingShapeIndex := None; view := {| vw_x := 0; vw_y := 0; zoom := 1 |} |}.

(** *** Handlers of the component

    The canvas is mounted and its 2D context exists; the context is used
    for [measureText] only. *)

Section Handlers.

(** [ctx.measureText(text)] under the font [`${fontSize}px sans-serif`]. *)
Variable measureText : Q -> Js.jsstring -> TextMetrics.

Definition updateBoundingBox (shape : Shape) : Shape :=
  match shape with
  | FreehandShape _ b ps =>
      match ps with
      | [] => set_bbox shape {| bb_x := 0; bb_y := 0; bb_width := 0; bb_height := 0 |}
      | p :: rest =>
          let minX := Js.minOf (pt_x p) (map pt_x rest) in
          let minY := Js.minOf (pt_y p) (map pt_y rest) in
          let maxX := Js.maxOf (pt_x p) (map pt_x rest) in
          let maxY := Js.maxOf (pt_y p) (map pt_y rest) in
          set_bbox shape
            {| bb_x := minX - stroke b / 2; bb_y := minY - stroke b / 2;
               bb_width := (maxX - minX) + stroke b;
               bb_height := (maxY - minY) + stroke b |}
      end
  | RectShape _ x y w h | CircleShape _ x y w h =>
      set_bbox shape {| bb_x := x; bb_y := y; bb_width := w; bb_height := h |}
  | ArrowShape _ x1 y1 x2 y2 =>
      set_bbox shape
        {| bb_x := Qmin x1 x2; bb_y := Qmin y1 y2;
           bb_width := Qabs (x1 - x2); bb_height := Qabs (y1 - y2) |}
  | TextShape b x y t =>
      let metrics := measureText (fontSize b) t in
      set_bbox shape
        {| bb_x := x; bb_y := y - actualBoundingBoxAscent metrics;
           bb_width := tm_width metrics;
           bb_height := actualBoundingBoxAscent metrics + actualBoundingBoxDescent metrics |}
  end.

Definition finishEditingText (b : Whiteboard) : option Whiteboard :=
  match editingShapeIndex b with
  | None => Some b
  | Some i =>
      let currentShapes := shapes (state b) in
      (* [shape] undefined: reading [shape.type] raises *)
      r ← currentShapes !! i;
      shape ← heap b !! r;
      match shape with
      | TextShape _ _ _ t =>
          if Js.isEmptyString (Js.trim t) then
            let filteredShapes :=
              Js.filter_idx (fun _ index => negb (Nat.eqb index i)) currentShapes in
            b' ← dispatch (UPDATE_SHAPES filteredShapes) b;
            Some (setEditingShapeIndex None b')
          else
            let b1 := set_heap (<[r := updateBoundingBox shape]> (heap b)) b in
            b' ← dispatch (UPDATE_SHAPES currentShapes) b1;
            Some (setEditingShapeIndex None b')
      | _ =>
          let b1 := set_heap (<[r := updateBoundingBox shape]> (heap b)) b in
          b' ← dispatch (UPDATE_SHAPES currentShapes) b1;
          Some (setEditingShapeIndex None b')
      end
  end.

(** [for (let i = n - 1; i >= 0; i--) if (p(i)) return i]. *)
Fixpoint scanDown (p : nat -> bool) (n : nat) : option nat :=
  match n with
  | O => None
  | S k => if p k then Some k else scanDown p k
  end.

Definition hitAt (h : Heap) (cs : list ref) (px py : Q) (i : nat) : bool :=
  match cs !! i with
  | Some r => match h !! r with Some s => isPointInShape px py s | None => false end
  | None => false
  end.

Definition newBase (now : N) (c : string) (st fs : Q) : BaseShape :=
  {| id := pretty now; color := c; stroke := st; fontSize := fs; bbox := None |}.

(** The [switch (tool)] of [handlePointerDown]; [None] is its
    [default: return]. *)
Definition createShape (now : N) (b : Whiteboard) (pos : Point) : option Shape :=
  let base := newBase now (ui_color b) (ui_stroke b) (ui_fontSize b) in
  match tool b with
  | freehand => Some (FreehandShape ink_freehand base [pos])
  | eraser =>
      Some (FreehandShape ink_eraser
              (newBase now "#fff" (eraserStroke b) (ui_fontSize b)) [pos])
  | rect => Some (RectShape base (pt_x pos) (pt_y pos) 0 0)
  | circle => Some (CircleShape base (pt_x pos) (pt_y pos) 0 0)
  | arrow => Some (ArrowShape base (pt_x pos) (pt_y pos) (pt_x pos) (pt_y pos))
  | _ => None
  end.

(** [handlePointerDown]; [now] is what [Date.now()] returns. *)
Definition handlePointerDown (now : N) (e : PointerEvent) (b : Whiteboard)
  : option Whiteboard :=
  match editingShapeIndex b with
  | Some _ => finishEditingText b
  | None =>
      let pos := getPointerWorldPos e (view b) in
      let b := setStartPoint (Some pos) b in
      if Tool_eqb (tool b) pan || (button e =? 1) then Some (setAction panning b)
      else if Tool_eqb (tool b) select then
        match scanDown (hitAt (heap b) (shapes (state b)) (pt_x pos) (pt_y pos))
                       (length (shapes (state b))) with
        | Some i => Some (setAction dragging (setSelectedIndices [i] b))
        | None => Some (setSelectedIndices [] b)
        end
      else if Tool_eqb (tool b) text then
        let newShape :=
          TextShape (newBase now (ui_color b) 0 (ui_fontSize b)) (pt_x pos) (pt_y pos) [] in
        let '(h, r) := alloc (heap b) (updateBoundingBox newShape) in
        b' ← dispatch (ADD_SHAPE r) (set_heap h b);
        Some (setEditingShapeIndex (Some (length (shapes (state b)))) (setIsDrawing false b'))
      else
        let b := setIsDrawing true (setAction drawing b) in
        match createShape now b pos with
        | None => Some b
        | Some newShape =>
            let '(h, r) := alloc (heap b) (updateBoundingBox newShape) in
            dispatch (ADD_SHAPE r) (set_heap h b)
        end
  end.

(** The body of the [selectedIndices.forEach] of a drag. *)
Definition translate (dx dy : Q) (shape : Shape) : Shape :=
  match shape with
  | FreehandShape k b ps =>
      FreehandShape k b (map (fun p => {| pt_x := pt_x p + dx; pt_y := pt_y p + dy |}) ps)
  | ArrowShape b x1 y1 x2 y2 => ArrowShape b (x1 + dx) (y1 + dy) (x2 + dx) (y2 + dy)
  | RectShape b x y w h => RectShape b (x + dx) (y + dy) w h
  | CircleShape b x y w h => CircleShape b (x + dx) (y + dy) w h
  | TextShape b x y t => TextShape b (x + dx) (y + dy) t
  end.

Fixpoint dragAll (dx dy : Q) (currentShapes : list ref) (indices : list nat) (h : Heap)
  : option Heap :=
  match indices with
  | [] => Some h
  | index :: rest =>
      r ← currentShapes !! index;
      shape ← h !! r;
      dragAll dx dy currentShapes rest (<[r := updateBoundingBox (translate dx dy shape)]> h)
  end.

Definition boxesIntersect (a b : BBox) : bool :=
  Js.ltb (bb_x a) (bb_x b + bb_width b) && Js.ltb (bb_x b) (bb_x a + bb_width a)
  && Js.ltb (bb_y a) (bb_y b + bb_height b) && Js.ltb (bb_y b) (bb_y a + bb_height a).

(** The box the eraser tests around the pointer. *)
Definition eraserBBox (pos : Point) (eraserStroke : Q) : BBox :=
  {| bb_x := pt_x pos - eraserStroke; bb_y := pt_y pos - eraserStroke;
     bb_width := eraserStroke * 2; bb_height := eraserStroke * 2 |}.

(** The callback of the eraser's [currentShapes.filter]: [true] keeps. *)
Definition eraserKeeps (h : Heap) (box : BBox) (len : nat) (r : ref) (idx : nat) : bool :=
  if Nat.eqb idx (len - 1) then true
  else
    match h !! r with
    | None => true
    | Some shape =>
        match shape_bbox shape with
        | None => true
        | Some bb =>
            if boxesIntersect box bb
               && negb (Tool_eqb (shape_type shape) eraser)
               && negb (Tool_eqb (shape_type shape) freehand)
            then false else true
        end
    end.

(** [lastShape.points.push(pos)] and the other updates of the shape being
    drawn. *)
Definition extend (pos : Point) (lastShape : Shape) : Shape :=
  match lastShape with
  | FreehandShape k b ps => FreehandShape k b (ps ++ [pos])
  | RectShape b x y _ _ => RectShape b x y (pt_x pos - x) (pt_y pos - y)
  | CircleShape b x y _ _ => CircleShape b x y (pt_x pos - x) (pt_y pos - y)
  | ArrowShape b x1 y1 _ _ => ArrowShape b x1 y1 (pt_x pos) (pt_y pos)
  | TextShape _ _ _ _ => lastShape
  end.

Definition handlePointerMove (e : PointerEvent) (b : Whiteboard) : option Whiteboard :=
  match startPoint b with
  | None => Some b
  | Some start =>
      let pos := getPointerWorldPos e (view b) in
      if Action_eqb (action b) panning then
        Some (setView {| vw_x := vw_x (view b) + movementX e;
                         vw_y := vw_y (view b) + movementY e;
                         zoom := zoom (view b) |} b)
      else
        let currentShapes := shapes (state b) in
        if Action_eqb (action b) dragging && (0 <? length (selectedIndices b))%nat then
          let dx := (pt_x pos - pt_x start)%Q in
          let dy := (pt_y pos - pt_y start)%Q in
          h ← dragAll dx dy currentShapes (selectedIndices b) (heap b);
          b' ← dispatch (SET_SHAPES_NO_HISTORY currentShapes) (set_heap h b);
          Some (setStartPoint (Some pos) b')
        else if negb (isDrawing b) then Some b
        else
          match last currentShapes with
          | None => Some b
          | Some r =>
              lastShape ← heap b !! r;
              if Action_eqb (action b) drawing && Tool_eqb (tool b) eraser then
                if negb (Tool_eqb (shape_type lastShape) eraser) then Some b
                else
                  let h := <[r := extend pos lastShape]> (heap b) in
                  let filtered :=
                    Js.filter_idx
                      (eraserKeeps h (eraserBBox pos (eraserStroke b)) (length currentShapes))
                      currentShapes in
                  dispatch (SET_SHAPES_NO_HISTORY filtered) (set_heap h b)
              else
                let h := <[r := updateBoundingBox (extend pos lastShape)]> (heap b) in
                dispatch (SET_SHAPES_NO_HISTORY currentShapes) (set_heap h b)
          end
  end.

(** The two [if]s of [handlePointerUp] on a rectangle or an ellipse. *)
Definition normalize (lastShape : Shape) : Shape :=
  let flip (x w : Q) : Q * Q := if Js.ltb w 0 then (x + w, w * -1)%Q else (x, w) in
  match lastShape with
  | RectShape b x y w h =>
      let '(x', w') := flip x w in
      let '(y', h') := flip y h in
      RectShape b x' y' w' h'
  | CircleShape b x y w h =>
      let '(x', w') := flip x w in
      let '(y', h') := flip y h in
      CircleShape b x' y' w' h'
  | _ => lastShape
  end.

Definition endGesture (b : Whiteboard) : Whiteboard :=
  setStartPoint None (setAction act_none (setIsDrawing false b)).

Definition handlePointerUp (b : Whiteboard) : option Whiteboard :=
  if Action_eqb (action b) drawing then
    let currentShapes := shapes (state b) in
    match last currentShapes with
    | None => Some (endGesture b)
    | Some r =>
        lastShape ← heap b !! r;
        let h := <[r := updateBoundingBox (normalize lastShape)]> (heap b) in
        b' ← dispatch (UPDATE_SHAPES currentShapes) (set_heap h b);
        Some (endGesture b')
    end
  else Some (endGesture b).

Definition handleWheel (e : WheelEvent) (b : Whiteboard) : Whiteboard :=
  match editingShapeIndex b with
  | Some _ => b
  | None =>
      let zoomFactor : Q := (if Js.ltb (deltaY e) 0 then 1.1 else 1 / 1.1)%Q in
      let pointerX := (wh_clientX e - wh_rect_left e)%Q in
      let pointerY := (wh_clientY e - wh_rect_top e)%Q in
      let newViewX := (pointerX - (pointerX - vw_x (view b)) * zoomFactor)%Q in
      let newViewY := (pointerY - (pointerY - vw_y (view b)) * zoomFactor)%Q in
      setView {| vw_x := newViewX; vw_y := newViewY;
                 zoom := (Qmax 0.1 (Qmin (zoom (view b) * zoomFactor) 10))%Q |} b
  end.

(** [onChange] of the text area, which is rendered only while
    [shapes[editingShapeIndex]] is a text shape. *)
Definition handleTextChange (value : Js.jsstring) (b : Whiteboard) : option Whiteboard :=
  i ← editingShapeIndex b;
  r ← shapes (state b) !! i;
  shape ← heap b !! r;
  match shape with
  | TextShape base x y _ =>
      let h := <[r := updateBoundingBox (TextShape base x y value)]> (heap b) in
      dispatch (SET_SHAPES_NO_HISTORY (shapes (state b))) (set_heap h b)
  | _ => None
  end.

Inductive Key := KeyDelete | KeyBackspace | KeyZ | KeyY | KeyEscape | KeyOther.

Definition handleKeyDown (key : Key) (ctrlOrMeta : bool) (b : Whiteboard) : option Whiteboard :=
  match key with
  | KeyDelete | KeyBackspace =>
      match selectedIndices b, editingShapeIndex b with
      | _ :: _, None =>
          let newShapes :=
            Js.filter_idx (fun _ index => negb (Js.includes (selectedIndices b) index))
                          (shapes (state b)) in
          b' ← dispatch (UPDATE_SHAPES newShapes) b;
          Some (setSelectedIndices [] b')
      | _, _ => Some b
      end
  | KeyZ => if ctrlOrMeta then dispatch UNDO b else Some b
  | KeyY => if ctrlOrMeta then dispatch REDO b else Some b
  | KeyEscape => finishEditingText b
  | KeyOther => Some b
  end.

(** The Clear All button: [finishEditingText(); dispatch({ type: 'CLEAR' })]. *)
Definition handleClearAll (b : Whiteboard) : option Whiteboard :=
  b' ← finishEditingText b; dispatch CLEAR b'.

(** The events of the board. *)
Inductive Event :=
| PointerDown (now : N) (e : PointerEvent)
| PointerMove (e : PointerEvent)
| PointerUp
| Wheel (e : WheelEvent)
| TextChange (value : Js.jsstring)
| Blur
| KeyDown (key : Key) (ctrlOrMeta : bool)
| ClickTool (t : Tool)
| ClickUndo
| ClickRedo
| ClickClearAll.

Definition handle (ev : Event) (b : Whiteboard) : option Whiteboard :=
  match ev with
  | PointerDown now e => handlePointerDown now e b
  | PointerMove e => handlePointerMove e b
  | PointerUp => handlePointerUp b
  | Wheel e => Some (handleWheel e b)
  | TextChange v => handleTextChange v b
  | Blur => finishEditingText b
  | KeyDown k c => handleKeyDown k c b
  | ClickTool t => Some (setTool t b)
  | ClickUndo => dispatch UNDO b
  | ClickRedo => dispatch REDO b
  | ClickClearAll => handleClearAll b
  end.

Fixpoint run (evs : list Event) (b : Whiteboard) : option Whiteboard :=
  match evs with
  | [] => Some b
  | ev :: rest => b' ← handle ev b; run rest b'
  end.

End Handlers.

(** *** The rest of the component: double click, palette, zoom buttons,
    text area and the transformation the scene is painted under *)

Definition setColor (c : string) (b : Whiteboard) : Whiteboard :=
  {| heap := heap b; state := state b; tool := tool b; ui_color := c;
     ui_stroke := ui_stroke b; eraserStroke := eraserStroke b;
     ui_fontSize := ui_fontSize b; isDrawing := isDrawing b;
     startPoint := startPoint b; selectedIndices := selectedIndices b;
     action := action b; editingShapeIndex := editingShapeIndex b; view := view b |}.

Definition setStroke (s : Q) (b : Whiteboard) : Whiteboard :=
  {| heap := heap b; state := state b; tool := tool b; ui_color := ui_color b;
     ui_stroke := s; eraserStroke := eraserStroke b;
     ui_fontSize := ui_fontSize b; isDrawing := isDrawing b;
     startPoint := startPoint b; selectedIndices := selectedIndices b;
     action := action b; editingShapeIndex := editingShapeIndex b; view := view b |}.

Definition setEraserStroke (s : Q) (b : Whiteboard) : Whiteboard :=
  {| heap := heap b; state := state b; tool := tool b; ui_color := ui_color b;
     ui_stroke := ui_stroke b; eraserStroke := s;
     ui_fontSize := ui_fontSize b; isDrawing := isDrawing b;
     startPoint := startPoint b; selectedIndices := selectedIndices b;
     action := action b; editingShapeIndex := editingShapeIndex b; view := view b |}.

(** The test of the loop of [handleDoubleClick]:
    [shape.type === 'text' && isPointInShape(pos.x, pos.y, shape)]. *)
Definition textHitAt (h : Heap) (cs : list ref) (px py : Q) (i : nat) : bool :=
  match cs !! i with
  | Some r =>
      match h !! r with
      | Some s => Tool_eqb (shape_type s) text && isPointInShape px py s
      | None => false
      end
  | None => false
  end.

Definition handleDoubleClick (e : PointerEvent) (b : Whiteboard) : Whiteboard :=
  let pos := getPointerWorldPos e (view b) in
  match scanDown (textHitAt (heap b) (shapes (state b)) (pt_x pos) (pt_y pos))
                 (length (shapes (state b))) with
  | Some i => setSelectedIndices [i] (setEditingShapeIndex (Some i) (setTool select b))
  | None => b
  end.

(** The object the zoom buttons hand to [handleWheel]: [deltaY] is 100 for
    Zoom Out and -100 for Zoom In, the pointer is the middle of the window,
    and [(canvasLeft, canvasTop)] is where the canvas is. *)
Definition zoomButtonEvent (zoomOut : bool) (innerWidth innerHeight canvasLeft canvasTop : Q)
  : WheelEvent :=
  {| deltaY := if zoomOut then 100 else -100;
     wh_clientX := innerWidth / 2; wh_clientY := innerHeight / 2;
     wh_rect_left := canvasLeft; wh_rect_top := canvasTop |}.

(** The text area, as far as its properties are computed from the state:
    it is rendered while [shapes[editingShapeIndex]] is a text shape.
    [bbox?.height! * view.zoom || 0] is 0 when there is no bounding box. *)
Record TextArea := {
  ta_value : Js.jsstring;
  ta_left : Q;
  ta_top : Q;
  ta_fontSize : Q;
  ta_color : string
}.

Definition textArea (b : Whiteboard) : option TextArea :=
  i ← editingShapeIndex b;
  r ← shapes (state b) !! i;
  shape ← heap b !! r;
  match shape with
  | TextShape base x y t =>
      Some {| ta_value := t;
              ta_left := (x * zoom (view b) + vw_x (view b))%Q;
              ta_top := (y * zoom (view b) + vw_y (view b)
                         - match bbox base with
                           | Some bb => bb_height bb * zoom (view b)
                           | None => 0
                           end)%Q;
              ta_fontSize := (fontSize base * zoom (view b))%Q;
              ta_color := color base |}
  | _ => None
  end.

(** [ctx.translate(view.x, view.y); ctx.scale(view.zoom, view.zoom)] of the
    paint effect. *)
Definition viewTransform (v : ViewState) : Canvas2D.Matrix :=
  Canvas2D.scale (zoom v) (zoom v) (Canvas2D.translate (vw_x v) (vw_y v) Canvas2D.identity).

(** *** Painting

    [Math.PI] and [Math.atan2] are what the engine returns for them. *)

Section Painting.

Import Canvas2D.

Variable Math_PI : Q.
Variable Math_atan2 : Q -> Q -> Q.

Definition drawShape (shape : Shape) : list Cmd :=
  let b := shape_base shape in
  [SetStrokeStyle (color b); SetLineWidth (stroke b); SetLineCap "round"; SetLineJoin "round"]
  ++ match shape with
     | FreehandShape _ _ ps =>
         match ps with
         | [] => []
         | p0 :: _ =>
             [BeginPath; MoveTo (pt_x p0) (pt_y p0)]
             ++ map (fun p => LineTo (pt_x p) (pt_y p)) ps
             ++ [Stroke]
         end
     | RectShape _ x y w h => [StrokeRect x y w h]
     | CircleShape _ x y w h =>
         [BeginPath;
          Ellipse (x + w / 2) (y + h / 2) (Qabs (w / 2)) (Qabs (h / 2)) 0 0 (2 * Math_PI);
          Stroke]
     | ArrowShape _ x1 y1 x2 y2 =>
         let angle := Math_atan2 (y2 - y1) (x2 - x1) in
         [Save; BeginPath; MoveTo x1 y1; LineTo x2 y2; Stroke;
          Translate x2 y2; Rotate angle;
          MoveTo 0 0; LineTo (-12) (-6); MoveTo 0 0; LineTo (-12) 6; Stroke; Restore]
     | TextShape _ x y t =>
         [SetFillStyle (color b); SetFont (fontSize b) "sans-serif"; FillText t x y]
     end%Q.

Definition drawSelectionBox (shape : Shape) (v : ViewState) : list Cmd :=
  match shape_bbox shape with
  | None => []
  | Some bb =>
      let padding : Q := 5%Q in
      [Save; SetStrokeStyle "#007bff"; SetLineWidth (1 / zoom v);
       SetLineDash [4 / zoom v; 4 / zoom v];
       StrokeRect (bb_x bb - padding) (bb_y bb - padding)
                  (bb_width bb + padding * 2) (bb_height bb + padding * 2);
       Restore]%Q
  end.

(** The first pass of the paint effect: every shape but the eraser strokes
    and the shape being edited. *)
Definition paintShapes (editing : option nat) (objs : list Shape) : list Cmd :=
  concat (imap (fun index shape =>
                  if negb (Tool_eqb (shape_type shape) eraser)
                     && negb (bool_decide (editing = Some index))
                  then drawShape shape else [])
               objs).

(** The second pass: the eraser strokes. *)
Definition paintErasers (objs : list Shape) : list Cmd :=
  concat (map (fun shape =>
                 if Tool_eqb (shape_type shape) eraser then drawShape shape else [])
              objs).

Definition paintSelection (selected : list nat) (v : ViewState) (objs : list Shape) : list Cmd :=
  concat (imap (fun index shape =>
                  if Js.includes selected index then drawSelectionBox shape v else [])
               objs).

(** The paint effect on a canvas of [width] by [height] pixels.  The
    objects of the scene are read first; [None] is, in the model only, a
    reference outside the heap. *)
Definition paint (width height : Q) (b : Whiteboard) : option (list Cmd) :=
  objs ← mapM (fun r => heap b !! r) (shapes (state b));
  Some ([SetFillStyle "#f8f9fa"; FillRect 0 0 width height; Save;
         Translate (vw_x (view b)) (vw_y (view b)); Scale (zoom (view b)) (zoom (view b))]
        ++ paintShapes (editingShapeIndex b) objs
        ++ [SetGlobalCompositeOperation destination_out]
        ++ paintErasers objs
        ++ [SetGlobalCompositeOperation source_over]
        ++ (if Tool_eqb (tool b) select
            then paintSelection (selectedIndices b) (view b) objs else [])
        ++ [Restore]).

End Painting.

(** Everything the user can do to the board: the events of [Event], and the
    double click, the pointer leaving the canvas, the palette and the zoom
    buttons. *)
Inductive Input :=
| OnBoard (ev : Event)
| DoubleClick (e : PointerEvent)
| PointerLeave
| ClickColor (c : string)
| ClickStroke (s : Q)
| ClickEraserStroke (s : Q)
| ClickZoom (zoomOut : bool) (innerWidth innerHeight canvasLeft canvasTop : Q).

Section Inputs.

Variable measureText : Q -> Js.jsstring -> TextMetrics.

Definition handleInput (i : Input) (b : Whiteboard) : option Whiteboard :=
  match i with
  | OnBoard ev => handle measureText ev b
  | DoubleClick e => Some (handleDoubleClick e b)
  | PointerLeave => handlePointerUp measureText b
  | ClickColor c => Some (setColor c b)
  | ClickStroke s => Some (setStroke s b)
  | ClickEraserStroke s => Some (setEraserStroke s b)
  | ClickZoom zoomOut w h cl ct =>
      Some (handleWheel (zoomButtonEvent zoomOut w h cl ct) b)
  end.

Fixpoint runInputs (inputs : list Input) (b : Whiteboard) : option Whiteboard :=
  match inputs with
  | [] => Some b
  | i :: rest => b' ← handleInput i b; runInputs rest b'
  end.

(** What the moves of a drag make of the selected object: the pointer goes
    from [start] through the positions [ps], and every move translates the
    object by the step from the position before and recomputes its
    bounding box. *)
Fixpoint dragAlong (start : Point) (ps : list Point) (s : Shape) : Shape :=
  match ps with
  | [] => s
  | p :: rest =>
      dragAlong p rest
        (updateBoundingBox measureText
           (translate (pt_x p - pt_x start) (pt_y p - pt_y start) s))
  end.

End Inputs.

(** *** Notions the properties are stated with *)

(** The [onChange] of the text area can only come while the text area is
    rendered. *)
Definition needs_text_area (i : Input) : bool :=
  match i with
  | OnBoard (TextChange _) => true
  | _ => false
  end.

(** The indices the component keeps point into the scene on display. *)
Definition indices_inside (b : Whiteboard) : Prop :=
  (forall i, editingShapeIndex b = Some i -> (i < length (shapes (state b)))%nat)
  /\ Forall (fun i => (i < length (shapes (state b)))%nat) (selectedIndices b).

(** The scene on display is the snapshot under the cursor. *)
Definition in_sync (s : AppState) : Prop :=
  Js.get (history s) (historyIndex s) = Some (shapes s).

(** The strokes of the eraser. *)
Definition is_eraser (s : Shape) : bool := Tool_eqb (shape_type s) eraser.




(** The state the two committing branches of [reducer] build for the
    scene [scene]. *)
Definition commitScene (scene : list ref) (s : AppState) : AppState :=
  {| shapes := scene;
     history := Js.slice0 (history s) (historyIndex s + 1) ++ [scene];
     historyIndex :=
       Z.of_nat (length (Js.slice0 (history s) (historyIndex s + 1) ++ [scene])) - 1 |}.

(** A rectangle or, when [ellipse] is set, an ellipse: the two kinds that
    share origin, width and height. *)
Definition boxShape (ellipse : bool) (base : BaseShape) (x y width height : Q) : Shape :=
  if ellipse then CircleShape base x y width height else RectShape base x y width height.

(** Every reference of the scene on display and of the snapshots is below
    [n]. *)
Definition refs_below (n : nat) (s : AppState) : Prop :=
  Forall (fun r => (r < n)%nat) (shapes s)
  /\ Forall (Forall (fun r => (r < n)%nat)) (history s).

(** A board is well formed when its cursor points at a snapshot and all its
    references point into its heap. *)
Definition wf (b : Whiteboard) : Prop :=
  Js.inside (history (state b)) (historyIndex (state b))
  /\ refs_below (length (heap b)) (state b).

(** What the payload of an action has to satisfy to keep references below
    [n]. *)
Definition payload_below (n : nat) (a : AppAction) : Prop :=
  match a with
  | ADD_SHAPE r => (r < n)%nat
  | UPDATE_SHAPES l | SET_SHAPES_NO_HISTORY l => Forall (fun r => (r < n)%nat) l
  | _ => True
  end.

(** The rigid kinds: rectangle, ellipse, arrow and text. *)
Definition is_rigid (s : Shape) : bool :=
  match shape_type s with
  | rect | circle | arrow | text => true
  | _ => false
  end.

(** The object behind [r] is of a rigid kind and its bounding box
    intersects [box]. *)
Definition erased (h : Heap) (box : BBox) (r : ref) : bool :=
  match h !! r with
  | Some s =>
      is_rigid s
      && match shape_bbox s with
         | Some bb => boxesIntersect box bb
         | None => false
         end
  | None => false
  end.

(** Two boxes overlap: on each axis, each begins before the other ends. *)
Definition overlaps (a b : BBox) : Prop :=
  (bb_x a < bb_x b + bb_width b /\ bb_x b < bb_x a + bb_width a
   /\ bb_y a < bb_y b + bb_height b /\ bb_y b < bb_y a + bb_height a)%Q.

(** The object behind [r] is of a rigid kind and has a bounding box that
    overlaps [box]. *)
Definition wiped (h : Heap) (box : BBox) (r : ref) : Prop :=
  exists s bb,
    h !! r = Some s /\ is_rigid s = true /\ shape_bbox s = Some bb /\ overlaps box bb.


(** The events of a change in progress: the pointer moves, or the content
    of the text area changes. *)
Definition in_progress (ev : Event) : bool :=
  match ev with
  | PointerMove _ | TextChange _ => true
  | _ => false
  end.


End Board.

(** ** The room board *)

Module Room.

Import Types.

Record WhiteboardElement := {
  id : string;
  type : Tool;
  points : list Point;
  color : string;
  strokeWidth : Q;
  fontSize : option Q;
  text : option Js.jsstring;
  bbox : option BBox
}.

(** [Partial<WhiteboardElement>]: [Some v] is a property that is present. *)
Record Updates := {
  u_id : option string;
  u_type : option Tool;
  u_points : option (list Point);
  u_color : option string;
  u_strokeWidth : option Q;
  u_fontSize : option Q;
  u_text : option Js.jsstring;
  u_bbox : option BBox
}.

(** [{ ...el, ...updates }]. *)
Definition merge (el : WhiteboardElement) (u : Updates) : WhiteboardElement :=
  {| id := default (id el) (u_id u);
     type := default (type el) (u_type u);
     points := default (points el) (u_points u);
     color := default (color el) (u_color u);
     strokeWidth := default (strokeWidth el) (u_strokeWidth u);
     fontSize := match u_fontSize u with Some v => Some v | None => fontSize el end;
     text := match u_text u with Some v => Some v | None => text el end;
     bbox := match u_bbox u with Some v => Some v | None => bbox el end |}.

Record WhiteboardState := {
  elements : list WhiteboardElement;
  selectedElementIds : list string;
  history : list (list WhiteboardElement);
  historyIndex : Z;
  zoom : Q;
  pan : Point
}.

Inductive WhiteboardAction :=
| ADD_ELEMENT (element : WhiteboardElement)
| UPDATE_ELEMENT (id : string) (updates : Updates)
| DELETE_ELEMENTS (ids : list string)
| SELECT_ELEMENTS (ids : list string)
| CLEAR_SELECTION
| UNDO
| REDO
| CLEAR_ALL
| SET_ZOOM (zoom : Q)
| SET_PAN (pan : Point)
| LOAD_STATE (state : list WhiteboardElement).

(** [ids.includes(id)]. *)
Definition includes (ids : list string) (i : string) : bool :=
  existsb (String.eqb i) ids.

(** [whiteboardReducer]; as in [Board.reducer], [None] is a read of
    [state.history] outside its bounds. *)
Definition whiteboardReducer (state : WhiteboardState) (action : WhiteboardAction)
  : option WhiteboardState :=
  match action with
  | ADD_ELEMENT element =>
      let newElements := elements state ++ [element] in
      Some {| elements := newElements;
              selectedElementIds := selectedElementIds state;
              history := Js.slice0 (history state) (historyIndex state + 1) ++ [newElements];
              historyIndex := historyIndex state + 1;
              zoom := zoom state; pan := pan state |}
  | UPDATE_ELEMENT i updates =>
      let updatedElements :=
        map (fun el => if String.eqb (id el) i then merge el updates else el)
            (elements state) in
      Some {| elements := updatedElements;
              selectedElementIds := selectedElementIds state;
              history := history state; historyIndex := historyIndex state;
              zoom := zoom state; pan := pan state |}
  | DELETE_ELEMENTS ids =>
      let filteredElements :=
        List.filter (fun el => negb (includes ids (id el))) (elements state) in
      Some {| elements := filteredElements;
              selectedElementIds := [];
              history := Js.slice0 (history state) (historyIndex state + 1) ++ [filteredElements];
              historyIndex := historyIndex state + 1;
              zoom := zoom state; pan := pan state |}
  | SELECT_ELEMENTS ids =>
      Some {| elements := elements state;
              selectedElementIds := ids;
              history := history state; historyIndex := historyIndex state;
              zoom := zoom state; pan := pan state |}
  | CLEAR_SELECTION =>
      Some {| elements := elements state;
              selectedElementIds := [];
              history := history state; historyIndex := historyIndex state;
              zoom := zoom state; pan := pan state |}
  | UNDO =>
      if 0 <? historyIndex state then
        match Js.get (history state) (historyIndex state - 1) with
        | Some scene =>
            Some {| elements := scene;
                    selectedElementIds := [];
                    history := history state; historyIndex := historyIndex state - 1;
                    zoom := zoom state; pan := pan state |}
        | None => None
        end
      else Some state
  | REDO =>
      if historyIndex state <? Z.of_nat (length (history state)) - 1 then
        match Js.get (history state) (historyIndex state + 1) with
        | Some scene =>
            Some {| elements := scene;
                    selectedElementIds := [];
                    history := history state; historyIndex := historyIndex state + 1;
                    zoom := zoom state; pan := pan state |}
        | None => None
        end
      else Some state
  | CLEAR_ALL =>
      let emptyElements : list WhiteboardElement := [] in
      Some {| elements := emptyElements;
              selectedElementIds := [];
              history := Js.slice0 (history state) (historyIndex state + 1) ++ [emptyElements];
              historyIndex := historyIndex state + 1;
              zoom := zoom state; pan := pan state |}
  | SET_ZOOM z =>
      Some {| elements := elements state;
              selectedElementIds := selectedElementIds state;
              history := history state; historyIndex := historyIndex state;
              zoom := (Qmax 0.1 (Qmin 5 z))%Q; pan := pan state |}
  | SET_PAN p =>
      Some {| elements := elements state;
              selectedElementIds := selectedElementIds state;
              history := history state; historyIndex := historyIndex state;
              zoom := zoom state; pan := p |}
  | LOAD_STATE data =>
      Some {| elements := data;
              selectedElementIds := selectedElementIds state;
              history := history state; historyIndex := historyIndex state;
              zoom := zoom state; pan := pan state |}
  end.

(** The argument of [useReducer]. *)
Definition initialState : WhiteboardState :=
  {| elements := []; selectedElementIds := []; history := [[]]; historyIndex := 0;
     zoom := 1; pan := {| pt_x := 0; pt_y := 0 |} |}.

(** The actions that record a snapshot. *)
Definition is_commit (action : WhiteboardAction) : bool :=
  match action with
  | ADD_ELEMENT _ | DELETE_ELEMENTS _ | CLEAR_ALL => true
  | _ => false
  end.

Fixpoint reduce_all (actions : list WhiteboardAction) (state : WhiteboardState)
  : option WhiteboardState :=
  match actions with
  | [] => Some state
  | a :: rest => s ← whiteboardReducer state a; reduce_all rest s
  end.

(** *** The component *)

Record TextInput := { ti_x : Q; ti_y : Q; ti_value : Js.jsstring }.

Record MouseEvent := {
  clientX : Q;
  clientY : Q;
  rect_left : Q;
  rect_top : Q
}.

(** The state of [WhiteboardCanvas]: the reducer state and the [useState]
    cells.  What is sent to the socket is not part of the state. *)
Record Canvas := {
  state : WhiteboardState;
  currentTool : Tool;
  currentColor : string;
  currentStroke : Q;
  currentFontSize : Q;
  isDrawing : bool;
  currentElement : option WhiteboardElement;
  startPoint : option Point;
  textInput : option TextInput
}.

Definition set_state (s : WhiteboardState) (c : Canvas) : Canvas :=
  {| state := s; currentTool := currentTool c; currentColor := currentColor c;
     currentStroke := currentStroke c; currentFontSize := currentFontSize c;
     isDrawing := isDrawing c; currentElement := currentElement c;
     startPoint := startPoint c; textInput := textInput c |}.

Definition setCurrentTool (t : Tool) (c : Canvas) : Canvas :=
  {| state := state c; currentTool := t; currentColor := currentColor c;
     currentStroke := currentStroke c; currentFontSize := currentFontSize c;
     isDrawing := isDrawing c; currentElement := currentElement c;
     startPoint := startPoint c; textInput := textInput c |}.

Definition setIsDrawing (d : bool) (c : Canvas) : Canvas :=
  {| state := state c; currentTool := currentTool c; currentColor := currentColor c;
     currentStroke := currentStroke c; currentFontSize := currentFontSize c;
     isDrawing := d; currentElement := currentElement c;
     startPoint := startPoint c; textInput := textInput c |}.

Definition setCurrentElement (el : option WhiteboardElement) (c : Canvas) : Canvas :=
  {| state := state c; currentTool := currentTool c; currentColor := currentColor c;
     currentStroke := currentStroke c; currentFontSize := currentFontSize c;
     isDrawing := isDrawing c; currentElement := el;
     startPoint := startPoint c; textInput := textInput c |}.

Definition setStartPoint (p : option Point) (c : Canvas) : Canvas :=
  {| state := state c; currentTool := currentTool c; currentColor := currentColor c;
     currentStroke := currentStroke c; currentFontSize := currentFontSize c;
     isDrawing := isDrawing c; currentElement := currentElement c;
     startPoint := p; textInput := textInput c |}.

Definition setTextInput (t : option TextInput) (c : Canvas) : Canvas :=
  {| state := state c; currentTool := currentTool c; currentColor := currentColor c;
     currentStroke := currentStroke c; currentFontSize := currentFontSize c;
     isDrawing := isDrawing c; currentElement := currentElement c;
     startPoint := startPoint c; textInput := t |}.

Definition dispatch (a : WhiteboardAction) (c : Canvas) : option Canvas :=
  s ← whiteboardReducer (state c) a; Some (set_state s c).

(** [TOOLS.FREEHAND], [COLORS[0]], [STROKES[1]], [FONT_SIZES[0]]. *)
Definition initialCanvas : Canvas :=
  {| state := initialState; currentTool := freehand; currentColor := "#1e1e1e";
     currentStroke := 4; currentFontSize := 16; isDrawing := false;
     currentElement := None; startPoint := None; textInput := None |}.

Definition getMousePos (e : MouseEvent) (c : Canvas) : Point :=
  {| pt_x := (clientX e - rect_left e - pt_x (pan (state c)) * zoom (state c)) / zoom (state c);
     pt_y := (clientY e - rect_top e - pt_y (pan (state c)) * zoom (state c)) / zoom (state c) |}.

(** The callback of the eraser's [findLast].  [Math.hypot(dx, dy) < 10] is
    read as [dx * dx + dy * dy < 100]. *)
Definition eraserHits (point : Point) (el : WhiteboardElement) : bool :=
  match type el with
  | freehand =>
      existsb (fun p =>
                 Js.ltb ((pt_x p - pt_x point) * (pt_x p - pt_x point)
                         + (pt_y p - pt_y point) * (pt_y p - pt_y point)) 100)
              (points el)
  | _ =>
      match points el with
      | [] => false
      | p :: rest =>
          let minX := Js.minOf (pt_x p) (map pt_x rest) in
          let maxX := Js.maxOf (pt_x p) (map pt_x rest) in
          let minY := Js.minOf (pt_y p) (map pt_y rest) in
          let maxY := Js.maxOf (pt_y p) (map pt_y rest) in
          Js.leb minX (pt_x point) && Js.leb (pt_x point) maxX
          && Js.leb minY (pt_y point) && Js.leb (pt_y point) maxY
      end
  end.

(** [a.findLast(f)]. *)
Definition findLast {A : Type} (f : A -> bool) (a : list A) : option A :=
  List.find f (rev a).

Definition newElement (now : N) (c : Canvas) (point : Point) : WhiteboardElement :=
  {| id := pretty now; type := currentTool c; points := [point];
     color := currentColor c; strokeWidth := currentStroke c;
     fontSize := None; text := None; bbox := None |}.

Definition handleMouseDown (now : N) (e : MouseEvent) (c : Canvas) : option Canvas :=
  let point := getMousePos e c in
  match currentTool c with
  | eraser =>
      match findLast (eraserHits point) (elements (state c)) with
      | Some hitElement => dispatch (DELETE_ELEMENTS [id hitElement]) c
      | None => Some c
      end
  | Types.text =>
      Some (setTextInput (Some {| ti_x := pt_x point; ti_y := pt_y point; ti_value := [] |}) c)
  | freehand | rect | circle | arrow =>
      Some (setCurrentElement (Some (newElement now c point))
              (setStartPoint (Some point) (setIsDrawing true c)))
  | select | Types.pan =>
      Some (setStartPoint (Some point) (setIsDrawing true c))
  end.

Definition with_points (el : WhiteboardElement) (ps : list Point) : WhiteboardElement :=
  {| id := id el; type := type el; points := ps; color := color el;
     strokeWidth := strokeWidth el; fontSize := fontSize el; text := text el;
     bbox := bbox el |}.

Definition handleMouseMove (e : MouseEvent) (c : Canvas) : option Canvas :=
  match isDrawing c, currentElement c with
  | true, Some el =>
      let point := getMousePos e c in
      match currentTool c with
      | freehand => Some (setCurrentElement (Some (with_points el (points el ++ [point]))) c)
      | rect | circle | arrow =>
          (* [currentElement.points[0]]: an element in progress has a point *)
          p0 ← head (points el);
          Some (setCurrentElement (Some (with_points el [p0; point])) c)
      | _ => Some c
      end
  | _, _ => Some c
  end.

Definition handleMouseUp (c : Canvas) : option Canvas :=
  match currentElement c with
  | Some el =>
      c' ← dispatch (ADD_ELEMENT el) c;
      Some (setStartPoint None (setIsDrawing false (setCurrentElement None c')))
  | None => Some (setStartPoint None (setIsDrawing false c))
  end.

Definition handleUndo (c : Canvas) : option Canvas := dispatch UNDO c.
Definition handleRedo (c : Canvas) : option Canvas := dispatch REDO c.
Definition handleClear (c : Canvas) : option Canvas := dispatch CLEAR_ALL c.

Definition handleZoomIn (c : Canvas) : option Canvas :=
  dispatch (SET_ZOOM (zoom (state c) * 1.2)) c.

Definition handleZoomOut (c : Canvas) : option Canvas :=
  dispatch (SET_ZOOM (zoom (state c) / 1.2)) c.

(** [onChange] and [onBlur] of the text input, which exists while
    [textInput] is set. *)
Definition handleTextInputChange (value : Js.jsstring) (c : Canvas) : option Canvas :=
  t ← textInput c;
  Some (setTextInput (Some {| ti_x := ti_x t; ti_y := ti_y t; ti_value := value |}) c).

Definition textElement (now : N) (c : Canvas) (t : TextInput) : WhiteboardElement :=
  {| id := pretty now; type := Types.text;
     points := [{| pt_x := ti_x t; pt_y := ti_y t |}];
     color := currentColor c; strokeWidth := 1;
     fontSize := Some (currentFontSize c); text := Some (ti_value t); bbox := None |}.

Definition handleTextInputBlur (now : N) (c : Canvas) : option Canvas :=
  t ← textInput c;
  if negb (Js.isEmptyString (Js.trim (ti_value t))) then
    c' ← dispatch (ADD_ELEMENT (textElement now c t)) c;
    Some (setTextInput None c')
  else Some (setTextInput None c).

(** [socket.on('whiteboard-update', data => dispatch LOAD_STATE)]. *)
Definition onWhiteboardUpdate (data : list WhiteboardElement) (c : Canvas) : option Canvas :=
  dispatch (LOAD_STATE data) c.

Inductive Event :=
| MouseDown (now : N) (e : MouseEvent)
| MouseMove (e : MouseEvent)
| MouseUp
| ClickTool (t : Tool)
| ClickUndo
| ClickRedo
| ClickClear
| ClickZoomIn
| ClickZoomOut
| TextInputChange (value : Js.jsstring)
| TextInputBlur (now : N)
| WhiteboardUpdate (data : list WhiteboardElement).

Definition handle (ev : Event) (c : Canvas) : option Canvas :=
  match ev with
  | MouseDown now e => handleMouseDown now e c
  | MouseMove e => handleMouseMove e c
  | MouseUp => handleMouseUp c
  | ClickTool t => Some (setCurrentTool t c)
  | ClickUndo => handleUndo c
  | ClickRedo => handleRedo c
  | ClickClear => handleClear c
  | ClickZoomIn => handleZoomIn c
  | ClickZoomOut => handleZoomOut c
  | TextInputChange v => handleTextInputChange v c
  | TextInputBlur now => handleTextInputBlur now c
  | WhiteboardUpdate data => onWhiteboardUpdate data c
  end.

Fixpoint run (evs : list Event) (c : Canvas) : option Canvas :=
  match evs with
  | [] => Some c
  | ev :: rest => c' ← handle ev c; run rest c'
  end.

(** *** The rest of the component: palette, the Enter key, the position of
    the text input and the transformation the scene is painted under *)

Definition setCurrentColor (col : string) (c : Canvas) : Canvas :=
  {| state := state c; currentTool := currentTool c; currentColor := col;
     currentStroke := currentStroke c; currentFontSize := currentFontSize c;
     isDrawing := isDrawing c; currentElement := currentElement c;
     startPoint := startPoint c; textInput := textInput c |}.

Definition setCurrentStroke (s : Q) (c : Canvas) : Canvas :=
  {| state := state c; currentTool := currentTool c; currentColor := currentColor c;
     currentStroke := s; currentFontSize := currentFontSize c;
     isDrawing := isDrawing c; currentElement := currentElement c;
     startPoint := startPoint c; textInput := textInput c |}.


(** [ctx.scale(state.zoom, state.zoom); ctx.translate(state.pan.x, state.pan.y)]
    of the paint effect. *)
Definition viewTransform (s : WhiteboardState) : Canvas2D.Matrix :=
  Canvas2D.translate (pt_x (pan s)) (pt_y (pan s))
    (Canvas2D.scale (zoom s) (zoom s) Canvas2D.identity).

(** *** Painting

    [Math.PI], [Math.atan2], [Math.sqrt], [Math.cos] and [Math.sin] are what
    the engine returns for them. *)

Section Painting.

Import Canvas2D.

Variable Math_PI : Q.
Variable Math_atan2 : Q -> Q -> Q.
Variable Math_sqrt Math_cos Math_sin : Q -> Q.

Definition drawArrow (start end_ : Point) : list Cmd :=
  let headLength : Q := 10%Q in
  let angle := Math_atan2 (pt_y end_ - pt_y start) (pt_x end_ - pt_x start) in
  [BeginPath; MoveTo (pt_x start) (pt_y start); LineTo (pt_x end_) (pt_y end_); Stroke;
   BeginPath; MoveTo (pt_x end_) (pt_y end_);
   LineTo (pt_x end_ - headLength * Math_cos (angle - Math_PI / 6))
          (pt_y end_ - headLength * Math_sin (angle - Math_PI / 6));
   MoveTo (pt_x end_) (pt_y end_);
   LineTo (pt_x end_ - headLength * Math_cos (angle + Math_PI / 6))
          (pt_y end_ - headLength * Math_sin (angle + Math_PI / 6));
   Stroke]%Q.

Definition drawElement (element : WhiteboardElement) : list Cmd :=
  [SetStrokeStyle (color element); SetLineWidth (strokeWidth element);
   SetLineCap "round"; SetLineJoin "round"]
  ++ match type element with
     | freehand =>
         match points element with
         | p0 :: ((_ :: _) as rest) =>
             [BeginPath; MoveTo (pt_x p0) (pt_y p0)]
             ++ map (fun p => LineTo (pt_x p) (pt_y p)) rest
             ++ [Stroke]
         | _ => []
         end
     | rect =>
         match points element with
         | [start; end_] =>
             [StrokeRect (pt_x start) (pt_y start)
                         (pt_x end_ - pt_x start) (pt_y end_ - pt_y start)]
         | _ => []
         end
     | circle =>
         match points element with
         | [start; end_] =>
             let radius :=
               Math_sqrt ((pt_x end_ - pt_x start) ^ 2 + (pt_y end_ - pt_y start) ^ 2) in
             [BeginPath; Arc (pt_x start) (pt_y start) radius 0 (2 * Math_PI); Stroke]
         | _ => []
         end
     | arrow =>
         match points element with
         | [start; end_] => drawArrow start end_
         | _ => []
         end
     | Types.text =>
         match points element, text element with
         | p0 :: _, Some ((_ :: _) as t) =>
             [SetFont (match fontSize element with
                       | Some size => if Qeq_bool size 0 then 16 else size
                       | None => 16
                       end) "Arial";
              SetFillStyle (color element); FillText t (pt_x p0) (pt_y p0)]
         | _, _ => []
         end
     | _ => []
     end%Q.

(** The paint effect on a canvas of [width] by [height] pixels. *)
Definition paint (width height : Q) (c : Canvas) : list Cmd :=
  [ClearRect 0 0 width height; Save;
   Scale (zoom (state c)) (zoom (state c));
   Translate (pt_x (pan (state c))) (pt_y (pan (state c)))]
  ++ concat (map drawElement (elements (state c)))
  ++ match currentElement c with
     | Some el => drawElement el
     | None => []
     end
  ++ match textInput c with
     | Some t =>
         [SetFont (currentFontSize c) "Arial"; SetFillStyle (currentColor c);
          FillText (ti_value t) (ti_x t) (ti_y t)]
     | None => []
     end
  ++ [Restore].

End Painting.

(** Everything the user and the socket can do to the board: the events of
    [Event], the pointer leaving the canvas, the palette, and Enter in the
    text input, which blurs it. *)
Inductive Input :=
| OnCanvas (ev : Event)
| MouseLeave
| ClickColor (col : string)
| ClickStroke (s : Q)
| PressEnter (now : N).

Definition handleInput (i : Input) (c : Canvas) : option Canvas :=
  match i with
  | OnCanvas ev => handle ev c
  | MouseLeave => handleMouseUp c
  | ClickColor col => Some (setCurrentColor col c)
  | ClickStroke s => Some (setCurrentStroke s c)
  | PressEnter now => handleTextInputBlur now c
  end.

Fixpoint runInputs (inputs : list Input) (c : Canvas) : option Canvas :=
  match inputs with
  | [] => Some c
  | i :: rest => c' ← handleInput i c; runInputs rest c'
  end.

(** *** What is sent to the socket

    [emitWhiteboardUpdate] is a closure of the render that made the handler:
    the [state] it reads is the constant of that render, that is the state
    the handler started from, whether it is called at once (undo, redo,
    clear) or from [setTimeout] (the other handlers).  A [dispatch] of the
    handler changes the state of the next render only.  The socket is
    taken to be connected. *)

(** The [data] of the message of [emitWhiteboardUpdate] as made by the
    render of [c]. *)
Definition emitWhiteboardUpdate (c : Canvas) : list WhiteboardElement :=
  elements (state c).

(** The [data] the handler of [i], made by the render of [c], sends;
    [None] when it sends nothing. *)
Definition emitted (i : Input) (c : Canvas) : option (list WhiteboardElement) :=
  match i with
  | OnCanvas (MouseDown now e) =>
      match currentTool c with
      | eraser =>
          match findLast (eraserHits (getMousePos e c)) (elements (state c)) with
          | Some _ => Some (emitWhiteboardUpdate c)
          | None => None
          end
      | _ => None
      end
  | OnCanvas MouseUp | MouseLeave =>
      match currentElement c with
      | Some _ => Some (emitWhiteboardUpdate c)
      | None => None
      end
  | OnCanvas ClickUndo | OnCanvas ClickRedo | OnCanvas ClickClear =>
      Some (emitWhiteboardUpdate c)
  | OnCanvas (TextInputBlur _) | PressEnter _ =>
      t ← textInput c;
      if negb (Js.isEmptyString (Js.trim (ti_value t))) then Some (emitWhiteboardUpdate c)
      else None
  | _ => None
  end.

(** *** Notions the properties are stated with *)

(** The scene on display is the snapshot under the cursor. *)
Definition in_sync (s : WhiteboardState) : Prop :=
  Js.get (history s) (historyIndex s) = Some (elements s).

(** The inputs that come from the text input, which exists while
    [textInput] is set. *)
Definition needs_text_input (i : Input) : bool :=
  match i with
  | OnCanvas (TextInputChange _) | OnCanvas (TextInputBlur _) | PressEnter _ => true
  | _ => false
  end.

(** What every handler of the room board keeps: the cursor points at a
    snapshot, the scene is not panned, nothing is selected, the zoom is
    within its bounds and an element in progress has a point. *)
Record kept (c : Canvas) : Prop := {
  kept_inside : Js.inside (history (state c)) (historyIndex (state c));
  kept_pan : pan (state c) = {| pt_x := 0; pt_y := 0 |};
  kept_selection : selectedElementIds (state c) = [];
  kept_zoom : Js.within 0.1 5 (zoom (state c));
  kept_points : forall el, currentElement c = Some el -> points el <> []
}.

(** The points of the element in progress after the pointer went through
    [ps]: the pencil appends them, the two-point tools keep the first point
    and the last position. *)
Definition extended (freehandTool : bool) (pts : list Point) (ps : list Point) : list Point :=
  if freehandTool then pts ++ ps
  else match last ps with
       | Some p => match pts with p0 :: _ => [p0; p] | [] => pts end
       | None => pts
       end.

(** The pointer is nearer than 10 to [p]. *)
Definition near (point p : Point) : Prop :=
  ((pt_x p - pt_x point) * (pt_x p - pt_x point)
   + (pt_y p - pt_y point) * (pt_y p - pt_y point) < 100)%Q.

(** The element is under the pointer: a freehand element has a point near
    the pointer; of any other element, some point is not right of the
    pointer, some is not left of it, some is not below it and some is not
    above it. *)
Definition under_pointer (point : Point) (el : WhiteboardElement) : Prop :=
  match type el with
  | freehand => exists p, p ∈ points el /\ near point p
  | _ =>
      (exists p, p ∈ points el /\ (pt_x p <= pt_x point)%Q)
      /\ (exists p, p ∈ points el /\ (pt_x point <= pt_x p)%Q)
      /\ (exists p, p ∈ points el /\ (pt_y p <= pt_y point)%Q)
      /\ (exists p, p ∈ points el /\ (pt_y point <= pt_y p)%Q)
  end.

(** The events of a change in progress: the pointer moves, or the content
    of the text input changes. *)
Definition in_progress (ev : Event) : bool :=
  match ev with
  | MouseMove _ | TextInputChange _ => true
  | _ => false
  end.

End Room.

(** ** The page that opens a room

    [Meet] makes the identifier of the room that [MeetInterface] hands to
    [WhiteboardCanvas]. *)

Module Meet.

(** The code units of a string of ASCII characters. *)
Definition fromAscii (s : string) : Js.jsstring :=
  map (fun a => N_of_ascii a) (list_ascii_of_string s).

(** [x | 0], that is [ToInt32(x)]: the fraction is cut off and the integer
    is taken modulo 2^32 into the signed range. *)
Definition toInt32 (x : Q) : Z :=
  let t := if Qle_bool 0 x then Qround.Qfloor x else Qround.Qceiling x in
  (t + 2 ^ 31) mod 2 ^ 32 - 2 ^ 31.

(** [v.toString(16)] for an integer [v]. *)
Definition toString16 (v : Z) : Js.jsstring :=
  fromAscii (HexadecimalString.NilZero.string_of_int (Z.to_hex_int v)).

Definition template : Js.jsstring := fromAscii "xxxxxxxx-xxxx-4xxx-yxxx-xxxxxxxxxxxx".

(** The callback of the [replace]: [c] is the matched character, [rnd] what
    [Math.random()] returned. *)
Definition replacement (c : N) (rnd : Q) : Js.jsstring :=
  let r := toInt32 (rnd * 16) in
  let v := if (c =? 120)%N then r else Z.lor (Z.land r 3) 8 in
  toString16 v.

(** [s.replace(/[xy]/g, callback)]: the matches are replaced from left to
    right.  [random k] is what the [k]-th call of [Math.random] returns;
    the number of calls made so far is threaded through. *)
Fixpoint replaceXY (random : nat -> Q) (k : nat) (s : Js.jsstring) : Js.jsstring * nat :=
  match s with
  | [] => ([], k)
  | c :: rest =>
      if ((c =? 120) || (c =? 121))%N then
        let '(out, k') := replaceXY random (S k) rest in
        (replacement c (random k) ++ out, k')
      else
        let '(out, k') := replaceXY random k rest in
        (c :: out, k')
  end.

Definition generateUUID (random : nat -> Q) (k : nat) : Js.jsstring * nat :=
  replaceXY random k template.

(** *** The component [Meet]

    The state of the page: the [useState] cells, the item [userName] of
    [localStorage], the toasts shown so far, the path that
    [history.replaceState] left in the address bar and, for every
    [setTimeout] that has not fired yet, the [userName] its callback closed
    over. *)

Inductive ToastKind := toast_error | toast_success | toast_info.

Record Page := {
  userName : Js.jsstring;
  isJoining : bool;
  hasJoined : bool;
  currentRoomId : Js.jsstring;
  storedUserName : option Js.jsstring;
  toasts : list (ToastKind * Js.jsstring);
  path : option Js.jsstring;
  timers : list Js.jsstring
}.

(** The page as the [useState] calls initialise it; [stored] is what
    [localStorage] holds. *)
Definition initialPage (stored : option Js.jsstring) : Page :=
  {| userName := []; isJoining := false; hasJoined := false; currentRoomId := [];
     storedUserName := stored; toasts := []; path := None; timers := [] |}.

(** The effect that runs when the page is mounted; [roomId] is the
    parameter of the route.  A string is truthy when it is not empty. *)
Definition mount (roomId : option Js.jsstring) (random : nat -> Q) (k : nat) (p : Page)
  : Page * nat :=
  let '(room, newPath, k') :=
    match roomId with
    | Some ((_ :: _) as r) => (r, path p, k)
    | _ =>
        let '(newRoomId, k') := generateUUID random k in
        (newRoomId, Some (fromAscii "/meet/" ++ newRoomId), k')
    end in
  ({| userName := match storedUserName p with
                  | Some ((_ :: _) as savedUserName) => savedUserName
                  | _ => userName p
                  end;
      isJoining := isJoining p; hasJoined := hasJoined p; currentRoomId := room;
      storedUserName := storedUserName p; toasts := toasts p; path := newPath;
      timers := timers p |}, k').

(** [onChange] of the name field. *)
Definition setUserName (value : Js.jsstring) (p : Page) : Page :=
  {| userName := value; isJoining := isJoining p; hasJoined := hasJoined p;
     currentRoomId := currentRoomId p; storedUserName := storedUserName p;
     toasts := toasts p; path := path p; timers := timers p |}.

Definition toast (kind : ToastKind) (message : Js.jsstring) (p : Page) : Page :=
  {| userName := userName p; isJoining := isJoining p; hasJoined := hasJoined p;
     currentRoomId := currentRoomId p; storedUserName := storedUserName p;
     toasts := toasts p ++ [(kind, message)]; path := path p; timers := timers p |}.

Definition handleJoinRoom (p : Page) : Page :=
  if Js.isEmptyString (Js.trim (userName p)) then
    toast toast_error (fromAscii "Please enter your name") p
  else if Js.isEmptyString (currentRoomId p) then
    toast toast_error (fromAscii "Invalid room ID") p
  else
    {| userName := userName p; isJoining := true; hasJoined := hasJoined p;
       currentRoomId := currentRoomId p;
       storedUserName := Some (Js.trim (userName p));
       toasts := toasts p; path := path p;
       timers := timers p ++ [userName p] |}.

(** The oldest pending [setTimeout] fires. *)
Definition timerFires (p : Page) : Page :=
  match timers p with
  | [] => p
  | name :: rest =>
      {| userName := userName p; isJoining := false; hasJoined := true;
         currentRoomId := currentRoomId p; storedUserName := storedUserName p;
         toasts := toasts p ++ [(toast_success, fromAscii "Joining room as " ++ Js.trim name)];
         path := path p; timers := rest |}
  end.

(** What [MeetInterface] is rendered with, once the user has joined:
    [roomId] and [userName]. *)
Definition meetInterfaceProps (p : Page) : option (Js.jsstring * Js.jsstring) :=
  if hasJoined p then Some (currentRoomId p, userName p) else None.

(** *** Notions the properties are stated with *)

(** A digit of lower-case hexadecimal. *)
Definition isHexDigit (c : N) : bool :=
  ((48 <=? c) && (c <=? 57) || (97 <=? c) && (c <=? 102))%N.

(** The digits 8, 9, a and b. *)
Definition isVariantDigit (c : N) : bool :=
  ((c =? 56) || (c =? 57) || (c =? 97) || (c =? 98))%N.

(** The shape of a version 4 UUID: 8-4-4-4-12 hexadecimal digits between
    hyphens, the digit after the second hyphen is 4 and the one after the
    third is 8, 9, a or b. *)
Definition isUUIDv4 (s : Js.jsstring) : bool :=
  (length s =? 36)%nat
  && forallb (fun '(i, c) =>
                if (i =? 8)%nat || (i =? 13)%nat || (i =? 18)%nat || (i =? 23)%nat
                then (c =? 45)%N
                else if (i =? 14)%nat then (c =? 52)%N
                else if (i =? 19)%nat then isVariantDigit c
                else isHexDigit c)
             (imap (fun i c => (i, c)) s).

End Meet.

(** ** The arithmetic of the standalone board on IEEE doubles

    A double is a [spec_float] of the Standard Library with 53 bits of
    precision and the exponents of binary64; its operations round to the
    nearest, ties to even, as the engine's do.  Below are the expressions
    of [getPointerWorldPos], of the text area, of the drawing and of the
    bounding box of an arrow on doubles.  Only the horizontal coordinate is
    given; the vertical one is computed alike. *)

Module Float64.

Import SpecFloat.

Definition number : Type := spec_float.

Definition ofZ (n : Z) : number := binary_normalize 53 1024 n 0 false.

Definition add (a b : number) : number := SFadd 53 1024 a b.
Definition sub (a b : number) : number := SFsub 53 1024 a b.
Definition mul (a b : number) : number := SFmul 53 1024 a b.
Definition div (a b : number) : number := SFdiv 53 1024 a b.
Definition abs (a : number) : number := SFabs a.
Definition ltb (a b : number) : bool := SFltb a b.
Definition leb (a b : number) : bool := SFleb a b.

(** [Math.min(a, b)] on two numbers. *)
Definition min (a b : number) : number := if ltb a b then a else b.

(** [x] of [getPointerWorldPos]:
    [(e.clientX - rect.left - view.x) / view.zoom]. *)
Definition worldX (clientX rect_left view_x zoom : number) : number :=
  div (sub (sub clientX rect_left) view_x) zoom.

(** [left] of the text area: [shape.x * view.zoom + view.x]. *)
Definition textAreaLeft (x zoom view_x : number) : number := add (mul x zoom) view_x.

(** [lastShape.width = pos.x - lastShape.x] of a pointer move, and
    [lastShape.x += lastShape.width] of the pointer-up. *)
Definition drawnWidth (pos_x x : number) : number := sub pos_x x.
Definition flippedX (x width : number) : number := add x width.

(** [x] and [width] of the bounding box of an arrow, and the horizontal
    half of [isPointInShape]: [px >= x && px <= x + width]. *)
Definition arrowBoxX (x1 x2 : number) : number := min x1 x2.
Definition arrowBoxWidth (x1 x2 : number) : number := abs (sub x1 x2).
Definition insideX (px x width : number) : bool := leb x px && leb px (add x width).

(** The literal [1.1], and the zoom after one turn of the wheel on the
    initial board: [Math.max(0.1, Math.min(1 * 1.1, 10))], which is
    [1 * 1.1]. *)
Definition one_point_one : number := div (ofZ 11) (ofZ 10).
Definition zoomedOnce : number := mul (ofZ 1) one_point_one.

(** The scene position of the pointer at pixel [n] of a canvas at the
    origin, on the board zoomed once and not panned. *)
Definition atPixel (n : Z) : number := worldX (ofZ n) (ofZ 0) (ofZ 0) zoomedOnce.

End Float64.

(** ** Concrete inputs used in examples *)

Module Examples.

Import Types.

(** A text measurement: every code unit is as wide as the font size, the
    ascent is the font size and there is no descent. *)
Definition measure (fontSize : Q) (t : Js.jsstring) : Board.TextMetrics :=
  {| Board.tm_width := inject_Z (Z.of_nat (length t)) * fontSize;
     Board.actualBoundingBoxAscent := fontSize;
     Board.actualBoundingBoxDescent := 0 |}.

(** A primary-button pointer event at [(x, y)] on a canvas at the origin. *)
Definition pointer (x y : Q) : Board.PointerEvent :=
  {| Board.clientX := x; Board.clientY := y; Board.button := 0;
     Board.movementX := 0; Board.movementY := 0;
     Board.rect_left := 0; Board.rect_top := 0 |}.

(** A rectangle and a freehand stroke, both from (0,0) to (10,10), are on
    the board, and the eraser has just gone down at (5,5). *)
Definition board_erasing : Board.Whiteboard :=
  default Board.initialBoard
    (Board.run measure
       [Board.ClickTool rect; Board.PointerDown 1 (pointer 0 0);
        Board.PointerMove (pointer 10 10); Board.PointerUp;
        Board.ClickTool freehand; Board.PointerDown 2 (pointer 0 0);
        Board.PointerMove (pointer 10 10); Board.PointerUp;
        Board.ClickTool eraser; Board.PointerDown 3 (pointer 5 5)]
       Board.initialBoard).


(** The same, after "hi" was typed. *)
Definition board_editing_hi : Board.Whiteboard :=
  default Board.initialBoard
    (Board.run measure
       [Board.ClickTool text; Board.PointerDown 1 (pointer 0 0);
        Board.TextChange [104; 105]%N]
       Board.initialBoard).

(** A wheel event over the origin of the canvas. *)
Definition wheel (dy : Q) : Board.WheelEvent :=
  {| Board.deltaY := dy; Board.wh_clientX := 0; Board.wh_clientY := 0;
     Board.wh_rect_left := 0; Board.wh_rect_top := 0 |}.

Definition mouse (x y : Q) : Room.MouseEvent :=
  {| Room.clientX := x; Room.clientY := y; Room.rect_left := 0; Room.rect_top := 0 |}.

(** A freehand element of the room board with the single point [(0, 0)]. *)
Definition dot : Room.WhiteboardElement :=
  {| Room.id := "1"; Room.type := freehand; Room.points := [{| pt_x := 0; pt_y := 0 |}];
     Room.color := "#1e1e1e"; Room.strokeWidth := 4; Room.fontSize := None;
     Room.text := None; Room.bbox := None |}.

(** The room board after [dot] was drawn. *)
Definition room_with_dot : Room.WhiteboardState :=
  {| Room.elements := [dot]; Room.selectedElementIds := [];
     Room.history := [[]; [dot]]; Room.historyIndex := 1;
     Room.zoom := 1; Room.pan := {| pt_x := 0; pt_y := 0 |} |}.

(** The inputs that draw a rectangle from (0,0) to (10,10) and pick the
    select tool, and the board they leave. *)
Definition draw_rect : list Board.Input :=
  [Board.OnBoard (Board.ClickTool rect);
   Board.OnBoard (Board.PointerDown 1 (pointer 0 0));
   Board.OnBoard (Board.PointerMove (pointer 10 10));
   Board.PointerLeave;
   Board.OnBoard (Board.ClickTool select)].

Definition board_with_rect : Board.Whiteboard :=
  default Board.initialBoard (Board.runInputs measure draw_rect Board.initialBoard).

(** The rectangle was selected by a click at (5,5). *)
Definition board_rect_selected : Board.Whiteboard :=
  default Board.initialBoard
    (Board.run measure [Board.PointerDown 2 (pointer 5 5); Board.PointerUp] board_with_rect).

(** "hi" was typed at (0,0), the text area was left and the select tool
    was picked; then the text was double-clicked at (1,-1). *)
Definition board_with_text : Board.Whiteboard :=
  default Board.initialBoard
    (Board.run measure [Board.Blur; Board.ClickTool select] board_editing_hi).

Definition board_reediting : Board.Whiteboard :=
  Board.handleDoubleClick (pointer 1 (-1)) board_with_text.

(** A rectangle object and an eraser stroke over it, and two boards that
    hold them in the two orders. *)
Definition two_objects : Board.Heap :=
  [Board.RectShape (Board.newBase 1 "#1e1e1e" 4%Q 24%Q) 0%Q 0%Q 10%Q 10%Q;
   Board.FreehandShape Board.ink_eraser (Board.newBase 2 "#fff" 12%Q 24%Q)
     [{| pt_x := 5; pt_y := 5 |}]].

Definition board_of_scene (scene : list Board.ref) : Board.Whiteboard :=
  Board.set_state
    {| Board.shapes := scene; Board.history := [[]; scene]; Board.historyIndex := 1 |}
    (Board.set_heap two_objects Board.initialBoard).

(** Stand-ins for [Math.PI] and for the functions of [Math]; no property
    depends on what they return. *)
Definition three : Q := 3.
Definition zero1 (x : Q) : Q := 0.
Definition zero2 (y x : Q) : Q := 0.

(** The room board with the pencil down at (0,0) and moved to (3,4). *)
Definition canvas_drawing : Room.Canvas :=
  default Room.initialCanvas
    (Room.run [Room.MouseDown 1 (mouse 0 0); Room.MouseMove (mouse 3 4)] Room.initialCanvas).

(** The room board with [dot] on it and the eraser picked. *)
Definition canvas_erasing : Room.Canvas :=
  Room.set_state room_with_dot (Room.setCurrentTool eraser Room.initialCanvas).

(** The inputs that draw a pencil stroke from (0,0) to (3,4) on the room
    board and pick the eraser, and the board they leave. *)
Definition draw_stroke : list Room.Event :=
  [Room.MouseDown 1 (mouse 0 0); Room.MouseMove (mouse 3 4); Room.MouseUp;
   Room.ClickTool eraser].

Definition canvas_stroke_erasing : Room.Canvas :=
  default Room.initialCanvas (Room.run draw_stroke Room.initialCanvas).

(** What [Math.random] returns on its calls: 0/16, 1/16, ..., 15/16, 0/16
    and so on. *)
Definition sixteenths (n : nat) : Q :=
  (inject_Z (Z.of_nat (n mod 16)%nat) / 16)%Q.

(** The page opened on the route of the room "abc", nothing in
    [localStorage], with a name typed into the field. *)
Definition page_in_room (name : string) : Meet.Page :=
  Meet.setUserName (Meet.fromAscii name)
    (fst (Meet.mount (Some (Meet.fromAscii "abc")) sixteenths 0 (Meet.initialPage None))).

End Examples.

(** * Properties *)

(** Case analysis along a handler that returned a board: every bind and
    every [match] on the way is taken apart. *)
Ltac open_handler H :=
  repeat match type of H with
         | (?m ≫= _) = Some _ =>
             destruct m eqn:?; cbn [mbind option_bind] in H; [|discriminate H]
         | match ?x with _ => _ end = Some _ => destruct x eqn:?; try discriminate H
         | (let '(_, _) := ?x in _) = Some _ => destruct x eqn:?
         end.

(** ** Arrays and strings *)

Module JsFacts.

Section History.

Context {A : Type}.
Implicit Types (h : list A) (i : Z) (x : A).

Lemma slice0_inside h i :
  Js.inside h i -> Js.slice0 h (i + 1) = take (Z.to_nat (i + 1)) h.
Proof.
  unfold Js.inside, Js.slice0. intros Hi.
  destruct (Z.ltb_spec (i + 1) 0) as [Hneg|_]; [lia|].
  f_equal. lia.
Qed.

Lemma length_slice0_inside h i :
  Js.inside h i -> length (Js.slice0 h (i + 1)) = Z.to_nat (i + 1).
Proof.
  intros Hi. rewrite slice0_inside by done.
  unfold Js.inside in Hi. rewrite length_take_le; lia.
Qed.

Lemma get_Some h i x :
  Js.get h i = Some x <-> 0 <= i /\ h !! Z.to_nat i = Some x.
Proof.
  unfold Js.get. destruct (Z.ltb_spec i 0) as [Hneg|Hpos]; split.
  - done.
  - intros [? _]. lia.
  - intros Hx. split; [lia | done].
  - by intros [_ ?].
Qed.

Lemma get_inside h i : Js.inside h i -> is_Some (Js.get h i).
Proof.
  unfold Js.inside, Js.get. intros Hi.
  destruct (Z.ltb_spec i 0); [lia|].
  apply lookup_lt_is_Some. lia.
Qed.

Lemma get_snoc h x : Js.get (h ++ [x]) (Z.of_nat (length h)) = Some x.
Proof.
  apply get_Some. split; [lia|].
  rewrite Nat2Z.id, lookup_app_r, Nat.sub_diag by lia. done.
Qed.

(** Cutting after the cursor and appending is a commit. *)
Lemma slice0_commits h i x :
  Js.inside h i ->
  Js.commits h i x (Js.slice0 h (i + 1) ++ [x]) (Z.of_nat (length (Js.slice0 h (i + 1) ++ [x])) - 1).
Proof.
  intros Hi. pose proof (length_slice0_inside h i Hi) as Hlen.
  unfold Js.commits. rewrite <- slice0_inside by done.
  split; [done|]. split; [done|].
  rewrite length_app. simpl. split.
  - unfold Js.inside. rewrite length_app. simpl. lia.
  - replace (Z.of_nat (length (Js.slice0 h (i + 1)) + 1) - 1)
      with (Z.of_nat (length (Js.slice0 h (i + 1)))) by lia.
    apply get_snoc.
Qed.

(** The same with the cursor written as the room board writes it. *)
Lemma slice0_commits_succ h i x :
  Js.inside h i -> Js.commits h i x (Js.slice0 h (i + 1) ++ [x]) (i + 1).
Proof.
  intros Hi. pose proof (slice0_commits h i x Hi) as Hc.
  assert (Z.of_nat (length (Js.slice0 h (i + 1) ++ [x])) - 1 = i + 1) as Hlast.
  { rewrite length_app, length_slice0_inside by done. unfold Js.inside in Hi. simpl. lia. }
  by rewrite Hlast in Hc.
Qed.

(** After a commit the new last index is the old cursor plus one. *)
Lemma commits_cursor h i x h' i' :
  Js.inside h i -> Js.commits h i x h' i' -> i' = i + 1.
Proof.
  intros Hi (-> & -> & _). rewrite length_app. simpl.
  unfold Js.inside in Hi. rewrite length_take_le; lia.
Qed.

(** A commit keeps every snapshot up to the cursor. *)
Lemma commits_keeps h i x h' i' k :
  Js.inside h i -> Js.commits h i x h' i' -> 0 <= k <= i -> Js.get h' k = Js.get h k.
Proof.
  intros Hi (-> & _) Hk. unfold Js.inside in Hi. unfold Js.get.
  destruct (Z.ltb_spec k 0); [lia|].
  rewrite lookup_app_l by (rewrite length_take_le; lia).
  apply lookup_take_lt. lia.
Qed.

(** A commit leaves nothing behind the committed scene: the redo branch is
    gone. *)
Lemma commits_length h i x h' i' :
  Js.inside h i -> Js.commits h i x h' i' -> Z.of_nat (length h') = i + 2.
Proof.
  intros Hi (-> & _). rewrite length_app. simpl.
  unfold Js.inside in Hi. rewrite length_take_le; lia.
Qed.

End History.

Section Filter.

Context {A : Type}.
Implicit Types (a : list A) (f g : A -> nat -> bool) (p : A -> bool).

Lemma filter_from_true f (n : nat) a :
  (forall x idx, (n <= idx)%nat -> f x idx = true) -> Js.filter_from f n a = a.
Proof.
  revert n. induction a as [|x a IH]; intros n Hf; [done|].
  cbn [Js.filter_from]. rewrite Hf by lia. f_equal. apply IH. intros y idx Hle.
  apply Hf. lia.
Qed.

(** Filtering out one index deletes the element at that index. *)
Lemma filter_from_drop_index (i k : nat) a :
  Js.filter_from (fun _ idx => negb (Nat.eqb idx (k + i))) k a = delete i a.
Proof.
  revert i k. induction a as [|x a IH]; intros i k; [by destruct i|].
  cbn [Js.filter_from]. destruct i as [|i].
  - rewrite Nat.add_0_r, Nat.eqb_refl. simpl.
    apply filter_from_true. intros _ idx Hle.
    destruct (Nat.eqb_spec idx k); [lia|done].
  - destruct (Nat.eqb_spec k (k + S i)) as [Heq|_]; [lia|]. simpl. f_equal.
    replace (k + S i)%nat with (S k + i)%nat by lia. apply IH.
Qed.

Lemma filter_idx_drop_index (i : nat) a :
  Js.filter_idx (fun _ idx => negb (Nat.eqb idx i)) a = delete i a.
Proof. apply (filter_from_drop_index i 0). Qed.

(** A callback that looks at the index agrees with a plain filter as soon
    as it agrees on every element at its own index. *)
Lemma filter_from_pointwise f p (k : nat) a :
  (forall j x, a !! j = Some x -> f x (k + j)%nat = p x) ->
  Js.filter_from f k a = List.filter p a.
Proof.
  revert k. induction a as [|x a IH]; intros k Hf; [done|].
  cbn [Js.filter_from List.filter].
  rewrite <- (Hf 0%nat x eq_refl), Nat.add_0_r.
  rewrite (IH (S k)); [done|].
  intros j y Hy. rewrite <- (Hf (S j) y Hy). f_equal. lia.
Qed.

Lemma filter_idx_pointwise f p a :
  (forall j x, a !! j = Some x -> f x j = p x) ->
  Js.filter_idx f a = List.filter p a.
Proof. intros Hf. apply filter_from_pointwise. exact Hf. Qed.

End Filter.

Section Trim.

Implicit Types (s : Js.jsstring).

Lemma trimStart_nil s : Js.trimStart s = [] <-> forallb Js.isWhiteSpace s = true.
Proof.
  induction s as [|c s IH]; [done|]. cbn [Js.trimStart forallb].
  destruct (Js.isWhiteSpace c); simpl; [done|]. split; discriminate.
Qed.

(** What [trimStart] leaves does not start with white space. *)
Lemma trimStart_head s c r : Js.trimStart s = c :: r -> Js.isWhiteSpace c = false.
Proof.
  induction s as [|d s IH]; [done|]. cbn [Js.trimStart].
  destruct (Js.isWhiteSpace d) eqn:Hd; [done|]. intros [= <- <-]. done.
Qed.

Lemma forallb_rev {B : Type} (q : B -> bool) (l : list B) :
  forallb q (rev l) = forallb q l.
Proof.
  induction l as [|x l IH]; [done|]. simpl.
  rewrite forallb_app, IH. simpl. rewrite andb_true_r. apply andb_comm.
Qed.

(** [s.trim() === ''] exactly when [s] is made of white space only. *)
Lemma trim_nil s : Js.trim s = [] <-> forallb Js.isWhiteSpace s = true.
Proof.
  unfold Js.trim, Js.trimEnd. split.
  - intros Hnil. apply (f_equal (@rev N)) in Hnil. rewrite rev_involutive in Hnil.
    simpl in Hnil. apply trimStart_nil in Hnil. rewrite forallb_rev in Hnil.
    destruct (Js.trimStart s) as [|c r] eqn:Hs; [by apply trimStart_nil|].
    apply trimStart_head in Hs. simpl in Hnil. by rewrite Hs in Hnil.
  - intros Hall. apply trimStart_nil in Hall. by rewrite Hall.
Qed.

Lemma isEmptyString_true s : Js.isEmptyString s = true <-> s = [].
Proof. by destruct s. Qed.

End Trim.

End JsFacts.

(** ** History of the standalone board *)

Module BoardHistory.

Import Types Board.

Implicit Types (s : AppState) (a : AppAction).

(** The cursor of a state points at one of its snapshots. *)
Abbreviation inside s := (Js.inside (history s) (historyIndex s)).

Lemma initialState_inside : inside initialState.
Proof. unfold Js.inside. simpl. lia. Qed.

Lemma add_shape_commits s p :
  inside s ->
  exists s', reducer s (ADD_SHAPE p) = Some s'
    /\ shapes s' = shapes s ++ [p]
    /\ Js.commits (history s) (historyIndex s) (shapes s') (history s') (historyIndex s').
Proof.
  intros Hi. eexists. split; [reflexivity|]. simpl. split; [done|].
  by apply JsFacts.slice0_commits.
Qed.

Lemma update_shapes_commits s l :
  inside s ->
  exists s', reducer s (UPDATE_SHAPES l) = Some s'
    /\ shapes s' = l
    /\ Js.commits (history s) (historyIndex s) (shapes s') (history s') (historyIndex s').
Proof.
  intros Hi. eexists. split; [reflexivity|]. simpl. split; [done|].
  by apply JsFacts.slice0_commits.
Qed.

Lemma undo_inside s :
  inside s -> 0 < historyIndex s ->
  exists scene, Js.get (history s) (historyIndex s - 1) = Some scene
    /\ reducer s UNDO
       = Some {| shapes := scene; history := history s; historyIndex := historyIndex s - 1 |}.
Proof.
  intros Hi Hpos.
  destruct (JsFacts.get_inside (history s) (historyIndex s - 1)) as [scene Hscene].
  { unfold Js.inside in *. lia. }
  exists scene. split; [done|]. unfold reducer.
  destruct (Z.ltb_spec 0 (historyIndex s)); [|lia]. by rewrite Hscene.
Qed.

Lemma undo_at_start s : historyIndex s <= 0 -> reducer s UNDO = Some s.
Proof.
  intros Hle. unfold reducer. by destruct (Z.ltb_spec 0 (historyIndex s)); [lia|].
Qed.

Lemma redo_inside s :
  inside s -> historyIndex s < Z.of_nat (length (history s)) - 1 ->
  exists scene, Js.get (history s) (historyIndex s + 1) = Some scene
    /\ reducer s REDO
       = Some {| shapes := scene; history := history s; historyIndex := historyIndex s + 1 |}.
Proof.
  intros Hi Hlt.
  destruct (JsFacts.get_inside (history s) (historyIndex s + 1)) as [scene Hscene].
  { unfold Js.inside in *. lia. }
  exists scene. split; [done|]. unfold reducer.
  destruct (Z.ltb_spec (historyIndex s) (Z.of_nat (length (history s)) - 1)); [|lia].
  by rewrite Hscene.
Qed.

Lemma redo_at_end s :
  Z.of_nat (length (history s)) - 1 <= historyIndex s -> reducer s REDO = Some s.
Proof.
  intros Hle. unfold reducer.
  by destruct (Z.ltb_spec (historyIndex s) (Z.of_nat (length (history s)) - 1)); [lia|].
Qed.

(** The reducer is total on states whose cursor is inside the snapshot
    list, and keeps the cursor inside. *)
Lemma reducer_total s a : inside s -> exists s', reducer s a = Some s' /\ inside s'.
Proof.
  intros Hi. destruct a as [p|l|l| | |].
  - destruct (add_shape_commits s p Hi) as (s' & -> & _ & _ & _ & ? & _). eauto.
  - destruct (update_shapes_commits s l Hi) as (s' & -> & _ & _ & _ & ? & _). eauto.
  - eexists. split; [reflexivity|]. done.
  - destruct (Z_lt_le_dec 0 (historyIndex s)) as [Hpos|Hle].
    + destruct (undo_inside s Hi Hpos) as (scene & _ & ->).
      eexists. split; [reflexivity|]. unfold Js.inside in *. simpl. lia.
    + rewrite undo_at_start by done. eauto.
  - destruct (Z_lt_le_dec (historyIndex s) (Z.of_nat (length (history s)) - 1)) as [Hlt|Hle].
    + destruct (redo_inside s Hi Hlt) as (scene & _ & ->).
      eexists. split; [reflexivity|]. unfold Js.inside in *. simpl. lia.
    + rewrite redo_at_end by done. eauto.
  - eexists. split; [reflexivity|]. apply initialState_inside.
Qed.

Lemma commit_step s a :
  is_commit a = true -> inside s ->
  exists s' scene, reducer s a = Some s' /\ shapes s' = scene
    /\ Js.commits (history s) (historyIndex s) scene (history s') (historyIndex s').
Proof.
  intros Ha Hi. destruct a as [p|l|l| | |]; try discriminate Ha.
  - destruct (add_shape_commits s p Hi) as (s' & ? & ? & ?). eauto.
  - destruct (update_shapes_commits s l Hi) as (s' & ? & ? & ?). eauto.
Qed.

(** [n] commits move the cursor [n] steps and keep the first snapshot. *)
Lemma commits_run (actions : list AppAction) s :
  forallb is_commit actions = true -> inside s ->
  exists s', reduce_all actions s = Some s'
    /\ inside s'
    /\ historyIndex s' = historyIndex s + Z.of_nat (length actions)
    /\ Js.get (history s') 0 = Js.get (history s) 0.
Proof.
  revert s. induction actions as [|a rest IH]; intros s Hall Hi.
  - exists s. simpl. repeat split; try done; try lia; apply Hi.
  - simpl in Hall. apply andb_prop in Hall as [Ha Hrest].
    destruct (commit_step s a Ha Hi) as (s1 & scene & Hs1 & _ & Hc).
    pose proof Hc as (_ & _ & Hi1 & _).
    destruct (IH s1 Hrest Hi1) as (s' & Hrun & Hi' & Hidx & Hget).
    exists s'. cbn [reduce_all]. rewrite Hs1. simpl. split; [done|]. split; [done|].
    rewrite (JsFacts.commits_cursor _ _ _ _ _ Hi Hc) in Hidx.
    split; [simpl length; lia|].
    rewrite Hget. apply (JsFacts.commits_keeps _ _ _ _ _ _ Hi Hc).
    unfold Js.inside in Hi. lia.
Qed.

(** As many undos as the cursor is high lead to the first snapshot. *)
Lemma undo_run (n : nat) s :
  inside s -> historyIndex s = Z.of_nat (S n) ->
  exists scene, Js.get (history s) 0 = Some scene
    /\ reduce_all (replicate (S n) UNDO) s
       = Some {| shapes := scene; history := history s; historyIndex := 0 |}.
Proof.
  revert s. induction n as [|n IH]; intros s Hi Hidx.
  - destruct (undo_inside s Hi) as (scene & Hget & Hundo); [lia|].
    exists scene. cbn [replicate reduce_all]. rewrite Hundo. simpl.
    replace (historyIndex s - 1) with 0 in * by lia. done.
  - destruct (undo_inside s Hi) as (scene & Hget & Hundo); [lia|].
    set (s1 := {| shapes := scene; history := history s; historyIndex := historyIndex s - 1 |}).
    destruct (IH s1) as (scene0 & Hget0 & Hrun).
    { unfold Js.inside in *. simpl. lia. }
    { simpl. lia. }
    exists scene0. split; [done|].
    change (replicate (S (S n)) UNDO) with (UNDO :: replicate (S n) UNDO).
    cbn [reduce_all]. rewrite Hundo. simpl. apply Hrun.
Qed.

Lemma reduce_all_app (l1 l2 : list AppAction) s s1 :
  reduce_all l1 s = Some s1 -> reduce_all (l1 ++ l2) s = reduce_all l2 s1.
Proof.
  revert s. induction l1 as [|a l1 IH]; intros s H; simpl in *.
  - by injection H as ->.
  - destruct (reducer s a) as [s2|]; simpl in *; [by apply IH|done].
Qed.

(** [n] commits from the initial state and [n] undos. *)
Lemma commit_then_undo_all (actions : list AppAction) :
  forallb is_commit actions = true ->
  exists s, reduce_all (actions ++ replicate (length actions) UNDO) initialState = Some s
    /\ shapes s = [] /\ historyIndex s = 0.
Proof.
  intros Hall.
  destruct (commits_run actions initialState Hall initialState_inside)
    as (s' & Hrun & Hi' & Hidx & Hget).
  rewrite (reduce_all_app _ _ _ _ Hrun).
  destruct actions as [|a rest].
  - simpl in Hrun. injection Hrun as <-. by exists initialState.
  - change (length (a :: rest)) with (S (length rest)) in *.
    destruct (undo_run (length rest) s' Hi') as (scene & Hget0 & ->).
    { simpl in Hidx. lia. }
    rewrite Hget in Hget0. simpl in Hget0. injection Hget0 as <-.
    eexists. split; [reflexivity|]. done.
Qed.

End BoardHistory.

(** ** History of the room board *)

Module RoomHistory.

Import Types Room.

Implicit Types (s : WhiteboardState) (a : WhiteboardAction).

Abbreviation inside s := (Js.inside (history s) (historyIndex s)).

Lemma room_initialState_inside : inside initialState.
Proof. unfold Js.inside. simpl. lia. Qed.

Lemma add_element_commits s el :
  inside s ->
  exists s', whiteboardReducer s (ADD_ELEMENT el) = Some s'
    /\ elements s' = elements s ++ [el]
    /\ Js.commits (history s) (historyIndex s) (elements s') (history s') (historyIndex s').
Proof.
  intros Hi. eexists. split; [reflexivity|]. simpl. split; [done|].
  by apply JsFacts.slice0_commits_succ.
Qed.

Lemma delete_elements_commits s ids :
  inside s ->
  exists s', whiteboardReducer s (DELETE_ELEMENTS ids) = Some s'
    /\ elements s' = List.filter (fun el => negb (includes ids (id el))) (elements s)
    /\ Js.commits (history s) (historyIndex s) (elements s') (history s') (historyIndex s').
Proof.
  intros Hi. eexists. split; [reflexivity|]. simpl. split; [done|].
  by apply JsFacts.slice0_commits_succ.
Qed.

Lemma clear_all_commits s :
  inside s ->
  exists s', whiteboardReducer s CLEAR_ALL = Some s'
    /\ elements s' = []
    /\ Js.commits (history s) (historyIndex s) (elements s') (history s') (historyIndex s').
Proof.
  intros Hi. eexists. split; [reflexivity|]. simpl. split; [done|].
  by apply JsFacts.slice0_commits_succ.
Qed.

Lemma room_undo_inside s :
  inside s -> 0 < historyIndex s ->
  exists scene, Js.get (history s) (historyIndex s - 1) = Some scene
    /\ whiteboardReducer s UNDO
       = Some {| elements := scene; selectedElementIds := []; history := history s;
                 historyIndex := historyIndex s - 1; zoom := zoom s; pan := Room.pan s |}.
Proof.
  intros Hi Hpos.
  destruct (JsFacts.get_inside (history s) (historyIndex s - 1)) as [scene Hscene].
  { unfold Js.inside in *. lia. }
  exists scene. split; [done|]. unfold whiteboardReducer.
  destruct (Z.ltb_spec 0 (historyIndex s)); [|lia]. by rewrite Hscene.
Qed.

Lemma room_undo_at_start s : historyIndex s <= 0 -> whiteboardReducer s UNDO = Some s.
Proof.
  intros Hle. unfold whiteboardReducer. by destruct (Z.ltb_spec 0 (historyIndex s)); [lia|].
Qed.

Lemma room_redo_inside s :
  inside s -> historyIndex s < Z.of_nat (length (history s)) - 1 ->
  exists scene, Js.get (history s) (historyIndex s + 1) = Some scene
    /\ whiteboardReducer s REDO
       = Some {| elements := scene; selectedElementIds := []; history := history s;
                 historyIndex := historyIndex s + 1; zoom := zoom s; pan := Room.pan s |}.
Proof.
  intros Hi Hlt.
  destruct (JsFacts.get_inside (history s) (historyIndex s + 1)) as [scene Hscene].
  { unfold Js.inside in *. lia. }
  exists scene. split; [done|]. unfold whiteboardReducer.
  destruct (Z.ltb_spec (historyIndex s) (Z.of_nat (length (history s)) - 1)); [|lia].
  by rewrite Hscene.
Qed.

Lemma room_redo_at_end s :
  Z.of_nat (length (history s)) - 1 <= historyIndex s -> whiteboardReducer s REDO = Some s.
Proof.
  intros Hle. unfold whiteboardReducer.
  by destruct (Z.ltb_spec (historyIndex s) (Z.of_nat (length (history s)) - 1)); [lia|].
Qed.

Lemma whiteboardReducer_total s a :
  inside s -> exists s', whiteboardReducer s a = Some s' /\ inside s'.
Proof.
  intros Hi. destruct a.
  - destruct (add_element_commits s element Hi) as (s' & -> & _ & _ & _ & ? & _). eauto.
  - eexists. split; [reflexivity|]. done.
  - destruct (delete_elements_commits s ids Hi) as (s' & -> & _ & _ & _ & ? & _). eauto.
  - eexists. split; [reflexivity|]. done.
  - eexists. split; [reflexivity|]. done.
  - destruct (Z_lt_le_dec 0 (historyIndex s)) as [Hpos|Hle].
    + destruct (room_undo_inside s Hi Hpos) as (scene & _ & ->).
      eexists. split; [reflexivity|]. unfold Js.inside in *. simpl. lia.
    + rewrite room_undo_at_start by done. eauto.
  - destruct (Z_lt_le_dec (historyIndex s) (Z.of_nat (length (history s)) - 1)) as [Hlt|Hle].
    + destruct (room_redo_inside s Hi Hlt) as (scene & _ & ->).
      eexists. split; [reflexivity|]. unfold Js.inside in *. simpl. lia.
    + rewrite room_redo_at_end by done. eauto.
  - destruct (clear_all_commits s Hi) as (s' & -> & _ & _ & _ & ? & _). eauto.
  - eexists. split; [reflexivity|]. done.
  - eexists. split; [reflexivity|]. done.
  - eexists. split; [reflexivity|]. done.
Qed.

Lemma room_commit_step s a :
  is_commit a = true -> inside s ->
  exists s' scene, whiteboardReducer s a = Some s' /\ elements s' = scene
    /\ Js.commits (history s) (historyIndex s) scene (history s') (historyIndex s').
Proof.
  intros Ha Hi. destruct a; try discriminate Ha.
  - destruct (add_element_commits s element Hi) as (s' & ? & ? & ?). eauto.
  - destruct (delete_elements_commits s ids Hi) as (s' & ? & ? & ?). eauto.
  - destruct (clear_all_commits s Hi) as (s' & ? & ? & ?). eauto.
Qed.

Lemma room_commits_run (actions : list WhiteboardAction) s :
  forallb is_commit actions = true -> inside s ->
  exists s', reduce_all actions s = Some s'
    /\ inside s'
    /\ historyIndex s' = historyIndex s + Z.of_nat (length actions)
    /\ Js.get (history s') 0 = Js.get (history s) 0.
Proof.
  revert s. induction actions as [|a rest IH]; intros s Hall Hi.
  - exists s. simpl. repeat split; try done; try lia; apply Hi.
  - simpl in Hall. apply andb_prop in Hall as [Ha Hrest].
    destruct (room_commit_step s a Ha Hi) as (s1 & scene & Hs1 & _ & Hc).
    pose proof Hc as (_ & _ & Hi1 & _).
    destruct (IH s1 Hrest Hi1) as (s' & Hrun & Hi' & Hidx & Hget).
    exists s'. cbn [reduce_all]. rewrite Hs1. simpl. split; [done|]. split; [done|].
    rewrite (JsFacts.commits_cursor _ _ _ _ _ Hi Hc) in Hidx.
    split; [simpl length; lia|].
    rewrite Hget. apply (JsFacts.commits_keeps _ _ _ _ _ _ Hi Hc).
    unfold Js.inside in Hi. lia.
Qed.

Lemma room_undo_run (n : nat) s :
  inside s -> historyIndex s = Z.of_nat (S n) ->
  exists scene, Js.get (history s) 0 = Some scene
    /\ reduce_all (replicate (S n) UNDO) s
       = Some {| elements := scene; selectedElementIds := []; history := history s;
                 historyIndex := 0; zoom := zoom s; pan := Room.pan s |}.
Proof.
  revert s. induction n as [|n IH]; intros s Hi Hidx.
  - destruct (room_undo_inside s Hi) as (scene & Hget & Hundo); [lia|].
    exists scene. cbn [replicate reduce_all]. rewrite Hundo. simpl.
    replace (historyIndex s - 1) with 0 in * by lia. done.
  - destruct (room_undo_inside s Hi) as (scene & Hget & Hundo); [lia|].
    set (s1 := {| elements := scene; selectedElementIds := []; history := history s;
                  historyIndex := historyIndex s - 1; zoom := zoom s; pan := Room.pan s |}).
    destruct (IH s1) as (scene0 & Hget0 & Hrun).
    { unfold Js.inside in *. simpl. lia. }
    { simpl. lia. }
    exists scene0. split; [done|].
    change (replicate (S (S n)) UNDO) with (UNDO :: replicate (S n) UNDO).
    cbn [reduce_all]. rewrite Hundo. simpl. apply Hrun.
Qed.

Lemma room_reduce_all_app (l1 l2 : list WhiteboardAction) s s1 :
  reduce_all l1 s = Some s1 -> reduce_all (l1 ++ l2) s = reduce_all l2 s1.
Proof.
  revert s. induction l1 as [|a l1 IH]; intros s H; simpl in *.
  - by injection H as ->.
  - destruct (whiteboardReducer s a) as [s2|]; simpl in *; [by apply IH|done].
Qed.

Lemma room_commit_then_undo_all (actions : list WhiteboardAction) :
  forallb is_commit actions = true ->
  exists s, reduce_all (actions ++ replicate (length actions) UNDO) initialState = Some s
    /\ elements s = [] /\ historyIndex s = 0.
Proof.
  intros Hall.
  destruct (room_commits_run actions initialState Hall room_initialState_inside)
    as (s' & Hrun & Hi' & Hidx & Hget).
  rewrite (room_reduce_all_app _ _ _ _ Hrun).
  destruct actions as [|a rest].
  - simpl in Hrun. injection Hrun as <-. by exists initialState.
  - change (length (a :: rest)) with (S (length rest)) in *.
    destruct (room_undo_run (length rest) s' Hi') as (scene & Hget0 & ->).
    { simpl in Hidx. lia. }
    rewrite Hget in Hget0. simpl in Hget0. injection Hget0 as <-.
    eexists. split; [reflexivity|]. done.
Qed.

End RoomHistory.

(** ** Undo, redo, commit and clear *)

Section HistoryContract.

Import Types.

(** C1. Both boards: after the initial state has taken [n] commits, [n]
    undos show the empty scene again with the cursor on 0, and one more
    undo returns the very same state; a redo on a state whose cursor is on
    the last snapshot returns the very same state. *)
Theorem undo_all_commits_then_boundaries :
  (forall actions : list Board.AppAction,
     forallb Board.is_commit actions = true ->
     exists s,
       Board.reduce_all (actions ++ replicate (length actions) Board.UNDO) Board.initialState
       = Some s
       /\ Board.shapes s = [] /\ Board.historyIndex s = 0
       /\ Board.reducer s Board.UNDO = Some s)
  /\ (forall s : Board.AppState,
        Board.historyIndex s = Z.of_nat (length (Board.history s)) - 1 ->
        Board.reducer s Board.REDO = Some s)
  /\ (forall actions : list Room.WhiteboardAction,
        forallb Room.is_commit actions = true ->
        exists s,
          Room.reduce_all (actions ++ replicate (length actions) Room.UNDO) Room.initialState
          = Some s
          /\ Room.elements s = [] /\ Room.historyIndex s = 0
          /\ Room.whiteboardReducer s Room.UNDO = Some s)
  /\ (forall s : Room.WhiteboardState,
        Room.historyIndex s = Z.of_nat (length (Room.history s)) - 1 ->
        Room.whiteboardReducer s Room.REDO = Some s).
Proof.
  split; [|split; [|split]].
  - intros actions Hall.
    destruct (BoardHistory.commit_then_undo_all actions Hall) as (s & Hrun & Hsh & Hidx).
    exists s. repeat split; try done. apply BoardHistory.undo_at_start. lia.
  - intros s Hidx. apply BoardHistory.redo_at_end. lia.
  - intros actions Hall.
    destruct (RoomHistory.room_commit_then_undo_all actions Hall) as (s & Hrun & Hel & Hidx).
    exists s. repeat split; try done. apply RoomHistory.room_undo_at_start. lia.
  - intros s Hidx. apply RoomHistory.room_redo_at_end. lia.
Qed.

(** Two shapes drawn on the standalone board (each is an [ADD_SHAPE] on
    pointer-down and an [UPDATE_SHAPES] on pointer-up), one element drawn
    and erased on the room board. *)
Lemma undo_all_commits_then_boundaries_witness :
  (exists s,
     Board.reduce_all
       ([Board.ADD_SHAPE 0; Board.UPDATE_SHAPES [0]; Board.ADD_SHAPE 1; Board.UPDATE_SHAPES [0; 1]]%nat
        ++ replicate 4 Board.UNDO) Board.initialState = Some s
     /\ Board.shapes s = [] /\ Board.historyIndex s = 0
     /\ Board.reducer s Board.UNDO = Some s)
  /\ Board.reducer Board.initialState Board.REDO = Some Board.initialState
  /\ (exists s,
        Room.reduce_all
          ([Room.ADD_ELEMENT Examples.dot; Room.DELETE_ELEMENTS ["1"%string]]
           ++ replicate 2 Room.UNDO) Room.initialState = Some s
        /\ Room.elements s = [] /\ Room.historyIndex s = 0
        /\ Room.whiteboardReducer s Room.UNDO = Some s)
  /\ Room.whiteboardReducer Examples.room_with_dot Room.REDO = Some Examples.room_with_dot.
Proof.
  destruct undo_all_commits_then_boundaries as (Hb & Hbr & Hr & Hrr).
  split; [|split; [|split]].
  - apply (Hb [Board.ADD_SHAPE 0; Board.UPDATE_SHAPES [0]; Board.ADD_SHAPE 1;
               Board.UPDATE_SHAPES [0; 1]]%nat). reflexivity.
  - apply (Hbr Board.initialState). reflexivity.
  - apply (Hr [Room.ADD_ELEMENT Examples.dot; Room.DELETE_ELEMENTS ["1"%string]]). reflexivity.
  - apply (Hrr Examples.room_with_dot). reflexivity.
Defined.

(** C2. On every state whose cursor points at a snapshot, each committing
    action of either board cuts the snapshot list after the cursor, appends
    the new scene and puts the cursor on the new last index: whatever lay
    past the cursor is gone, the cursor is inside the list and the snapshot
    under it is the scene now on display. *)
Theorem commit_cuts_after_cursor_and_appends
  (s : Board.AppState) (r : Room.WhiteboardState)
  (Hs : Js.inside (Board.history s) (Board.historyIndex s))
  (Hr : Js.inside (Room.history r) (Room.historyIndex r)) :
  (forall payload, exists s',
      Board.reducer s (Board.ADD_SHAPE payload) = Some s'
      /\ Board.shapes s' = Board.shapes s ++ [payload]
      /\ Js.commits (Board.history s) (Board.historyIndex s) (Board.shapes s')
                    (Board.history s') (Board.historyIndex s'))
  /\ (forall payload, exists s',
        Board.reducer s (Board.UPDATE_SHAPES payload) = Some s'
        /\ Board.shapes s' = payload
        /\ Js.commits (Board.history s) (Board.historyIndex s) (Board.shapes s')
                      (Board.history s') (Board.historyIndex s'))
  /\ (forall element, exists r',
        Room.whiteboardReducer r (Room.ADD_ELEMENT element) = Some r'
        /\ Room.elements r' = Room.elements r ++ [element]
        /\ Js.commits (Room.history r) (Room.historyIndex r) (Room.elements r')
                      (Room.history r') (Room.historyIndex r'))
  /\ (forall ids, exists r',
        Room.whiteboardReducer r (Room.DELETE_ELEMENTS ids) = Some r'
        /\ Room.elements r'
           = List.filter (fun el => negb (Room.includes ids (Room.id el))) (Room.elements r)
        /\ Js.commits (Room.history r) (Room.historyIndex r) (Room.elements r')
                      (Room.history r') (Room.historyIndex r'))
  /\ (exists r',
        Room.whiteboardReducer r Room.CLEAR_ALL = Some r'
        /\ Room.elements r' = []
        /\ Js.commits (Room.history r) (Room.historyIndex r) (Room.elements r')
                      (Room.history r') (Room.historyIndex r')).
Proof.
  repeat split.
  - intros p. by apply BoardHistory.add_shape_commits.
  - intros l. by apply BoardHistory.update_shapes_commits.
  - intros el. by apply RoomHistory.add_element_commits.
  - intros ids. by apply RoomHistory.delete_elements_commits.
  - by apply RoomHistory.clear_all_commits.
Qed.

(** The standalone board after an undo, with a redo branch to discard, and
    the room board after [dot]. *)
Lemma commit_cuts_after_cursor_and_appends_witness :
  let s := {| Board.shapes := [0%nat]; Board.history := [[]; [0]; [0; 1]]%nat;
              Board.historyIndex := 1 |} in
  (exists s', Board.reducer s (Board.ADD_SHAPE 2%nat) = Some s'
     /\ Board.shapes s' = [0; 2]%nat
     /\ Js.commits (Board.history s) 1 (Board.shapes s') (Board.history s')
                   (Board.historyIndex s'))
  /\ (exists r', Room.whiteboardReducer Examples.room_with_dot Room.CLEAR_ALL = Some r'
        /\ Room.elements r' = []
        /\ Js.commits [[]; [Examples.dot]] 1 (Room.elements r') (Room.history r')
                      (Room.historyIndex r')).
Proof.
  intros s.
  assert (Js.inside (Board.history s) (Board.historyIndex s)) as Hs
    by (unfold Js.inside; simpl; lia).
  assert (Js.inside (Room.history Examples.room_with_dot)
                    (Room.historyIndex Examples.room_with_dot)) as Hr
    by (unfold Js.inside; simpl; lia).
  destruct (commit_cuts_after_cursor_and_appends s Examples.room_with_dot Hs Hr)
    as (Hadd & _ & _ & _ & Hclear).
  split; [apply (Hadd 2%nat) | apply Hclear].
Defined.

End HistoryContract.

Section ClearAndTransient.

Import Types.

(** C9, against the claim as it stands: on the room board a clear is one
    more commit.  After [dot] was drawn, [CLEAR_ALL] leaves three snapshots
    with the cursor on the third, and the next undo brings [dot] back. *)
Lemma room_clear_all_can_be_undone :
  exists r' r'',
    Room.whiteboardReducer Examples.room_with_dot Room.CLEAR_ALL = Some r'
    /\ Room.history r' = [[]; [Examples.dot]; []]
    /\ Room.history r' <> [[]]
    /\ Room.historyIndex r' = 2
    /\ Room.whiteboardReducer r' Room.UNDO = Some r''
    /\ Room.elements r'' = [Examples.dot]
    /\ r'' <> r'.
Proof.
  do 2 eexists. split; [reflexivity|]. simpl.
  split; [reflexivity|]. split; [discriminate|]. split; [reflexivity|].
  split; [reflexivity|]. split; [reflexivity|]. discriminate.
Qed.

(** C9, amended.  On the standalone board [CLEAR] returns the initial state
    whatever the state was, so the undo that follows changes nothing.  On
    the room board [CLEAR_ALL] commits the empty scene: the snapshots up to
    the cursor stay, the selection is emptied, and the undo that follows
    shows the snapshot the cursor was on. *)
Theorem clear_resets_board_and_commits_on_room
  (s : Board.AppState) (r : Room.WhiteboardState)
  (Hr : Js.inside (Room.history r) (Room.historyIndex r)) :
  Board.reducer s Board.CLEAR = Some Board.initialState
  /\ Board.history Board.initialState = [[]]
  /\ Board.historyIndex Board.initialState = 0
  /\ Board.reducer Board.initialState Board.UNDO = Some Board.initialState
  /\ exists r' r'' scene,
       Room.whiteboardReducer r Room.CLEAR_ALL = Some r'
       /\ Room.elements r' = [] /\ Room.selectedElementIds r' = []
       /\ Js.commits (Room.history r) (Room.historyIndex r) []
                     (Room.history r') (Room.historyIndex r')
       /\ Js.get (Room.history r) (Room.historyIndex r) = Some scene
       /\ Room.whiteboardReducer r' Room.UNDO = Some r''
       /\ Room.elements r'' = scene
       /\ Room.historyIndex r'' = Room.historyIndex r.
Proof.
  repeat split.
  destruct (RoomHistory.clear_all_commits r Hr) as (r' & Hclear & Hel & Hc).
  pose proof Hc as (_ & _ & Hi' & _).
  pose proof (JsFacts.commits_cursor _ _ _ _ _ Hr Hc) as Hcur.
  destruct (RoomHistory.room_undo_inside r' Hi') as (scene & Hget & Hundo).
  { unfold Js.inside in Hr. lia. }
  rewrite Hcur in Hget.
  replace (Room.historyIndex r + 1 - 1) with (Room.historyIndex r) in Hget by lia.
  rewrite (JsFacts.commits_keeps _ _ _ _ _ _ Hr Hc) in Hget
    by (unfold Js.inside in Hr; lia).
  eexists r', _, scene. rewrite Hel in Hc.
  split; [done|]. split; [done|]. split.
  { injection Hclear as <-. done. }
  split; [done|]. split; [done|]. split; [exact Hundo|]. simpl. split; [done|]. lia.
Qed.

Lemma clear_resets_board_and_commits_on_room_witness :
  Board.reducer {| Board.shapes := [0%nat]; Board.history := [[]; [0%nat]];
                   Board.historyIndex := 1 |} Board.CLEAR
  = Some Board.initialState
  /\ exists r' r'',
       Room.whiteboardReducer Examples.room_with_dot Room.CLEAR_ALL = Some r'
       /\ Room.whiteboardReducer r' Room.UNDO = Some r''
       /\ Room.elements r'' = [Examples.dot].
Proof.
  assert (Js.inside (Room.history Examples.room_with_dot)
                    (Room.historyIndex Examples.room_with_dot)) as Hr
    by (unfold Js.inside; simpl; lia).
  destruct (clear_resets_board_and_commits_on_room
              {| Board.shapes := [0%nat]; Board.history := [[]; [0%nat]];
                 Board.historyIndex := 1 |} Examples.room_with_dot Hr)
    as (Hb & _ & _ & _ & r' & r'' & scene & Hclear & _ & _ & _ & Hget & Hundo & Hel & _).
  split; [exact Hb|]. exists r', r''. split; [exact Hclear|]. split; [exact Hundo|].
  rewrite Hel. simpl in Hget. by injection Hget as <-.
Defined.

End ClearAndTransient.

(** ** Zoom *)

Module ZoomFacts.

Import Types.

Lemma clamp_board (v : Q) : Js.within 0.1 10 (Qmax 0.1 (Qmin v 10)).
Proof.
  split.
  - apply Q.le_max_l.
  - apply Q.max_lub; [lra | apply Q.le_min_r].
Qed.

Lemma clamp_room (v : Q) : Js.within 0.1 5 (Qmax 0.1 (Qmin 5 v)).
Proof.
  split.
  - apply Q.le_max_l.
  - apply Q.max_lub; [lra | apply Q.le_min_l].
Qed.

Section Board.

Import Board.

Variable measureText : Q -> Js.jsstring -> TextMetrics.

Lemma dispatch_Some a b b' :
  dispatch a b = Some b' -> exists s', reducer (state b) a = Some s' /\ b' = set_state s' b.
Proof.
  unfold dispatch. intros H.
  destruct (reducer (state b) a) as [s'|] eqn:E; simplify_eq/=. eauto.
Qed.

Lemma dispatch_view a b b' : dispatch a b = Some b' -> view b' = view b.
Proof. intros (s' & _ & ->)%dispatch_Some. done. Qed.

Lemma finishEditingText_view b b' :
  finishEditingText measureText b = Some b' -> view b' = view b.
Proof.
  unfold finishEditingText. intros H. open_handler H; simplify_eq; try done.
  all: repeat match goal with
              | H : dispatch _ _ = Some _ |- _ => apply dispatch_view in H
              end; simpl in *; congruence.
Qed.

Ltac view_unchanged :=
  repeat match goal with
         | H : dispatch _ _ = Some _ |- _ => apply dispatch_view in H
         | H : finishEditingText _ _ = Some _ |- _ => apply finishEditingText_view in H
         end; simpl in *; congruence.

Lemma handleWheel_zoom e b :
  Js.within 0.1 10 (zoom (view b)) -> Js.within 0.1 10 (zoom (view (handleWheel e b))).
Proof.
  intros Hb. unfold handleWheel. destruct (editingShapeIndex b); [done|].
  simpl. apply clamp_board.
Qed.

(** Only the wheel changes the zoom, and the wheel clamps it. *)
Lemma handle_zoom ev b b' :
  handle measureText ev b = Some b' ->
  Js.within 0.1 10 (zoom (view b)) -> Js.within 0.1 10 (zoom (view b')).
Proof.
  intros H Hb.
  assert (zoom (view b') = zoom (view b)
          \/ exists e, b' = handleWheel e b) as [->|[e ->]];
    [|done|by apply handleWheel_zoom].
  destruct ev; simpl in H.
  - unfold handlePointerDown, createShape, alloc in H.
    open_handler H; simplify_eq; try (left; done).
    all: left; f_equal; view_unchanged.
  - unfold handlePointerMove in H. open_handler H; simplify_eq; try (left; done).
    all: left; f_equal; view_unchanged.
  - unfold handlePointerUp in H. open_handler H; simplify_eq; try (left; done).
    all: left; f_equal; view_unchanged.
  - right. simplify_eq. eauto.
  - unfold handleTextChange in H. open_handler H; simplify_eq.
    all: left; f_equal; view_unchanged.
  - left. f_equal. view_unchanged.
  - unfold handleKeyDown in H. open_handler H; simplify_eq; try (left; done).
    all: left; f_equal; view_unchanged.
  - left. by simplify_eq.
  - left. f_equal. view_unchanged.
  - left. f_equal. view_unchanged.
  - unfold handleClearAll in H. open_handler H. left. f_equal. view_unchanged.
Qed.

Lemma run_zoom evs b b' :
  run measureText evs b = Some b' ->
  Js.within 0.1 10 (zoom (view b)) -> Js.within 0.1 10 (zoom (view b')).
Proof.
  revert b. induction evs as [|ev evs IH]; intros b H Hb; simpl in H.
  - by simplify_eq.
  - destruct (handle measureText ev b) as [b1|] eqn:E; simplify_eq/=.
    eapply IH; [done|]. by eapply handle_zoom.
Qed.

(** Wheel events alone never fail. *)
Lemma run_wheels (es : list WheelEvent) b :
  exists b', run measureText (map Wheel es) b = Some b'.
Proof.
  revert b. induction es as [|e es IH]; intros b; simpl; [eauto|]. apply IH.
Qed.

End Board.

Section Room.

Import Room.

Lemma whiteboardReducer_zoom s a s' :
  whiteboardReducer s a = Some s' ->
  Js.within 0.1 5 (zoom s) -> Js.within 0.1 5 (zoom s').
Proof.
  intros H Hs. destruct a; simpl in H; open_handler H; simplify_eq; simpl; try done.
  apply clamp_room.
Qed.

Lemma room_dispatch_Some a c c' :
  dispatch a c = Some c' ->
  exists s', whiteboardReducer (state c) a = Some s' /\ c' = set_state s' c.
Proof.
  unfold dispatch. intros H.
  destruct (whiteboardReducer (state c) a) as [s'|] eqn:E; simplify_eq/=. eauto.
Qed.

Lemma room_dispatch_zoom a c c' :
  dispatch a c = Some c' ->
  Js.within 0.1 5 (zoom (state c)) -> Js.within 0.1 5 (zoom (state c')).
Proof.
  intros (s' & Hs' & ->)%room_dispatch_Some Hc. simpl.
  by eapply whiteboardReducer_zoom.
Qed.

Lemma room_handle_zoom ev c c' :
  handle ev c = Some c' ->
  Js.within 0.1 5 (zoom (state c)) -> Js.within 0.1 5 (zoom (state c')).
Proof.
  intros H Hc. destruct ev; simpl in H.
  - unfold handleMouseDown in H. open_handler H; simplify_eq; try done.
    by eapply room_dispatch_zoom.
  - unfold handleMouseMove in H. open_handler H; simplify_eq; done.
  - unfold handleMouseUp in H. open_handler H; simplify_eq; try done.
    simpl. by eapply room_dispatch_zoom.
  - by simplify_eq.
  - by eapply room_dispatch_zoom.
  - by eapply room_dispatch_zoom.
  - by eapply room_dispatch_zoom.
  - by eapply room_dispatch_zoom.
  - by eapply room_dispatch_zoom.
  - unfold handleTextInputChange in H. open_handler H. by simplify_eq.
  - unfold handleTextInputBlur in H. open_handler H; simplify_eq; try done.
    simpl. by eapply room_dispatch_zoom.
  - by eapply room_dispatch_zoom.
Qed.

Lemma room_run_zoom evs c c' :
  run evs c = Some c' ->
  Js.within 0.1 5 (zoom (state c)) -> Js.within 0.1 5 (zoom (state c')).
Proof.
  revert c. induction evs as [|ev evs IH]; intros c H Hc; simpl in H.
  - by simplify_eq.
  - destruct (handle ev c) as [c1|] eqn:E; simplify_eq/=.
    eapply IH; [done|]. by eapply room_handle_zoom.
Qed.

(** Clicks on the zoom buttons never fail: [true] is Zoom In. *)
Lemma run_zoom_clicks (clicks : list bool) c :
  exists c', run (map (fun i : bool => if i then ClickZoomIn else ClickZoomOut) clicks) c
             = Some c'.
Proof.
  revert c. induction clicks as [|i clicks IH]; intros c; simpl; [eauto|].
  destruct i; simpl; apply IH.
Qed.

End Room.

End ZoomFacts.

(** C8. The zoom never leaves its bounds, [0.1, 10] on the standalone board
    and [0.1, 5] on the room board: one wheel event from any zoom value,
    with any delta, lands inside the bounds, and so does [SET_ZOOM] with any
    requested value; any sequence of wheel events, or of clicks on the zoom
    buttons, from the initial board succeeds and ends inside the bounds;
    and no sequence of events of any kind takes a zoom that is inside the
    bounds out of them. *)
Theorem zoom_stays_within_bounds :
  (forall (b : Board.Whiteboard) (e : Board.WheelEvent),
      Board.editingShapeIndex b = None ->
      Js.within 0.1 10 (Board.zoom (Board.view (Board.handleWheel e b))))
  /\ (forall measureText (es : list Board.WheelEvent),
        exists b, Board.run measureText (map Board.Wheel es) Board.initialBoard = Some b
                  /\ Js.within 0.1 10 (Board.zoom (Board.view b)))
  /\ (forall measureText evs b b',
        Board.run measureText evs b = Some b' ->
        Js.within 0.1 10 (Board.zoom (Board.view b)) ->
        Js.within 0.1 10 (Board.zoom (Board.view b')))
  /\ (forall (r : Room.WhiteboardState) (z : Q),
        exists r', Room.whiteboardReducer r (Room.SET_ZOOM z) = Some r'
                   /\ Js.within 0.1 5 (Room.zoom r'))
  /\ (forall clicks : list bool,
        exists c,
          Room.run (map (fun i : bool => if i then Room.ClickZoomIn else Room.ClickZoomOut)
                        clicks) Room.initialCanvas = Some c
          /\ Js.within 0.1 5 (Room.zoom (Room.state c)))
  /\ (forall evs c c',
        Room.run evs c = Some c' ->
        Js.within 0.1 5 (Room.zoom (Room.state c)) ->
        Js.within 0.1 5 (Room.zoom (Room.state c'))).
Proof.
  assert (Js.within 0.1 10 (Board.zoom (Board.view Board.initialBoard))) as Hb0
    by (split; simpl; lra).
  assert (Js.within 0.1 5 (Room.zoom (Room.state Room.initialCanvas))) as Hr0
    by (split; simpl; lra).
  repeat apply conj.
  - intros b e Hnone. unfold Board.handleWheel. rewrite Hnone. simpl.
    apply ZoomFacts.clamp_board.
  - intros mt es. destruct (ZoomFacts.run_wheels mt es Board.initialBoard) as [b Hb].
    exists b. split; [done|]. by eapply ZoomFacts.run_zoom.
  - intros mt evs b b'. apply ZoomFacts.run_zoom.
  - intros r z. eexists. split; [reflexivity|]. apply ZoomFacts.clamp_room.
  - intros clicks. destruct (ZoomFacts.run_zoom_clicks clicks Room.initialCanvas) as [c Hc].
    exists c. split; [done|]. by eapply ZoomFacts.room_run_zoom.
  - intros evs c c'. apply ZoomFacts.room_run_zoom.
Qed.

(** A wheel turn of a million units on the initial board, a zoom request of
    a million on the room board, and short runs of both boards. *)
Lemma zoom_stays_within_bounds_witness :
  Js.within 0.1 10
    (Board.zoom (Board.view (Board.handleWheel (Examples.wheel (-1000000)) Board.initialBoard)))
  /\ (exists b',
        Board.run Examples.measure
          [Board.Wheel (Examples.wheel (-1)); Board.Wheel (Examples.wheel 1000000)]
          Board.initialBoard = Some b'
        /\ Js.within 0.1 10 (Board.zoom (Board.view b')))
  /\ (exists c',
        Room.run [Room.ClickZoomIn; Room.ClickZoomIn; Room.ClickZoomOut] Room.initialCanvas
        = Some c'
        /\ Js.within 0.1 5 (Room.zoom (Room.state c'))).
Proof.
  destruct zoom_stays_within_bounds as (Hwheel & _ & Hrun & _ & _ & Hroom).
  split; [|split].
  - apply Hwheel. reflexivity.
  - eexists. split; [vm_compute; reflexivity|].
    eapply (Hrun Examples.measure
              [Board.Wheel (Examples.wheel (-1)); Board.Wheel (Examples.wheel 1000000)]
              Board.initialBoard).
    + vm_compute. reflexivity.
    + split; simpl; lra.
  - eexists. split; [vm_compute; reflexivity|].
    eapply (Hroom [Room.ClickZoomIn; Room.ClickZoomIn; Room.ClickZoomOut] Room.initialCanvas).
    + vm_compute. reflexivity.
    + split; simpl; lra.
Defined.

(** ** Gestures of the standalone board *)

Module GestureFacts.

Import Types Board.

Lemma ltb_lt (a b : Q) : Js.ltb a b = true <-> (a < b)%Q.
Proof.
  unfold Js.ltb. rewrite negb_true_iff. split.
  - intros H. apply Qnot_le_lt. intros Hle. apply Qle_bool_iff in Hle. congruence.
  - intros H. destruct (Qle_bool b a) eqn:E; [|done].
    apply Qle_bool_iff in E. exfalso. by apply (Qlt_not_le a b).
Qed.

Lemma ltb_ge (a b : Q) : Js.ltb a b = false <-> (b <= a)%Q.
Proof. unfold Js.ltb. rewrite negb_false_iff. apply Qle_bool_iff. Qed.

Lemma delete_last {A : Type} (l : list A) (x : A) : delete (length l) (l ++ [x]) = l.
Proof. induction l as [|y l IH]; [done|]. simpl. by rewrite IH. Qed.

Lemma not_elem_of_delete {A : Type} (l : list A) (i : nat) (x : A) :
  NoDup l -> l !! i = Some x -> x ∉ delete i l.
Proof.
  revert i. induction l as [|y l IH]; intros i Hnd Hi; [done|].
  apply NoDup_cons in Hnd as [Hy Hnd]. destruct i as [|i]; simpl in *.
  - by simplify_eq.
  - apply not_elem_of_cons. split.
    + intros ->. apply Hy. by eapply list_elem_of_lookup_2.
    + by apply IH.
Qed.

Lemma length_delete_Some {A : Type} (l : list A) (i : nat) (x : A) :
  l !! i = Some x -> (length (delete i l) + 1 = length l)%nat.
Proof.
  revert i. induction l as [|y l IH]; intros i Hi; [done|].
  destruct i as [|i]; simpl in *; [lia|]. rewrite <- (IH i Hi). lia.
Qed.

(** *** The eraser's filter *)

Lemma rigid_is_neither_ink (s : Shape) :
  is_rigid s
  = negb (Tool_eqb (shape_type s) eraser) && negb (Tool_eqb (shape_type s) freehand).
Proof. by destruct s as [[]| | | |]. Qed.

(** With the stroke in progress at the end of the scene, the callback of
    the filter keeps exactly what is not [erased]. *)
Lemma eraserKeeps_erased (h : Heap) (box : BBox) (cs : list ref) (r : ref)
  (base : BaseShape) (ps ps' : list Point) :
  last cs = Some r ->
  h !! r = Some (FreehandShape ink_eraser base ps) ->
  forall j x, cs !! j = Some x ->
    eraserKeeps (<[r := FreehandShape ink_eraser base ps']> h) box (length cs) x j
    = negb (erased h box x).
Proof.
  intros Hlast Hr j x Hx. unfold eraserKeeps, erased.
  destruct (decide (x = r)) as [->|Hne].
  - rewrite Hr. rewrite list_lookup_insert_eq by (by eapply lookup_lt_Some).
    simpl. destruct (Nat.eqb j (length cs - 1)); [done|].
    unfold shape_bbox. simpl. destruct (bbox base) as [bb|]; [|done].
    by destruct (boxesIntersect box bb).
  - rewrite list_lookup_insert_ne by done.
    destruct (Nat.eqb_spec j (length cs - 1)) as [->|_].
    + rewrite last_lookup in Hlast.
      replace (pred (length cs)) with (length cs - 1)%nat in Hlast by lia. congruence.
    + destruct (h !! x) as [s|]; [|done].
      rewrite rigid_is_neither_ink.
      destruct (shape_bbox s) as [bb|]; [|by rewrite andb_false_r].
      by destruct (boxesIntersect box bb), (Tool_eqb (shape_type s) eraser),
                  (Tool_eqb (shape_type s) freehand).
Qed.

Section WithMeasure.

Variable measureText : Q -> Js.jsstring -> TextMetrics.

Lemma handlePointerMove_eraser b e start r base ps :
  startPoint b = Some start -> action b = drawing -> isDrawing b = true ->
  tool b = eraser ->
  last (shapes (state b)) = Some r ->
  heap b !! r = Some (FreehandShape ink_eraser base ps) ->
  let pos := getPointerWorldPos e (view b) in
  handlePointerMove measureText e b
  = Some (set_state
            {| shapes :=
                 List.filter
                   (fun x => negb (erased (heap b) (eraserBBox pos (eraserStroke b)) x))
                   (shapes (state b));
               history := history (state b);
               historyIndex := historyIndex (state b) |}
            (set_heap (<[r := FreehandShape ink_eraser base (ps ++ [pos])]> (heap b)) b)).
Proof.
  intros Hstart Hact Hdraw Htool Hlast Hr pos. unfold handlePointerMove.
  rewrite Hstart, Hact, Hdraw, Htool, Hlast. simpl. rewrite Hr. simpl.
  unfold dispatch. simpl. do 3 f_equal.
  apply JsFacts.filter_idx_pointwise. by eapply eraserKeeps_erased.
Qed.

(** *** Drawing a shape *)

Lemma handlePointerDown_draws now e b s :
  editingShapeIndex b = None -> button e <> 1 ->
  createShape now b (getPointerWorldPos e (view b)) = Some s ->
  handlePointerDown measureText now e b
  = Some {| heap := heap b ++ [updateBoundingBox measureText s];
            state := commitScene (shapes (state b) ++ [length (heap b)]) (state b);
            tool := tool b; ui_color := ui_color b; ui_stroke := ui_stroke b;
            eraserStroke := eraserStroke b; ui_fontSize := ui_fontSize b;
            isDrawing := true; startPoint := Some (getPointerWorldPos e (view b));
            selectedIndices := selectedIndices b; action := drawing;
            editingShapeIndex := editingShapeIndex b; view := view b |}.
Proof.
  intros Hedit Hbutton Hs. unfold handlePointerDown. rewrite Hedit.
  destruct (Z.eqb_spec (button e) 1) as [|_]; [done|].
  unfold createShape in *.
  cbn [tool setStartPoint setAction setIsDrawing ui_color ui_stroke ui_fontSize
       eraserStroke view heap state].
  destruct (tool b) eqn:Ht; simplify_eq; cbn [Tool_eqb orb];
    unfold dispatch, alloc, set_state, set_heap, setIsDrawing, setAction, setStartPoint,
      commitScene;
    simpl; rewrite ?Ht, ?Hedit; reflexivity.
Qed.

Lemma handlePointerMove_extends e b start r s :
  startPoint b = Some start -> action b = drawing -> isDrawing b = true ->
  Tool_eqb (tool b) eraser = false ->
  last (shapes (state b)) = Some r -> heap b !! r = Some s ->
  handlePointerMove measureText e b
  = Some (set_heap (<[r := updateBoundingBox measureText
                             (extend (getPointerWorldPos e (view b)) s)]> (heap b)) b).
Proof.
  intros Hstart Hact Hdraw Htool Hlast Hs. unfold handlePointerMove.
  rewrite Hstart, Hact, Hdraw, Htool, Hlast. cbn [Action_eqb andb negb mbind option_bind].
  rewrite Hs. cbn [mbind option_bind]. unfold dispatch. simpl.
  by destruct b as [? [] ? ? ? ? ? ? ? ? ? ? ?].
Qed.

Lemma handlePointerUp_commits b r s :
  action b = drawing -> last (shapes (state b)) = Some r -> heap b !! r = Some s ->
  handlePointerUp measureText b
  = Some (endGesture
            (set_state (commitScene (shapes (state b)) (state b))
               (set_heap (<[r := updateBoundingBox measureText (normalize s)]> (heap b)) b))).
Proof.
  intros Hact Hlast Hs. unfold handlePointerUp.
  rewrite Hact, Hlast. cbn [Action_eqb mbind option_bind]. rewrite Hs. reflexivity.
Qed.

End WithMeasure.

Lemma normalize_up_left (ellipse : bool) base (x y w h : Q) :
  (w < 0)%Q -> (h < 0)%Q ->
  normalize (boxShape ellipse base x y w h)
  = boxShape ellipse base (x + w) (y + h) (w * -1) (h * -1).
Proof.
  intros Hw Hh. apply ltb_lt in Hw, Hh. unfold normalize, boxShape.
  destruct ellipse; by rewrite Hw, Hh.
Qed.

End GestureFacts.

Section Drag.

Import Types Board.

Section WithMeasure.

Variable measureText : Q -> Js.jsstring -> TextMetrics.

Lemma run_app evs1 evs2 b b1 :
  run measureText evs1 b = Some b1 ->
  run measureText (evs1 ++ evs2) b = run measureText evs2 b1.
Proof.
  revert b. induction evs1 as [|ev evs1 IH]; intros b H; simpl in *.
  - by injection H as ->.
  - destruct (handle measureText ev b) as [b'|]; simpl in *; [by apply IH|done].
Qed.

(** While a rectangle or an ellipse is being drawn, pointer moves change
    nothing but the sizes and the bounding box of the object behind the
    last reference. *)
Lemma moves_resize_box (b1 : Whiteboard) (start : Point) (r : ref) (ellipse : bool)
  (base0 : BaseShape) (x0 y0 : Q) (moves : list PointerEvent) :
  startPoint b1 = Some start -> action b1 = drawing -> isDrawing b1 = true ->
  tool b1 = (if ellipse then circle else rect) ->
  last (shapes (state b1)) = Some r ->
  forall hp bb w h,
    hp !! r = Some (boxShape ellipse (with_bbox base0 bb) x0 y0 w h) ->
    exists hp' bb' w' h',
      run measureText (map PointerMove moves) (set_heap hp b1) = Some (set_heap hp' b1)
      /\ hp' !! r = Some (boxShape ellipse (with_bbox base0 bb') x0 y0 w' h')
      /\ length hp' = length hp.
Proof.
  intros Hstart Hact Hdraw Htool Hlast.
  induction moves as [|e moves IH]; intros hp bb w h Hr.
  - exists hp, bb, w, h. done.
  - cbn [map run handle].
    rewrite (GestureFacts.handlePointerMove_extends measureText e (set_heap hp b1) start r
               (boxShape ellipse (with_bbox base0 bb) x0 y0 w h)); try done.
    2:{ simpl. rewrite Htool. by destruct ellipse. }
    cbn [mbind option_bind].
    set (pos := getPointerWorldPos e (view (set_heap hp b1))).
    edestruct (IH (<[r := updateBoundingBox measureText
                            (extend pos (boxShape ellipse (with_bbox base0 bb) x0 y0 w h))]> hp))
      as (hp' & bb' & w' & h' & Hrun & Hr' & Hlen).
    { rewrite list_lookup_insert_eq by (by eapply lookup_lt_Some).
      unfold boxShape. destruct ellipse; reflexivity. }
    exists hp', bb', w', h'. split; [exact Hrun|]. split; [exact Hr'|].
    by rewrite Hlen, length_insert.
Qed.

End WithMeasure.

(** C5. A rectangle (or an ellipse) is drawn by a pointer-down at [p0], any
    number of pointer moves, a last move to [p1] up-left of [p0], and a
    pointer-up.  The last move leaves the sizes [p1.x - p0.x] and
    [p1.y - p0.y], both negative.  The pointer-up commits the scene, and
    the committed shape has the sizes with their signs changed, both
    positive, and its origin moved by the sizes the move left, to the
    corner the drag ended on: the origin is the minimal corner of the
    committed box.  The bounding box is on the same four numbers, and the
    identity and style are those the shape was created with.  The four
    numbers are given as the code computes them, so nothing here depends
    on how sums are rounded. *)
Theorem up_left_drag_is_normalized
  (measureText : Q -> Js.jsstring -> TextMetrics)
  (b : Whiteboard) (now : N) (e0 : PointerEvent) (moves : list PointerEvent)
  (e1 : PointerEvent) (ellipse : bool)
  (Hedit : editingShapeIndex b = None)
  (Htool : tool b = if ellipse then circle else rect)
  (Hbutton : button e0 <> 1)
  (Hinside : Js.inside (history (state b)) (historyIndex (state b)))
  (Hleft : (pt_x (getPointerWorldPos e1 (view b)) < pt_x (getPointerWorldPos e0 (view b)))%Q)
  (Hup : (pt_y (getPointerWorldPos e1 (view b)) < pt_y (getPointerWorldPos e0 (view b)))%Q) :
  let p0 := getPointerWorldPos e0 (view b) in
  let p1 := getPointerWorldPos e1 (view b) in
  exists b3 base x y w h,
    run measureText
      (PointerDown now e0 :: map PointerMove moves ++ [PointerMove e1; PointerUp]) b
    = Some b3
    /\ shapes (state b3) = shapes (state b) ++ [length (heap b)]
    /\ Js.get (history (state b3)) (historyIndex (state b3)) = Some (shapes (state b3))
    /\ heap b3 !! length (heap b) = Some (boxShape ellipse base x y w h)
    /\ x = (pt_x p0 + (pt_x p1 - pt_x p0))%Q /\ y = (pt_y p0 + (pt_y p1 - pt_y p0))%Q
    /\ w = ((pt_x p1 - pt_x p0) * -1)%Q /\ h = ((pt_y p1 - pt_y p0) * -1)%Q
    /\ (0 < w /\ 0 < h)%Q
    /\ bbox base = Some {| bb_x := x; bb_y := y; bb_width := w; bb_height := h |}
    /\ id base = pretty now /\ color base = ui_color b
    /\ stroke base = ui_stroke b /\ fontSize base = ui_fontSize b.
Proof.
  intros p0 p1.
  change (pt_x p1 < pt_x p0)%Q in Hleft. change (pt_y p1 < pt_y p0)%Q in Hup.
  set (r := length (heap b)).
  set (base0 := newBase now (ui_color b) (ui_stroke b) (ui_fontSize b)).
  set (s0 := boxShape ellipse base0 (pt_x p0) (pt_y p0) 0 0).
  assert (createShape now b p0 = Some s0) as Hcreate.
  { unfold createShape, s0, boxShape. rewrite Htool. by destruct ellipse. }
  pose proof (GestureFacts.handlePointerDown_draws measureText now e0 b s0
                Hedit Hbutton Hcreate) as Hdown.
  match type of Hdown with _ = Some ?v => set (b1 := v) in * end.
  (* the moves before the last one *)
  destruct (moves_resize_box measureText b1 p0 r ellipse base0 (pt_x p0) (pt_y p0) moves
              eq_refl eq_refl eq_refl Htool (last_snoc _ _) (heap b1)
              {| bb_x := pt_x p0; bb_y := pt_y p0; bb_width := 0; bb_height := 0 |} 0 0)
    as (hp & bb & w' & h' & Hmoves & Hr & Hlen).
  { simpl. unfold r. rewrite list_lookup_middle by done.
    unfold s0, boxShape. by destruct ellipse. }
  change (set_heap (heap b1) b1) with b1 in Hmoves.
  (* the last move *)
  set (s1 := boxShape ellipse (with_bbox base0 bb) (pt_x p0) (pt_y p0) w' h') in *.
  assert (handlePointerMove measureText e1 (set_heap hp b1)
          = Some (set_heap (<[r := updateBoundingBox measureText (extend p1 s1)]> hp) b1))
    as Hmove.
  { apply (GestureFacts.handlePointerMove_extends measureText e1 (set_heap hp b1) p0);
      try done.
    - simpl. rewrite Htool. by destruct ellipse.
    - simpl. apply last_snoc. }
  match type of Hmove with _ = Some ?v => set (b2 := v) in * end.
  set (s2 := updateBoundingBox measureText (extend p1 s1)).
  assert (r < length hp)%nat as Hrlen by (by eapply lookup_lt_Some).
  assert (heap b2 !! r = Some s2) as Hheap2.
  { simpl. by apply list_lookup_insert_eq. }
  pose proof (GestureFacts.handlePointerUp_commits measureText b2 r s2
                eq_refl (last_snoc _ _) Hheap2) as Hup'.
  match type of Hup' with _ = Some ?v => set (b3 := v) in * end.
  assert (s2 = boxShape ellipse
                 (with_bbox base0 {| bb_x := pt_x p0; bb_y := pt_y p0;
                                     bb_width := pt_x p1 - pt_x p0;
                                     bb_height := pt_y p1 - pt_y p0 |})
                 (pt_x p0) (pt_y p0) (pt_x p1 - pt_x p0) (pt_y p1 - pt_y p0)) as Hs2.
  { unfold s2, s1, boxShape. by destruct ellipse. }
  assert (heap b3 !! r = Some (updateBoundingBox measureText (normalize s2))) as Hheap3.
  { simpl. apply list_lookup_insert_eq. by rewrite length_insert. }
  rewrite Hs2, GestureFacts.normalize_up_left in Hheap3 by lra.
  set (x := (pt_x p0 + (pt_x p1 - pt_x p0))%Q).
  set (y := (pt_y p0 + (pt_y p1 - pt_y p0))%Q).
  set (w := ((pt_x p1 - pt_x p0) * -1)%Q).
  set (h := ((pt_y p1 - pt_y p0) * -1)%Q).
  exists b3, (with_bbox base0 {| bb_x := x; bb_y := y; bb_width := w; bb_height := h |}),
    x, y, w, h.
  split.
  { cbn [run handle]. rewrite Hdown. cbn [mbind option_bind].
    rewrite (run_app measureText _ _ _ _ Hmoves).
    cbn [run handle]. rewrite Hmove. cbn [mbind option_bind]. rewrite Hup'. reflexivity. }
  split; [reflexivity|]. split.
  { pose proof (JsFacts.slice0_commits (history (state b)) (historyIndex (state b))
                  (shapes (state b) ++ [r]) Hinside) as (_ & _ & Hin1 & _).
    by apply (JsFacts.slice0_commits _ _ (shapes (state b) ++ [r]) Hin1). }
  split.
  { rewrite Hheap3. unfold boxShape. destruct ellipse; reflexivity. }
  unfold x, y, w, h. repeat split; try reflexivity; lra.
Qed.

(** The rectangle of the specification: dragged from (10,10) over (3,7) to
    (-5,-5) on the initial board, it is committed with origin (-5,-5),
    width 15 and height 15. *)
Lemma up_left_drag_is_normalized_witness :
  exists b3 base x y w h,
    run Examples.measure
      [PointerDown 1 (Examples.pointer 10 10); PointerMove (Examples.pointer 3 7);
       PointerMove (Examples.pointer (-5) (-5)); PointerUp]
      (setTool rect initialBoard) = Some b3
    /\ Js.get (history (state b3)) (historyIndex (state b3)) = Some [0%nat]
    /\ heap b3 !! 0%nat = Some (RectShape base x y w h)
    /\ (x == -5 /\ y == -5 /\ w == 15 /\ h == 15)%Q.
Proof.
  destruct (up_left_drag_is_normalized Examples.measure (setTool rect initialBoard) 1
              (Examples.pointer 10 10) [Examples.pointer 3 7] (Examples.pointer (-5) (-5))
              false)
    as (b3 & base & x & y & w & h & Hrun & Hshapes & Hget & Hshape
        & Hx & Hy & Hw & Hh & _).
  - reflexivity.
  - reflexivity.
  - discriminate.
  - unfold Js.inside. simpl. lia.
  - vm_compute. reflexivity.
  - vm_compute. reflexivity.
  - exists b3, base, x, y, w, h. split; [exact Hrun|].
    split; [by rewrite Hget, Hshapes|]. split; [exact Hshape|].
    rewrite Hx, Hy, Hw, Hh. repeat split; vm_compute; reflexivity.
Defined.

(** The drag of the specification, evaluated: the values are the very
    numbers. *)
Example drag_from_10_10_to_minus_5_minus_5 :
  (b ← run Examples.measure
         [PointerDown 1 (Examples.pointer 10 10); PointerMove (Examples.pointer (-5) (-5));
          PointerUp]
         (setTool rect initialBoard);
   heap b !! 0%nat)
  = Some (RectShape
            {| id := "1"; color := "#1e1e1e"; stroke := 4; fontSize := 24;
               bbox := Some {| bb_x := -5; bb_y := -5; bb_width := 15; bb_height := 15 |} |}
            (-5) (-5) 15 15).
Proof. vm_compute. reflexivity. Qed.

End Drag.

(** ** Text editing *)

Module TextFacts.

Import Types Board.

Section WithMeasure.

Variable measureText : Q -> Js.jsstring -> TextMetrics.

Lemma finishEditingText_discards b i r base x y t :
  editingShapeIndex b = Some i -> shapes (state b) !! i = Some r ->
  heap b !! r = Some (TextShape base x y t) ->
  forallb Js.isWhiteSpace t = true ->
  finishEditingText measureText b
  = Some (setEditingShapeIndex None
            (set_state (commitScene (delete i (shapes (state b))) (state b)) b)).
Proof.
  intros Hedit Hi Hr Hws. apply JsFacts.trim_nil in Hws.
  unfold finishEditingText. rewrite Hedit, Hi. cbn [mbind option_bind]. rewrite Hr.
  cbn [mbind option_bind]. rewrite Hws. cbn [Js.isEmptyString].
  rewrite JsFacts.filter_idx_drop_index. reflexivity.
Qed.

Lemma not_blank_not_empty (t : Js.jsstring) :
  forallb Js.isWhiteSpace t = false -> Js.isEmptyString (Js.trim t) = false.
Proof.
  intros Hws. destruct (Js.isEmptyString (Js.trim t)) eqn:E; [|done].
  apply JsFacts.isEmptyString_true, JsFacts.trim_nil in E. congruence.
Qed.

Lemma finishEditingText_keeps b i r base x y t :
  editingShapeIndex b = Some i -> shapes (state b) !! i = Some r ->
  heap b !! r = Some (TextShape base x y t) ->
  forallb Js.isWhiteSpace t = false ->
  finishEditingText measureText b
  = Some (setEditingShapeIndex None
            (set_state (commitScene (shapes (state b)) (state b))
               (set_heap (<[r := updateBoundingBox measureText (TextShape base x y t)]> (heap b))
                         b))).
Proof.
  intros Hedit Hi Hr Hws. apply not_blank_not_empty in Hws.
  unfold finishEditingText. rewrite Hedit, Hi. cbn [mbind option_bind]. rewrite Hr.
  cbn [mbind option_bind]. rewrite Hws. reflexivity.
Qed.

Lemma handlePointerDown_text now e b :
  editingShapeIndex b = None -> tool b = text -> button e <> 1 ->
  let pos := getPointerWorldPos e (view b) in
  handlePointerDown measureText now e b
  = Some {| heap := heap b ++ [updateBoundingBox measureText
                                 (TextShape (newBase now (ui_color b) 0 (ui_fontSize b))
                                            (pt_x pos) (pt_y pos) [])];
            state := commitScene (shapes (state b) ++ [length (heap b)]) (state b);
            tool := tool b; ui_color := ui_color b; ui_stroke := ui_stroke b;
            eraserStroke := eraserStroke b; ui_fontSize := ui_fontSize b;
            isDrawing := false; startPoint := Some pos;
            selectedIndices := selectedIndices b; action := action b;
            editingShapeIndex := Some (length (shapes (state b))); view := view b |}.
Proof.
  intros Hedit Htool Hbutton pos. unfold handlePointerDown. rewrite Hedit.
  destruct (Z.eqb_spec (button e) 1) as [|_]; [done|].
  cbn [tool setStartPoint]. rewrite Htool. cbn [Tool_eqb orb].
  unfold dispatch, alloc, set_state, set_heap, setIsDrawing, setEditingShapeIndex,
    setStartPoint, commitScene.
  simpl. rewrite Htool. reflexivity.
Qed.

End WithMeasure.

Lemma commitScene_commits (scene : list ref) (s : AppState) :
  Js.inside (history s) (historyIndex s) ->
  Js.commits (history s) (historyIndex s) scene
             (history (commitScene scene s)) (historyIndex (commitScene scene s)).
Proof. intros Hs. by apply JsFacts.slice0_commits. Qed.

End TextFacts.

Section TextClick.

Import Types Board.

Section WithMeasure.

Variable measureText : Q -> Js.jsstring -> TextMetrics.

Lemma handleTextChange_sets value b i r base x y t :
  editingShapeIndex b = Some i -> shapes (state b) !! i = Some r ->
  heap b !! r = Some (TextShape base x y t) ->
  handleTextChange measureText value b
  = Some (set_heap (<[r := updateBoundingBox measureText (TextShape base x y value)]> (heap b))
                   b).
Proof.
  intros Hedit Hi Hr. unfold handleTextChange.
  rewrite Hedit. cbn [mbind option_bind]. rewrite Hi. cbn [mbind option_bind].
  rewrite Hr. cbn [mbind option_bind]. unfold dispatch. simpl.
  by destruct b as [? [] ? ? ? ? ? ? ? ? ? ? ?].
Qed.

(** Keystrokes change nothing but the content and the bounding box of the
    object that is edited; the content is the last value typed. *)
Lemma keystrokes_set_text (b1 : Whiteboard) (i : nat) (r : ref) (base0 : BaseShape)
  (x y : Q) (typed : list Js.jsstring) :
  editingShapeIndex b1 = Some i -> shapes (state b1) !! i = Some r ->
  forall hp bb t,
    hp !! r = Some (TextShape (with_bbox base0 bb) x y t) ->
    exists hp' bb',
      run measureText (map TextChange typed) (set_heap hp b1) = Some (set_heap hp' b1)
      /\ hp' !! r = Some (TextShape (with_bbox base0 bb') x y (default t (last typed)))
      /\ length hp' = length hp.
Proof.
  intros Hedit Hi. induction typed as [|v typed IH]; intros hp bb t Hr.
  - exists hp, bb. done.
  - cbn [map run handle].
    rewrite (handleTextChange_sets v (set_heap hp b1) i r (with_bbox base0 bb) x y t)
      by done.
    cbn [mbind option_bind].
    edestruct (IH (<[r := updateBoundingBox measureText
                            (TextShape (with_bbox base0 bb) x y v)]> hp))
      as (hp' & bb' & Hrun & Hr' & Hlen).
    { rewrite list_lookup_insert_eq by (by eapply lookup_lt_Some). reflexivity. }
    exists hp', bb'. split; [exact Hrun|]. split.
    + rewrite Hr'. f_equal. f_equal. destruct typed as [|v' typed']; [done|].
      rewrite last_cons_cons. destruct (last (v' :: typed')) eqn:Hlast; [done|].
      by apply last_None in Hlast.
    + by rewrite Hlen, length_insert.
Qed.

End WithMeasure.

(** C10. On the standalone board a pointer-down with the text tool creates
    a text shape with the empty string and commits it at once: the scene
    with the shape appended becomes a new snapshot under the cursor, before
    any key is pressed.  Keystrokes leave the history alone.  When the
    session then ends with blank content (nothing typed, or white space
    only), the shape leaves the scene and that scene is committed as one
    more snapshot; the undo that follows puts the scene with the blank text
    shape back on display.  The snapshot holds the very object that was
    edited, so the shape it shows has the content typed last. *)
Theorem text_click_commits_empty_shape
  (measureText : Q -> Js.jsstring -> TextMetrics)
  (b : Whiteboard) (now : N) (e : PointerEvent) (typed : list Js.jsstring)
  (Hedit : editingShapeIndex b = None)
  (Htool : tool b = text)
  (Hbutton : button e <> 1)
  (Hinside : Js.inside (history (state b)) (historyIndex (state b)))
  (Hblank : forallb Js.isWhiteSpace (default [] (last typed)) = true) :
  let pos := getPointerWorldPos e (view b) in
  let r := length (heap b) in
  exists b1 b2 b3 b4 base base',
    handlePointerDown measureText now e b = Some b1
    /\ heap b1 !! r = Some (TextShape base (pt_x pos) (pt_y pos) [])
    /\ shapes (state b1) = shapes (state b) ++ [r]
    /\ Js.commits (history (state b)) (historyIndex (state b)) (shapes (state b) ++ [r])
                  (history (state b1)) (historyIndex (state b1))
    /\ editingShapeIndex b1 = Some (length (shapes (state b)))
    /\ run measureText (map TextChange typed) b1 = Some b2
    /\ state b2 = state b1
    /\ finishEditingText measureText b2 = Some b3
    /\ shapes (state b3) = shapes (state b)
    /\ Js.commits (history (state b1)) (historyIndex (state b1)) (shapes (state b))
                  (history (state b3)) (historyIndex (state b3))
    /\ dispatch UNDO b3 = Some b4
    /\ shapes (state b4) = shapes (state b) ++ [r]
    /\ historyIndex (state b4) = historyIndex (state b1)
    /\ heap b4 !! r = Some (TextShape base' (pt_x pos) (pt_y pos) (default [] (last typed))).
Proof.
  intros pos r.
  pose proof (TextFacts.handlePointerDown_text measureText now e b Hedit Htool Hbutton)
    as Hdown.
  cbv zeta in Hdown. fold pos r in Hdown.
  match type of Hdown with _ = Some ?v => set (b1 := v) in * end.
  set (base0 := newBase now (ui_color b) 0 (ui_fontSize b)).
  set (shape := updateBoundingBox measureText (TextShape base0 (pt_x pos) (pt_y pos) [])).
  assert (heap b1 !! r = Some shape) as Hheap1 by (simpl; by apply list_lookup_middle).
  assert (shapes (state b1) !! length (shapes (state b)) = Some r) as Hidx
    by (simpl; by apply list_lookup_middle).
  pose proof (TextFacts.commitScene_commits (shapes (state b) ++ [r]) (state b) Hinside)
    as Hc1.
  change (commitScene (shapes (state b) ++ [r]) (state b)) with (state b1) in Hc1.
  pose proof Hc1 as (_ & _ & Hinside1 & Hget1).
  (* the keystrokes *)
  destruct (keystrokes_set_text measureText b1 (length (shapes (state b))) r base0
              (pt_x pos) (pt_y pos) typed eq_refl Hidx (heap b1) _ [] Hheap1)
    as (hp & bb & Htyped & Hr & Hlen).
  change (set_heap (heap b1) b1) with b1 in Htyped.
  set (b2 := set_heap hp b1) in *.
  (* the blur *)
  pose proof (TextFacts.finishEditingText_discards measureText b2 (length (shapes (state b))) r
                _ _ _ _ eq_refl Hidx Hr Hblank) as Hfinish.
  match type of Hfinish with _ = Some ?v => set (b3 := v) in * end.
  assert (shapes (state b3) = shapes (state b)) as Hshapes3.
  { simpl. apply GestureFacts.delete_last. }
  pose proof (TextFacts.commitScene_commits (delete (length (shapes (state b)))
                                                    (shapes (state b) ++ [r]))
                (state b1) Hinside1) as Hc3.
  rewrite GestureFacts.delete_last in Hc3.
  assert (history (state b3) = history (commitScene (shapes (state b)) (state b1))
          /\ historyIndex (state b3) = historyIndex (commitScene (shapes (state b)) (state b1)))
    as [Hh3 Hi3].
  { simpl. by rewrite GestureFacts.delete_last. }
  rewrite <- Hh3, <- Hi3 in Hc3.
  pose proof Hc3 as (_ & _ & Hinside3 & _).
  pose proof (JsFacts.commits_cursor _ _ _ _ _ Hinside1 Hc3) as Hcur3.
  (* the undo *)
  destruct (BoardHistory.undo_inside (state b3) Hinside3) as (scene & Hscene & Hundo).
  { unfold Js.inside in Hinside1. lia. }
  rewrite Hcur3 in Hscene.
  replace (historyIndex (state b1) + 1 - 1) with (historyIndex (state b1)) in Hscene by lia.
  rewrite (JsFacts.commits_keeps _ _ _ _ _ _ Hinside1 Hc3) in Hscene
    by (unfold Js.inside in Hinside1; lia).
  rewrite Hget1 in Hscene. injection Hscene as <-.
  exists b1, b2, b3,
    (set_state {| shapes := shapes (state b) ++ [r];
                  history := history (state b3);
                  historyIndex := historyIndex (state b3) - 1 |} b3).
  eexists _, (with_bbox base0 bb).
  split; [exact Hdown|]. split; [exact Hheap1|]. split; [reflexivity|].
  split; [exact Hc1|]. split; [reflexivity|]. split; [exact Htyped|].
  split; [reflexivity|]. split; [exact Hfinish|].
  split; [exact Hshapes3|]. split; [exact Hc3|]. split.
  { unfold dispatch. rewrite Hundo. reflexivity. }
  split; [reflexivity|]. split; [|exact Hr].
  change (historyIndex (state b3) - 1 = historyIndex (state b1)). lia.
Qed.

(** The text tool clicked on the initial board, two spaces typed, a blur,
    an undo: the scene on display is the text shape 0 again, its content
    the two spaces. *)
Lemma text_click_commits_empty_shape_witness :
  exists b4 base x y,
    run Examples.measure
        [PointerDown 1 (Examples.pointer 0 0); TextChange [32]%N; TextChange [32; 32]%N;
         Blur; ClickUndo]
        (setTool text initialBoard) = Some b4
    /\ shapes (state b4) = [0%nat]
    /\ heap b4 !! 0%nat = Some (TextShape base x y [32; 32]%N).
Proof.
  destruct (text_click_commits_empty_shape Examples.measure (setTool text initialBoard) 1
              (Examples.pointer 0 0) [[32]; [32; 32]]%N)
    as (b1 & b2 & b3 & b4 & base & base' & Hdown & _ & _ & _ & _ & Htyped & _ & Hblur & _ & _
        & Hundo & Hshapes & _ & Hheap).
  - reflexivity.
  - reflexivity.
  - discriminate.
  - unfold Js.inside. simpl. lia.
  - reflexivity.
  - eexists b4, base', _, _. split.
    { change (run Examples.measure
                (PointerDown 1 (Examples.pointer 0 0)
                 :: map TextChange [[32]; [32; 32]]%N ++ [Blur; ClickUndo])
                (setTool text initialBoard) = Some b4).
      cbn [run handle]. rewrite Hdown. cbn [mbind option_bind].
      rewrite (run_app Examples.measure _ _ _ _ Htyped).
      cbn [run handle]. rewrite Hblur. cbn [mbind option_bind]. rewrite Hundo. reflexivity. }
    split; [exact Hshapes|exact Hheap].
Defined.

(** Nothing typed, with the pointer-up that follows the click: the
    snapshot the undo returns to holds the text shape with the empty
    string. *)
Example text_click_then_blur_then_undo :
  (b ← run Examples.measure
         [PointerDown 1 (Examples.pointer 0 0); PointerUp; Blur; ClickUndo]
         (setTool text initialBoard);
   shape ← heap b !! 0%nat;
   Some (shapes (state b), history (state b), historyIndex (state b),
         match shape with TextShape _ _ _ t => Some t | _ => None end))
  = Some ([0%nat], [[]; [0%nat]; []], 1, Some []).
Proof. vm_compute. reflexivity. Qed.

End TextClick.

(** ** What every run of the boards preserves *)

Module Invariant.

Import Types Board.

Lemma refs_below_mono n m s : (n <= m)%nat -> refs_below n s -> refs_below m s.
Proof.
  intros Hle [Hs Hh]. split.
  - eapply Forall_impl; [exact Hs|]. intros r Hr. simpl in *. lia.
  - eapply Forall_impl; [exact Hh|]. intros scene Hscene.
    eapply Forall_impl; [exact Hscene|]. intros r Hr. simpl in *. lia.
Qed.

Lemma Forall_filter_from {A : Type} (P : A -> Prop) (f : A -> nat -> bool) (k : nat) (l : list A) :
  Forall P l -> Forall P (Js.filter_from f k l).
Proof.
  revert k. induction l as [|x l IH]; intros k Hl; [done|].
  apply Forall_cons in Hl as [Hx Hl]. cbn [Js.filter_from].
  destruct (f x k); [apply Forall_cons; split; [done|]|]; by apply IH.
Qed.

Lemma Forall_slice0 {A : Type} (P : A -> Prop) (l : list A) (e : Z) :
  Forall P l -> Forall P (Js.slice0 l e).
Proof. intros Hl. unfold Js.slice0. by apply Forall_take. Qed.

Lemma get_Forall {A : Type} (P : A -> Prop) (l : list A) (i : Z) (x : A) :
  Forall P l -> Js.get l i = Some x -> P x.
Proof.
  intros Hl Hx. apply JsFacts.get_Some in Hx as [_ Hx].
  by eapply Forall_lookup_1.
Qed.

Lemma reducer_refs_below n s a s' :
  refs_below n s -> payload_below n a -> reducer s a = Some s' -> refs_below n s'.
Proof.
  intros [Hs Hh] Ha Hred. destruct a; simpl in *; open_handler Hred; simplify_eq; split; simpl;
    try done.
  - apply Forall_app. split; [done|]. by apply Forall_singleton.
  - apply Forall_app. split; [by apply Forall_slice0|]. apply Forall_singleton.
    apply Forall_app. split; [done|]. by apply Forall_singleton.
  - apply Forall_app. split; [by apply Forall_slice0|]. by apply Forall_singleton.
  - by eapply (get_Forall _ (history s)).
  - by eapply (get_Forall _ (history s)).
  - apply Forall_singleton. done.
Qed.


Lemma reducer_inside s a s' :
  Js.inside (history s) (historyIndex s) -> reducer s a = Some s' ->
  Js.inside (history s') (historyIndex s').
Proof.
  intros Hs Hred. destruct (BoardHistory.reducer_total s a Hs) as (s'' & Hs'' & Hin).
  congruence.
Qed.

(** A handler that puts a heap at least as long in place and then
    dispatches an action whose payload lies inside that heap keeps the
    board well formed. *)
Lemma step_wf a h b b' :
  wf b -> (length (heap b) <= length h)%nat -> payload_below (length h) a ->
  dispatch a (set_heap h b) = Some b' -> wf b'.
Proof.
  intros [Hin Hrefs] Hlen Ha Hd. unfold dispatch in Hd.
  destruct (reducer (state (set_heap h b)) a) as [s'|] eqn:Hred; [|done].
  cbn [mbind option_bind] in Hd. injection Hd as <-. simpl in Hred.
  split; simpl.
  { eapply reducer_inside; [exact Hin|exact Hred]. }
  eapply reducer_refs_below; [|exact Ha|exact Hred]. by eapply refs_below_mono.
Qed.

Lemma dispatch_wf a b b' :
  wf b -> payload_below (length (heap b)) a -> dispatch a b = Some b' -> wf b'.
Proof.
  intros Hwf Ha Hd. apply (step_wf a (heap b) b b'); try done.
Qed.

Lemma wf_ext b b' : heap b = heap b' -> state b = state b' -> wf b -> wf b'.
Proof. unfold wf. by intros -> ->. Qed.

Section WithMeasure.
Variable measureText : Q -> Js.jsstring -> TextMetrics.

Lemma dragAll_length dx dy cs indices h h' :
  dragAll measureText dx dy cs indices h = Some h' -> length h' = length h.
Proof.
  revert h. induction indices as [|i indices IH]; intros h Hd; simpl in Hd.
  - by simplify_eq.
  - open_handler Hd. apply IH in Hd. by rewrite Hd, length_insert.
Qed.

Lemma finishEditingText_wf b b' :
  wf b -> finishEditingText measureText b = Some b' -> wf b'.
Proof.
  intros Hwf H. pose proof Hwf as [_ [Hshapes _]].
  unfold finishEditingText in H. open_handler H; simplify_eq; try done.
  all: match goal with |- wf (setEditingShapeIndex _ ?x) => apply (wf_ext x); [done|done|] end.
  all: first
         [ eapply dispatch_wf; [exact Hwf| |eassumption]; simpl;
           by apply Forall_filter_from
         | eapply step_wf; [exact Hwf| | |eassumption];
           [by rewrite length_insert | simpl; by rewrite length_insert] ].
Qed.


(** Closes a goal [wf b'] where [b'] is some setters around the result of a
    dispatch recorded in the context. *)
Ltac dispatched b0 Hwf :=
  match goal with
  | |- wf ?x =>
      match goal with
      | H : dispatch _ _ = Some ?y |- _ =>
          apply (wf_ext y); [reflexivity|reflexivity|];
          first
            [ (eapply step_wf; [| | |exact H];
               [apply (wf_ext b0); [reflexivity|reflexivity|exact Hwf]| |])
            | (eapply dispatch_wf; [| |exact H];
               [apply (wf_ext b0); [reflexivity|reflexivity|exact Hwf]|]) ]
      end
  end.

Lemma handle_wf ev b b' : wf b -> handle measureText ev b = Some b' -> wf b'.
Proof.
  intros Hwf H. pose proof Hwf as [_ [Hshapes _]]. destruct ev; simpl in H.
  - (* pointer down *)
    unfold handlePointerDown, alloc in H.
    destruct (editingShapeIndex b); [by eapply finishEditingText_wf|].
    open_handler H; simplify_eq; try done.
    all: dispatched b Hwf.
    all: simpl; rewrite ?length_app; simpl; lia.
  - (* pointer move *)
    unfold handlePointerMove in H. open_handler H; simplify_eq; try done.
    + match goal with
      | Hd : dragAll _ _ _ _ _ _ = Some _ |- _ => apply dragAll_length in Hd as Hlen
      end.
      dispatched b Hwf.
      * by rewrite Hlen.
      * simpl. by rewrite Hlen.
    + dispatched b Hwf.
      * by rewrite length_insert.
      * simpl. rewrite length_insert. by apply Forall_filter_from.
    + dispatched b Hwf.
      * by rewrite length_insert.
      * simpl. by rewrite length_insert.
  - (* pointer up *)
    unfold handlePointerUp in H. open_handler H; simplify_eq; try done.
    dispatched b Hwf.
    + by rewrite length_insert.
    + simpl. by rewrite length_insert.
  - (* wheel *)
    simplify_eq. unfold handleWheel. destruct (editingShapeIndex b); [done|].
    by apply (wf_ext b).
  - (* keystroke *)
    unfold handleTextChange in H. open_handler H; simplify_eq.
    dispatched b Hwf.
    + by rewrite length_insert.
    + simpl. by rewrite length_insert.
  - by eapply finishEditingText_wf.
  - (* key down *)
    unfold handleKeyDown in H. open_handler H; simplify_eq; try done.
    all: try (by eapply finishEditingText_wf).
    all: dispatched b Hwf; simpl; try done.
    all: by apply Forall_filter_from.
  - simplify_eq. by apply (wf_ext b).
  - eapply dispatch_wf; [exact Hwf| |exact H]. done.
  - eapply dispatch_wf; [exact Hwf| |exact H]. done.
  - unfold handleClearAll in H. open_handler H.
    eapply dispatch_wf; [|  |exact H]; [by eapply finishEditingText_wf|done].
Qed.

Lemma initialBoard_wf : wf initialBoard.
Proof.
  split; [apply BoardHistory.initialState_inside|]. split; simpl.
  - apply Forall_nil_2.
  - apply Forall_singleton, Forall_nil_2.
Qed.

Lemma run_wf evs b b' : wf b -> run measureText evs b = Some b' -> wf b'.
Proof.
  revert b. induction evs as [|ev evs IH]; intros b Hwf H; simpl in H.
  - by simplify_eq.
  - destruct (handle measureText ev b) as [b1|] eqn:E; simplify_eq/=.
    eapply IH; [|done]. by eapply handle_wf.
Qed.

End WithMeasure.

(** On a well-formed board every reference on display has an object. *)
Lemma wf_lookup b r : wf b -> r ∈ shapes (state b) -> is_Some (heap b !! r).
Proof.
  intros [_ [Hshapes _]] Hr. apply lookup_lt_is_Some.
  by apply (proj1 (Forall_forall _ _) Hshapes).
Qed.

End Invariant.

Module RoomInvariant.

Import Types Room.

Lemma whiteboardReducer_inside s a s' :
  Js.inside (history s) (historyIndex s) -> whiteboardReducer s a = Some s' ->
  Js.inside (history s') (historyIndex s').
Proof.
  intros Hs Hred. destruct (RoomHistory.whiteboardReducer_total s a Hs) as (s'' & Hs'' & Hin).
  congruence.
Qed.

Lemma room_dispatch_inside a c c' :
  dispatch a c = Some c' ->
  Js.inside (history (state c)) (historyIndex (state c)) ->
  Js.inside (history (state c')) (historyIndex (state c')).
Proof.
  intros (s' & Hs' & ->)%ZoomFacts.room_dispatch_Some Hc. simpl.
  by eapply whiteboardReducer_inside.
Qed.

Lemma room_handle_inside ev c c' :
  handle ev c = Some c' ->
  Js.inside (history (state c)) (historyIndex (state c)) ->
  Js.inside (history (state c')) (historyIndex (state c')).
Proof.
  intros H Hc. destruct ev; simpl in H.
  - unfold handleMouseDown in H. open_handler H; simplify_eq; try done.
    by eapply room_dispatch_inside.
  - unfold handleMouseMove in H. open_handler H; simplify_eq; done.
  - unfold handleMouseUp in H. open_handler H; simplify_eq; try done.
    simpl. by eapply room_dispatch_inside.
  - by simplify_eq.
  - by eapply room_dispatch_inside.
  - by eapply room_dispatch_inside.
  - by eapply room_dispatch_inside.
  - by eapply room_dispatch_inside.
  - by eapply room_dispatch_inside.
  - unfold handleTextInputChange in H. open_handler H. by simplify_eq.
  - unfold handleTextInputBlur in H. open_handler H; simplify_eq; try done.
    simpl. by eapply room_dispatch_inside.
  - by eapply room_dispatch_inside.
Qed.

Lemma room_run_inside evs c c' :
  run evs c = Some c' ->
  Js.inside (history (state c)) (historyIndex (state c)) ->
  Js.inside (history (state c')) (historyIndex (state c')).
Proof.
  revert c. induction evs as [|ev evs IH]; intros c H Hc; simpl in H.
  - by simplify_eq.
  - destruct (handle ev c) as [c1|] eqn:E; simplify_eq/=.
    eapply IH; [done|]. by eapply room_handle_inside.
Qed.

End RoomInvariant.

(** * The rest of the two boards *)

(** ** The standalone board: what every sequence of inputs keeps *)

Module Reach.
Import Types Board.

Section WithMeasure.
Variable measureText : Q -> Js.jsstring -> TextMetrics.

Lemma handleInput_wf i b b' : wf b -> handleInput measureText i b = Some b' -> wf b'.
Proof.
  intros Hwf H. destruct i; simpl in H.
  - by eapply Invariant.handle_wf.
  - simplify_eq. unfold handleDoubleClick.
    destruct (scanDown _ _); [|done]. by apply (Invariant.wf_ext b).
  - by eapply (Invariant.handle_wf measureText PointerUp).
  - simplify_eq. by apply (Invariant.wf_ext b).
  - simplify_eq. by apply (Invariant.wf_ext b).
  - simplify_eq. by apply (Invariant.wf_ext b).
  - simplify_eq. unfold handleWheel. destruct (editingShapeIndex b); [done|].
    by apply (Invariant.wf_ext b).
Qed.

Lemma runInputs_wf ins b b' : wf b -> runInputs measureText ins b = Some b' -> wf b'.
Proof.
  revert b. induction ins as [|i ins IH]; intros b Hwf H; simpl in H.
  - by simplify_eq.
  - destruct (handleInput measureText i b) as [b1|] eqn:E; simplify_eq/=.
    eapply IH; [|done]. by eapply handleInput_wf.
Qed.

End WithMeasure.
End Reach.

Module ReachZoom.
Import Types Board.
Section WithMeasure.
Variable measureText : Q -> Js.jsstring -> TextMetrics.




End WithMeasure.
End ReachZoom.

Section BoardReachable.

Import Types Board.

Variable measureText : Q -> Js.jsstring -> TextMetrics.

(** X1. Whatever the user does to the standalone board from its initial state
    (pointer, wheel, keys, text area, double click, palette, buttons), as
    long as no handler raises: the cursor points at a snapshot, and every
    entry of the scene on display and of every snapshot is a shape object,
    none is [undefined]. *)
Theorem board_scenes_hold_objects_and_cursor_is_inside
  (inputs : list Input) (b : Whiteboard) :
  runInputs measureText inputs initialBoard = Some b ->
  0 <= historyIndex (state b) < Z.of_nat (length (history (state b)))
  /\ (forall r, r ∈ shapes (state b) -> is_Some (heap b !! r))
  /\ (forall scene r, scene ∈ history (state b) -> r ∈ scene -> is_Some (heap b !! r)).
Proof.
  intros H.
  pose proof (Reach.runInputs_wf measureText inputs _ _ Invariant.initialBoard_wf H)
    as [Hin [Hs Hh]].
  split; [exact Hin|]. split.
  - intros r Hr. apply lookup_lt_is_Some. by apply (proj1 (Forall_forall _ _) Hs).
  - intros scene r Hscene Hr. apply lookup_lt_is_Some.
    apply (proj1 (Forall_forall _ _) (proj1 (Forall_forall _ _) Hh scene Hscene)). done.
Qed.

End BoardReachable.

Lemma board_scenes_hold_objects_and_cursor_is_inside_witness :
  Board.historyIndex (Board.state Examples.board_with_rect) = 2
  /\ Board.shapes (Board.state Examples.board_with_rect) = [0%nat]
  /\ is_Some (Board.heap Examples.board_with_rect !! 0%nat).
Proof.
  destruct (board_scenes_hold_objects_and_cursor_is_inside Examples.measure
              Examples.draw_rect Examples.board_with_rect) as (_ & Hscene & _).
  - vm_compute. reflexivity.
  - split; [vm_compute; reflexivity|]. split; [vm_compute; reflexivity|].
    apply Hscene. vm_compute. left.
Defined.

Module Progress.
Import Types Board.

Lemma dispatch_commit_is_Some a b : is_commit a = true -> is_Some (dispatch a b).
Proof. destruct a; try done; intros _; unfold dispatch; simpl; eauto. Qed.

Lemma dispatch_set_is_Some l b : is_Some (dispatch (SET_SHAPES_NO_HISTORY l) b).
Proof. unfold dispatch; simpl; eauto. Qed.

Lemma dispatch_is_Some a b :
  Js.inside (history (state b)) (historyIndex (state b)) -> is_Some (dispatch a b).
Proof.
  intros Hin. destruct (BoardHistory.reducer_total (state b) a Hin) as (s' & Hs' & _).
  unfold dispatch. rewrite Hs'. simpl. eauto.
Qed.

Lemma wf_scene_lookup b i r :
  wf b -> shapes (state b) !! i = Some r -> is_Some (heap b !! r).
Proof.
  intros Hwf Hi. apply Invariant.wf_lookup; [done|]. by eapply list_elem_of_lookup_2.
Qed.

Section WithMeasure.
Variable measureText : Q -> Js.jsstring -> TextMetrics.

Lemma finishEditingText_is_Some b :
  wf b -> indices_inside b -> is_Some (finishEditingText measureText b).
Proof.
  intros Hwf [Hedit _]. unfold finishEditingText.
  destruct (editingShapeIndex b) as [i|] eqn:Ei; [|eauto].
  destruct (lookup_lt_is_Some_2 (shapes (state b)) i (Hedit i eq_refl)) as [r Hr].
  rewrite Hr. simpl.
  destruct (wf_scene_lookup b i r Hwf Hr) as [s Hs]. rewrite Hs. simpl.
  destruct s; try destruct (Js.isEmptyString _); unfold dispatch; simpl; eauto.
Qed.

Lemma dragAll_is_Some dx dy cs indices h :
  Forall (fun i => (i < length cs)%nat) indices ->
  Forall (fun r => (r < length h)%nat) cs ->
  is_Some (dragAll measureText dx dy cs indices h).
Proof.
  intros Hi Hcs. revert h Hcs. induction Hi as [|i indices Hi _ IH]; intros h Hcs; simpl.
  - eauto.
  - destruct (lookup_lt_is_Some_2 cs i Hi) as [r Hr]. rewrite Hr. simpl.
    assert (r < length h)%nat as Hlt.
    { apply (proj1 (Forall_forall _ _) Hcs). by eapply list_elem_of_lookup_2. }
    destruct (lookup_lt_is_Some_2 h r Hlt) as [s Hs]. rewrite Hs. simpl.
    apply IH. by rewrite length_insert.
Qed.

Lemma last_elem_of {A : Type} (l : list A) (x : A) : last l = Some x -> x ∈ l.
Proof. rewrite last_lookup. apply list_elem_of_lookup_2. Qed.

Lemma handle_is_Some ev b :
  wf b -> indices_inside b ->
  (forall v, ev = TextChange v -> is_Some (textArea b)) ->
  is_Some (handle measureText ev b).
Proof.
  intros Hwf Hidx Hta. pose proof Hwf as [Hin [Hs Hh]].
  destruct ev; simpl.
  - unfold handlePointerDown.
    destruct (editingShapeIndex b) eqn:Ei; [by apply finishEditingText_is_Some|].
    simpl. destruct (Tool_eqb (tool b) pan || (button e =? 1)); [eauto|].
    destruct (Tool_eqb (tool b) select); [destruct (scanDown _ _); eauto|].
    destruct (Tool_eqb (tool b) text); [unfold alloc, dispatch; simpl; eauto|].
    destruct (createShape _ _ _); [|eauto]. unfold alloc, dispatch; simpl; eauto.
  - unfold handlePointerMove.
    destruct (startPoint b); [|eauto]. destruct (Action_eqb (action b) panning); [eauto|].
    destruct (Action_eqb (action b) dragging && _).
    + destruct Hidx as [_ Hsel].
      destruct (dragAll_is_Some (pt_x (getPointerWorldPos e (view b)) - pt_x p)
                  (pt_y (getPointerWorldPos e (view b)) - pt_y p)
                  (shapes (state b)) (selectedIndices b) (heap b) Hsel Hs) as [h ->].
      simpl. unfold dispatch. simpl. eauto.
    + destruct (negb (isDrawing b)); [eauto|].
      destruct (last (shapes (state b))) as [r|] eqn:El; [|eauto].
      destruct (Invariant.wf_lookup b r Hwf (last_elem_of _ _ El)) as [s ->]. simpl.
      destruct (Action_eqb (action b) drawing && _);
        [destruct (negb _); [eauto|]|]; unfold dispatch; simpl; eauto.
  - unfold handlePointerUp. destruct (Action_eqb (action b) drawing); [|eauto].
    destruct (last (shapes (state b))) as [r|] eqn:El; [|eauto].
    destruct (Invariant.wf_lookup b r Hwf (last_elem_of _ _ El)) as [s ->]. simpl.
    unfold dispatch. simpl. eauto.
  - eauto.
  - destruct (Hta value eq_refl) as [ta Hta']. unfold textArea in Hta'.
    unfold handleTextChange.
    destruct (editingShapeIndex b) as [i|]; simpl in *; [|done].
    destruct (shapes (state b) !! i) as [r|]; simpl in *; [|done].
    destruct (heap b !! r) as [s|]; simpl in *; [|done].
    destruct s; try done; unfold dispatch; simpl; eauto.
  - by apply finishEditingText_is_Some.
  - unfold handleKeyDown. destruct key.
    1,2: destruct (selectedIndices b), (editingShapeIndex b); eauto;
         unfold dispatch; simpl; eauto.
    1,2: destruct ctrlOrMeta; [by apply dispatch_is_Some|eauto].
    + by apply finishEditingText_is_Some.
    + eauto.
  - eauto.
  - by apply dispatch_is_Some.
  - by apply dispatch_is_Some.
  - unfold handleClearAll.
    destruct (finishEditingText_is_Some b Hwf Hidx) as [b' ->]. simpl.
    unfold dispatch. simpl. eauto.
Qed.

End WithMeasure.
End Progress.

Section BoardSafety.

Import Types Board.

Variable measureText : Q -> Js.jsstring -> TextMetrics.

(** X2. No handler of the standalone board raises on a well-formed board whose
    [editingShapeIndex] and [selectedIndices] point into the scene on
    display (the [onChange] of the text area is considered only while the
    text area is rendered). *)
Theorem no_handler_raises_while_indices_point_into_the_scene
  (b : Whiteboard) (i : Input)
  (Hwf : wf b)
  (Hidx : indices_inside b)
  (Harea : needs_text_area i = true -> is_Some (textArea b)) :
  is_Some (handleInput measureText i b).
Proof.
  destruct i as [ev| | | | | |]; simpl; eauto.
  - apply Progress.handle_is_Some; [done..|]. intros v ->. by apply Harea.
  - apply (Progress.handle_is_Some measureText PointerUp); done.
Qed.

End BoardSafety.

Lemma no_handler_raises_while_indices_point_into_the_scene_witness :
  is_Some (Board.handleInput Examples.measure
             (Board.OnBoard (Board.KeyDown Board.KeyZ true)) Examples.board_rect_selected).
Proof.
  apply (no_handler_raises_while_indices_point_into_the_scene Examples.measure
           Examples.board_rect_selected (Board.OnBoard (Board.KeyDown Board.KeyZ true))).
  - split; [vm_compute; split; congruence|]. split; vm_compute; repeat constructor.
  - split; [intros i; vm_compute; congruence|]. vm_compute. repeat constructor.
  - simpl. congruence.
Defined.

Module RoundTrip.

Section Board.
Import Types Board.

Lemma undo_after_commit (scene x : list ref) (s : AppState) :
  Js.inside (history s) (historyIndex s) ->
  Js.get (history s) (historyIndex s) = Some x ->
  reducer (commitScene scene s) UNDO
  = Some {| shapes := x; history := history (commitScene scene s);
            historyIndex := historyIndex s |}.
Proof.
  intros Hin Hx. pose proof (TextFacts.commitScene_commits scene s Hin) as Hc.
  pose proof (JsFacts.commits_cursor _ _ _ _ _ Hin Hc) as Hcur.
  pose proof (JsFacts.commits_keeps _ _ _ _ _ (historyIndex s) Hin Hc) as Hkeep.
  unfold reducer. rewrite Hcur.
  destruct (Z.ltb_spec 0 (historyIndex s + 1)) as [_|Hneg]; [|unfold Js.inside in Hin; lia].
  replace (historyIndex s + 1 - 1) with (historyIndex s) by lia.
  rewrite Hkeep by (unfold Js.inside in Hin; lia). by rewrite Hx.
Qed.

Lemma undo_then_redo (s : AppState) :
  Js.inside (history s) (historyIndex s) -> in_sync s -> 0 < historyIndex s ->
  exists s1, reducer s UNDO = Some s1 /\ reducer s1 REDO = Some s
             /\ in_sync s1 /\ historyIndex s1 = historyIndex s - 1.
Proof.
  intros Hin Hsync Hpos. unfold reducer.
  destruct (Z.ltb_spec 0 (historyIndex s)) as [_|]; [|lia].
  assert (Js.inside (history s) (historyIndex s - 1)) as Hin1.
  { unfold Js.inside in *. lia. }
  destruct (JsFacts.get_inside _ _ Hin1) as [x Hx]. rewrite Hx.
  eexists. split; [done|]. simpl.
  destruct (Z.ltb_spec (historyIndex s - 1) (Z.of_nat (length (history s)) - 1)) as [_|];
    [|unfold Js.inside in Hin; lia].
  replace (historyIndex s - 1 + 1) with (historyIndex s) by lia.
  unfold in_sync in *. rewrite Hsync. by destruct s.
Qed.

Lemma redo_then_undo (s : AppState) :
  Js.inside (history s) (historyIndex s) -> in_sync s ->
  historyIndex s < Z.of_nat (length (history s)) - 1 ->
  exists s1, reducer s REDO = Some s1 /\ reducer s1 UNDO = Some s
             /\ in_sync s1 /\ historyIndex s1 = historyIndex s + 1.
Proof.
  intros Hin Hsync Hlt. unfold reducer.
  destruct (Z.ltb_spec (historyIndex s) (Z.of_nat (length (history s)) - 1)) as [_|]; [|lia].
  assert (Js.inside (history s) (historyIndex s + 1)) as Hin1.
  { unfold Js.inside in *. lia. }
  destruct (JsFacts.get_inside _ _ Hin1) as [x Hx]. rewrite Hx.
  eexists. split; [done|]. simpl.
  destruct (Z.ltb_spec 0 (historyIndex s + 1)) as [_|]; [|unfold Js.inside in Hin; lia].
  replace (historyIndex s + 1 - 1) with (historyIndex s) by lia.
  unfold in_sync in *. rewrite Hsync. by destruct s.
Qed.

End Board.

Section Room.
Import Types Room.

Lemma room_undo_then_redo (s : WhiteboardState) :
  Js.inside (history s) (historyIndex s) -> in_sync s -> 0 < historyIndex s ->
  exists s1, whiteboardReducer s UNDO = Some s1
             /\ whiteboardReducer s1 REDO = whiteboardReducer s CLEAR_SELECTION
             /\ in_sync s1 /\ historyIndex s1 = historyIndex s - 1.
Proof.
  intros Hin Hsync Hpos. unfold whiteboardReducer.
  destruct (Z.ltb_spec 0 (historyIndex s)) as [_|]; [|lia].
  assert (Js.inside (history s) (historyIndex s - 1)) as Hin1.
  { unfold Js.inside in *. lia. }
  destruct (JsFacts.get_inside _ _ Hin1) as [x Hx]. rewrite Hx.
  eexists. split; [done|]. simpl.
  destruct (Z.ltb_spec (historyIndex s - 1) (Z.of_nat (length (history s)) - 1)) as [_|];
    [|unfold Js.inside in Hin; lia].
  replace (historyIndex s - 1 + 1) with (historyIndex s) by lia.
  unfold in_sync in *. by rewrite Hsync.
Qed.

Lemma room_redo_then_undo (s : WhiteboardState) :
  Js.inside (history s) (historyIndex s) -> in_sync s ->
  historyIndex s < Z.of_nat (length (history s)) - 1 ->
  exists s1, whiteboardReducer s REDO = Some s1
             /\ whiteboardReducer s1 UNDO = whiteboardReducer s CLEAR_SELECTION
             /\ in_sync s1 /\ historyIndex s1 = historyIndex s + 1.
Proof.
  intros Hin Hsync Hlt. unfold whiteboardReducer.
  destruct (Z.ltb_spec (historyIndex s) (Z.of_nat (length (history s)) - 1)) as [_|]; [|lia].
  assert (Js.inside (history s) (historyIndex s + 1)) as Hin1.
  { unfold Js.inside in *. lia. }
  destruct (JsFacts.get_inside _ _ Hin1) as [x Hx]. rewrite Hx.
  eexists. split; [done|]. simpl.
  destruct (Z.ltb_spec 0 (historyIndex s + 1)) as [_|]; [|unfold Js.inside in Hin; lia].
  replace (historyIndex s + 1 - 1) with (historyIndex s) by lia.
  unfold in_sync in *. by rewrite Hsync.
Qed.

End Room.
End RoundTrip.

Section UndoWhileTyping.

Import Types Board.

Variable measureText : Q -> Js.jsstring -> TextMetrics.

(** X3. The text tool is clicked on a board whose scene is the snapshot under
    the cursor, and Ctrl+Z is pressed while the new text is being typed.
    The undo takes the new shape out of the scene but leaves
    [editingShapeIndex] on it: the text area is gone, and from then on the
    blur, Escape, every pointer-down and Clear All raise a [TypeError]
    ([shape] is [undefined] in [finishEditingText]). *)
Theorem undo_key_while_typing_new_text_leaves_editing_index_dangling
  (b : Whiteboard) (now : N) (e : PointerEvent)
  (Hwf : wf b)
  (Hedit : editingShapeIndex b = None)
  (Htool : tool b = text)
  (Hbutton : button e <> 1)
  (Hsync : in_sync (state b)) :
  exists b2,
    run measureText [PointerDown now e; KeyDown KeyZ true] b = Some b2
    /\ shapes (state b2) = shapes (state b)
    /\ editingShapeIndex b2 = Some (length (shapes (state b)))
    /\ textArea b2 = None
    /\ handle measureText Blur b2 = None
    /\ handle measureText (KeyDown KeyEscape false) b2 = None
    /\ (forall now' e', handle measureText (PointerDown now' e') b2 = None)
    /\ handle measureText ClickClearAll b2 = None.
Proof.
  destruct Hwf as [Hin _].
  cbn [run handle]. rewrite TextFacts.handlePointerDown_text by done.
  cbn [mbind option_bind handleKeyDown]. unfold dispatch at 1.
  cbn [state]. rewrite (RoundTrip.undo_after_commit _ (shapes (state b))) by done.
  cbn [mbind option_bind]. eexists. split; [reflexivity|].
  split; [reflexivity|]. split; [reflexivity|].
  assert (forall A (l : list A), l !! length l = None) as Hnone.
  { intros A l. apply lookup_ge_None. lia. }
  split; [|split; [|split; [|split]]].
  - unfold textArea. simpl. by rewrite Hnone.
  - simpl. unfold finishEditingText. simpl. by rewrite Hnone.
  - simpl. unfold finishEditingText. simpl. by rewrite Hnone.
  - intros now' e'. simpl. unfold handlePointerDown, finishEditingText. simpl.
    by rewrite Hnone.
  - simpl. unfold handleClearAll, finishEditingText. simpl. by rewrite Hnone.
Qed.

End UndoWhileTyping.

Lemma undo_key_while_typing_new_text_leaves_editing_index_dangling_witness :
  exists b2,
    Board.run Examples.measure
      [Board.PointerDown 1 (Examples.pointer 0 0); Board.KeyDown Board.KeyZ true]
      (Board.setTool Types.text Board.initialBoard) = Some b2
    /\ Board.handle Examples.measure (Board.PointerDown 2 (Examples.pointer 5 5)) b2 = None.
Proof.
  destruct (undo_key_while_typing_new_text_leaves_editing_index_dangling Examples.measure
              (Board.setTool Types.text Board.initialBoard) 1 (Examples.pointer 0 0))
    as (b2 & Hrun & _ & _ & _ & _ & _ & Hdown & _).
  - split; [vm_compute; split; congruence|]. split; simpl; repeat constructor.
  - reflexivity.
  - reflexivity.
  - vm_compute. congruence.
  - reflexivity.
  - exists b2. split; [exact Hrun|]. apply Hdown.
Defined.

Section UndoRedo.

(** X4. While the scene on display is the snapshot under the cursor, redo
    undoes undo and undo undoes redo: on the standalone board the state
    comes back as it was, on the room board it comes back with the
    selection emptied (both branches of [whiteboardReducer] empty it). *)
Theorem undo_and_redo_are_inverse_on_a_synchronised_history :
  (forall s : Board.AppState,
      Js.inside (Board.history s) (Board.historyIndex s) -> Board.in_sync s ->
      (0 < Board.historyIndex s ->
       exists s1, Board.reducer s Board.UNDO = Some s1
                  /\ Board.reducer s1 Board.REDO = Some s)
      /\ (Board.historyIndex s < Z.of_nat (length (Board.history s)) - 1 ->
          exists s1, Board.reducer s Board.REDO = Some s1
                     /\ Board.reducer s1 Board.UNDO = Some s))
  /\ (forall s : Room.WhiteboardState,
         Js.inside (Room.history s) (Room.historyIndex s) -> Room.in_sync s ->
         (0 < Room.historyIndex s ->
          exists s1, Room.whiteboardReducer s Room.UNDO = Some s1
                     /\ Room.whiteboardReducer s1 Room.REDO
                        = Room.whiteboardReducer s Room.CLEAR_SELECTION)
         /\ (Room.historyIndex s < Z.of_nat (length (Room.history s)) - 1 ->
             exists s1, Room.whiteboardReducer s Room.REDO = Some s1
                        /\ Room.whiteboardReducer s1 Room.UNDO
                           = Room.whiteboardReducer s Room.CLEAR_SELECTION)).
Proof.
  split; intros s Hin Hsync; split; intros Hidx.
  - destruct (RoundTrip.undo_then_redo s Hin Hsync Hidx) as (s1 & ? & ? & _). eauto.
  - destruct (RoundTrip.redo_then_undo s Hin Hsync Hidx) as (s1 & ? & ? & _). eauto.
  - destruct (RoundTrip.room_undo_then_redo s Hin Hsync Hidx) as (s1 & ? & ? & _). eauto.
  - destruct (RoundTrip.room_redo_then_undo s Hin Hsync Hidx) as (s1 & ? & ? & _). eauto.
Qed.

End UndoRedo.

Lemma undo_and_redo_are_inverse_on_a_synchronised_history_witness :
  exists s1,
    Room.whiteboardReducer Examples.room_with_dot Room.UNDO = Some s1
    /\ Room.whiteboardReducer s1 Room.REDO = Some Examples.room_with_dot.
Proof.
  destruct (proj2 undo_and_redo_are_inverse_on_a_synchronised_history Examples.room_with_dot)
    as [Hundo _].
  - vm_compute. split; congruence.
  - reflexivity.
  - destruct Hundo as (s1 & H1 & H2); [reflexivity|].
    exists s1. split; [exact H1|]. rewrite H2. reflexivity.
Defined.

(** ** Selecting, dragging, deleting and double click *)

Module SelectFacts.
Import Types Board.

Lemma scanDown_Some p n i :
  scanDown p n = Some i <->
  (i < n)%nat /\ p i = true /\ forall j, (i < j < n)%nat -> p j = false.
Proof.
  induction n as [|n IH]; simpl.
  - split; [done|]. intros [? _]. lia.
  - destruct (p n) eqn:Hn.
    + split.
      * intros [= <-]. split; [lia|]. split; [done|]. intros j Hj. lia.
      * intros (Hi & Hp & Hj). f_equal.
        destruct (decide (i = n)) as [->|Hne]; [done|].
        rewrite (Hj n) in Hn by lia. done.
    + rewrite IH. split.
      * intros (Hi & Hp & Hj). split; [lia|]. split; [done|].
        intros j Hlt. destruct (decide (j = n)) as [->|Hne]; [done|]. apply Hj. lia.
      * intros (Hi & Hp & Hj).
        assert (i <> n) by (intros ->; congruence).
        split; [lia|]. split; [done|]. intros j Hlt. apply Hj. lia.
Qed.

Lemma scanDown_None p n :
  scanDown p n = None <-> forall j, (j < n)%nat -> p j = false.
Proof.
  induction n as [|n IH]; simpl.
  - split; [intros _ j Hj; lia|done].
  - destruct (p n) eqn:Hn.
    + split; [done|]. intros Hj. rewrite (Hj n) in Hn by lia. done.
    + rewrite IH. split.
      * intros Hj j Hlt. destruct (decide (j = n)) as [->|Hne]; [done|]. apply Hj. lia.
      * intros Hj j Hlt. apply Hj. lia.
Qed.

Section WithMeasure.
Variable measureText : Q -> Js.jsstring -> TextMetrics.

Lemma handlePointerDown_select now e b :
  editingShapeIndex b = None -> tool b = select -> button e <> 1 ->
  let pos := getPointerWorldPos e (view b) in
  handlePointerDown measureText now e b
  = Some match scanDown (hitAt (heap b) (shapes (state b)) (pt_x pos) (pt_y pos))
                        (length (shapes (state b))) with
         | Some i => setAction dragging (setSelectedIndices [i] (setStartPoint (Some pos) b))
         | None => setSelectedIndices [] (setStartPoint (Some pos) b)
         end.
Proof.
  intros Hedit Htool Hbutton pos. unfold handlePointerDown. rewrite Hedit.
  destruct (Z.eqb_spec (button e) 1) as [|_]; [done|].
  cbn [tool setStartPoint heap state]. rewrite Htool. cbn [Tool_eqb orb].
  fold pos. by destruct (scanDown _ _).
Qed.

Lemma set_same_shapes b :
  dispatch (SET_SHAPES_NO_HISTORY (shapes (state b))) b = Some b.
Proof. unfold dispatch. simpl. by destruct b as [? [] ? ? ? ? ? ? ? ? ? ? ?]. Qed.

Lemma handlePointerMove_drags e b start i r s :
  startPoint b = Some start -> action b = dragging -> selectedIndices b = [i] ->
  shapes (state b) !! i = Some r -> heap b !! r = Some s ->
  let pos := getPointerWorldPos e (view b) in
  handlePointerMove measureText e b
  = Some (setStartPoint (Some pos)
            (set_heap (<[r := updateBoundingBox measureText
                              (translate (pt_x pos - pt_x start) (pt_y pos - pt_y start) s)]>
                         (heap b)) b)).
Proof.
  intros Hstart Hact Hsel Hi Hr pos. unfold handlePointerMove.
  rewrite Hstart, Hact, Hsel. cbn [Action_eqb andb length Nat.ltb Nat.leb dragAll].
  rewrite Hi. cbn [mbind option_bind]. rewrite Hr. cbn [mbind option_bind].
  pose proof (set_same_shapes
                (set_heap (<[r := updateBoundingBox measureText
                                   (translate (pt_x pos - pt_x start) (pt_y pos - pt_y start) s)]>
                             (heap b)) b)) as Hset.
  cbn [state set_heap] in Hset. fold pos. rewrite Hset. reflexivity.
Qed.

End WithMeasure.
End SelectFacts.

Section SelectClick.

Import Types Board.

Variable measureText : Q -> Js.jsstring -> TextMetrics.

(** X5. A pointer-down with the select tool selects the shape with the greatest
    index among those whose bounding box holds the pointer and starts a
    drag; when no shape holds the pointer the selection is emptied and no
    drag starts.  Nothing of the scene, the heap or the history changes. *)
Theorem select_click_picks_the_topmost_shape_under_the_pointer
  (b : Whiteboard) (now : N) (e : PointerEvent)
  (Hedit : editingShapeIndex b = None)
  (Htool : tool b = select)
  (Hbutton : button e <> 1) :
  let pos := getPointerWorldPos e (view b) in
  let hit := hitAt (heap b) (shapes (state b)) (pt_x pos) (pt_y pos) in
  exists b',
    handlePointerDown measureText now e b = Some b'
    /\ state b' = state b /\ heap b' = heap b /\ startPoint b' = Some pos
    /\ ((exists i, selectedIndices b' = [i] /\ action b' = dragging
                   /\ (i < length (shapes (state b)))%nat /\ hit i = true
                   /\ forall j, (i < j < length (shapes (state b)))%nat -> hit j = false)
        \/ (selectedIndices b' = [] /\ action b' = action b
            /\ forall j, (j < length (shapes (state b)))%nat -> hit j = false)).
Proof.
  intros pos hit. rewrite SelectFacts.handlePointerDown_select by done. cbv zeta.
  fold pos. fold hit.
  destruct (scanDown hit (length (shapes (state b)))) as [i|] eqn:Escan.
  - apply SelectFacts.scanDown_Some in Escan as (Hi & Hhit & Htop).
    eexists. split; [reflexivity|]. do 3 (split; [done|]). left. by exists i.
  - eexists. split; [reflexivity|]. do 3 (split; [done|]). right.
    do 2 (split; [done|]). by apply SelectFacts.scanDown_None.
Qed.

End SelectClick.

Lemma select_click_picks_the_topmost_shape_under_the_pointer_witness :
  exists b',
    Board.handlePointerDown Examples.measure 2 (Examples.pointer 5 5) Examples.board_with_rect
    = Some b'
    /\ Board.selectedIndices b' = [0%nat].
Proof.
  destruct (select_click_picks_the_topmost_shape_under_the_pointer Examples.measure
              Examples.board_with_rect 2 (Examples.pointer 5 5))
    as (b' & Hdown & _ & _ & _ & Hsel).
  - reflexivity.
  - reflexivity.
  - vm_compute. congruence.
  - exists b'. split; [exact Hdown|].
    destruct Hsel as [(i & Hi & _ & Hlt & _)|(_ & _ & Hnone)].
    + rewrite Hi. f_equal. vm_compute in Hlt. lia.
    + specialize (Hnone 0%nat). vm_compute in Hnone. exfalso. discriminate Hnone. lia.
Defined.

Module DragFacts.
Import Types Board.
Section WithMeasure.
Variable measureText : Q -> Js.jsstring -> TextMetrics.

Lemma moves_drag (b1 : Whiteboard) (i : nat) (r : ref) (moves : list PointerEvent) :
  action b1 = dragging -> selectedIndices b1 = [i] ->
  shapes (state b1) !! i = Some r ->
  forall start hp s,
    hp !! r = Some s ->
    run measureText (map PointerMove moves) (setStartPoint (Some start) (set_heap hp b1))
    = Some (setStartPoint
              (Some (default start (last (map (fun e => getPointerWorldPos e (view b1)) moves))))
              (set_heap
                 (<[r := dragAlong measureText start
                           (map (fun e => getPointerWorldPos e (view b1)) moves) s]> hp)
                 b1)).
Proof.
  intros Hact Hsel Hi. induction moves as [|e moves IH]; intros start hp s Hr.
  - simpl. by rewrite list_insert_id.
  - cbn [map run handle].
    rewrite (SelectFacts.handlePointerMove_drags measureText e
               (setStartPoint (Some start) (set_heap hp b1)) start i r s) by done.
    cbn [mbind option_bind view setStartPoint set_heap heap].
    set (pos := getPointerWorldPos e (view b1)).
    set (s1 := updateBoundingBox measureText
                 (translate (pt_x pos - pt_x start) (pt_y pos - pt_y start) s)).
    match goal with
    | |- _ = ?rhs =>
        change (run measureText (map PointerMove moves)
                  (setStartPoint (Some pos) (set_heap (<[r := s1]> hp) b1)) = rhs)
    end.
    assert (<[r := s1]> hp !! r = Some s1) as Hr1.
    { apply list_lookup_insert_eq. by eapply lookup_lt_Some. }
    rewrite (IH pos (<[r := s1]> hp) s1 Hr1).
    rewrite list_insert_insert_eq. cbn [dragAlong]. fold pos. fold s1.
    do 3 f_equal.
    destruct moves as [|e' moves']; [done|].
    cbn [map]. rewrite last_cons_cons.
    destruct (last _) eqn:El; [done|]. by apply last_None in El.
Qed.

End WithMeasure.
End DragFacts.

Section DragGesture.

Import Types Board.

Variable measureText : Q -> Js.jsstring -> TextMetrics.

(** X6. A drag (pointer-down on a shape with the select tool, any number of
    moves, pointer-up) translates the shape object in place, step by step,
    and recomputes its bounding box; the reducer state after the drag is
    the state before it: no snapshot is recorded and the cursor does not
    move, so the drag cannot be undone, and every snapshot that refers to
    the object shows it at its new place. *)
Theorem drag_moves_the_object_and_records_no_snapshot
  (b : Whiteboard) (now : N) (e0 : PointerEvent) (moves : list PointerEvent)
  (i : nat) (r : ref) (s : Shape)
  (Hedit : editingShapeIndex b = None)
  (Htool : tool b = select)
  (Hbutton : button e0 <> 1)
  (Hhit : scanDown (hitAt (heap b) (shapes (state b))
                      (pt_x (getPointerWorldPos e0 (view b)))
                      (pt_y (getPointerWorldPos e0 (view b))))
                   (length (shapes (state b))) = Some i)
  (Hi : shapes (state b) !! i = Some r)
  (Hr : heap b !! r = Some s) :
  exists b',
    run measureText (PointerDown now e0 :: map PointerMove moves ++ [PointerUp]) b = Some b'
    /\ state b' = state b
    /\ heap b'
       = <[r := dragAlong measureText (getPointerWorldPos e0 (view b))
                  (map (fun e => getPointerWorldPos e (view b)) moves) s]> (heap b)
    /\ selectedIndices b' = [i]
    /\ action b' = act_none /\ startPoint b' = None /\ view b' = view b.
Proof.
  cbn [run handle].
  rewrite SelectFacts.handlePointerDown_select by done. cbv zeta. rewrite Hhit.
  cbn [mbind option_bind].
  set (pos0 := getPointerWorldPos e0 (view b)).
  set (b1 := setAction dragging (setSelectedIndices [i] b)).
  change (setAction dragging (setSelectedIndices [i] (setStartPoint (Some pos0) b)))
    with (setStartPoint (Some pos0) (set_heap (heap b) b1)).
  erewrite (run_app measureText); [|by apply (DragFacts.moves_drag measureText b1 i r moves)].
  cbn [run handle mbind option_bind]. unfold handlePointerUp.
  cbn [action setStartPoint set_heap b1 setAction Action_eqb].
  eexists. split; [reflexivity|]. by destruct b as [? [] ? ? ? ? ? ? ? ? ? ? ?].
Qed.

End DragGesture.

Lemma drag_moves_the_object_and_records_no_snapshot_witness :
  exists b',
    Board.run Examples.measure
      [Board.PointerDown 2 (Examples.pointer 5 5); Board.PointerMove (Examples.pointer 7 8);
       Board.PointerUp] Examples.board_with_rect = Some b'
    /\ Board.state b' = Board.state Examples.board_with_rect.
Proof.
  destruct (drag_moves_the_object_and_records_no_snapshot Examples.measure
              Examples.board_with_rect 2 (Examples.pointer 5 5) [Examples.pointer 7 8]
              0%nat 0%nat
              (default (Board.TextShape (Board.newBase 0 "" 0%Q 0%Q) 0%Q 0%Q [])
                 (Board.heap Examples.board_with_rect !! 0%nat)))
    as (b' & Hrun & Hstate & _).
  - reflexivity.
  - reflexivity.
  - vm_compute. congruence.
  - vm_compute. reflexivity.
  - vm_compute. reflexivity.
  - vm_compute. reflexivity.
  - exists b'. split; [exact Hrun|exact Hstate].
Defined.

Module FilterFacts.

Lemma includes_elem_of (l : list nat) (i : nat) : Js.includes l i = true <-> i ∈ l.
Proof.
  unfold Js.includes. rewrite existsb_exists. split.
  - intros (x & Hx & Heq). apply Nat.eqb_eq in Heq. subst. by apply list_elem_of_In.
  - intros Hi. exists i. split; [by apply list_elem_of_In|apply Nat.eqb_refl].
Qed.

Lemma elem_of_filter_from {A : Type} (f : A -> nat -> bool) (k : nat) (l : list A) (x : A) :
  x ∈ Js.filter_from f k l <-> exists j, l !! j = Some x /\ f x (k + j)%nat = true.
Proof.
  revert k. induction l as [|y l IH]; intros k; simpl.
  - split; [by intros ?%elem_of_nil|]. by intros (j & ? & _).
  - assert (x ∈ Js.filter_from f (S k) l
            <-> exists j, l !! j = Some x /\ f x (k + S j)%nat = true) as IH'.
    { rewrite IH. by setoid_rewrite Nat.add_succ_r. }
    destruct (f y k) eqn:Hy.
    + rewrite elem_of_cons, IH'. split.
      * intros [->|(j & Hj & Hf)].
        -- exists 0%nat. by rewrite Nat.add_0_r.
        -- by exists (S j).
      * intros ([|j] & Hj & Hf); simpl in Hj.
        -- left. congruence.
        -- right. eauto.
    + rewrite IH'. split.
      * intros (j & Hj & Hf). by exists (S j).
      * intros ([|j] & Hj & Hf); simpl in Hj.
        -- simplify_eq. rewrite Nat.add_0_r in Hf. congruence.
        -- eauto.
Qed.

Lemma sublist_filter_from {A : Type} (f : A -> nat -> bool) (k : nat) (l : list A) :
  sublist (Js.filter_from f k l) l.
Proof.
  revert k. induction l as [|y l IH]; intros k; simpl; [constructor|].
  destruct (f y k); [by apply sublist_skip|by apply sublist_cons].
Qed.

End FilterFacts.

Section DeleteKey.

Import Types Board.

Variable measureText : Q -> Js.jsstring -> TextMetrics.

(** X7. Delete and Backspace do nothing while the selection is empty or a text
    is being edited.  Otherwise they commit the scene without the shapes
    at the selected indices (the others stay, in their order) and empty
    the selection. *)
Theorem delete_key_removes_exactly_the_selected_shapes
  (b : Whiteboard) (key : Key) (ctrlOrMeta : bool)
  (Hkey : key = KeyDelete \/ key = KeyBackspace)
  (Hin : Js.inside (history (state b)) (historyIndex (state b))) :
  (selectedIndices b = [] \/ editingShapeIndex b <> None ->
     handleKeyDown measureText key ctrlOrMeta b = Some b)
  /\ (selectedIndices b <> [] -> editingShapeIndex b = None ->
      exists b',
        handleKeyDown measureText key ctrlOrMeta b = Some b'
        /\ (forall r, r ∈ shapes (state b')
                      <-> exists k, shapes (state b) !! k = Some r /\ k ∉ selectedIndices b)
        /\ sublist (shapes (state b')) (shapes (state b))
        /\ selectedIndices b' = [] /\ heap b' = heap b
        /\ Js.commits (history (state b)) (historyIndex (state b)) (shapes (state b'))
                      (history (state b')) (historyIndex (state b'))).
Proof.
  split.
  - intros Hguard. unfold handleKeyDown.
    destruct Hkey as [-> | ->];
      destruct (selectedIndices b), (editingShapeIndex b); try done;
      destruct Hguard; done.
  - intros Hsel Hedit.
    set (newShapes := Js.filter_idx (fun _ index => negb (Js.includes (selectedIndices b) index))
                        (shapes (state b))).
    exists (setSelectedIndices [] (set_state (commitScene newShapes (state b)) b)).
    split; [|split; [|split; [|split; [done|split; [done|]]]]].
    + unfold handleKeyDown.
      destruct Hkey as [-> | ->]; destruct (selectedIndices b) eqn:Es; try done;
        rewrite Hedit; reflexivity.
    + intros r. cbn [setSelectedIndices set_state state commitScene shapes].
      unfold newShapes, Js.filter_idx. rewrite FilterFacts.elem_of_filter_from.
      split; intros (k & Hk & Hf); exists k; (split; [done|]); simpl in *.
      * intros Hmem%FilterFacts.includes_elem_of. by rewrite Hmem in Hf.
      * destruct (Js.includes (selectedIndices b) k) eqn:E; [|done].
        by apply FilterFacts.includes_elem_of in E.
    + apply FilterFacts.sublist_filter_from.
    + by apply TextFacts.commitScene_commits.
Qed.

End DeleteKey.

Lemma delete_key_removes_exactly_the_selected_shapes_witness :
  exists b',
    Board.handleKeyDown Examples.measure Board.KeyDelete false Examples.board_rect_selected
    = Some b'
    /\ Board.selectedIndices b' = []
    /\ (0%nat ∉ Board.shapes (Board.state b')).
Proof.
  destruct (delete_key_removes_exactly_the_selected_shapes Examples.measure
              Examples.board_rect_selected Board.KeyDelete false) as [_ Hdel].
  - by left.
  - vm_compute. split; congruence.
  - destruct Hdel as (b' & Hkey & Hmem & _ & Hsel & _).
    + vm_compute. congruence.
    + reflexivity.
    + exists b'. split; [exact Hkey|]. split; [exact Hsel|].
      intros (k & Hk & Hnot)%Hmem. apply Hnot.
      destruct k as [|k]; [vm_compute; left|]. vm_compute in Hk. destruct k; discriminate Hk.
Defined.

Section DoubleClick.

Import Types Board.

(** X8. A double click opens for editing the topmost text shape whose bounding
    box holds the pointer: the tool becomes select, the shape is selected,
    and the text area is rendered with the text of the shape.  When no
    text shape holds the pointer the board is unchanged. *)
Theorem double_click_edits_the_topmost_text_under_the_pointer
  (b : Whiteboard) (e : PointerEvent) :
  let pos := getPointerWorldPos e (view b) in
  let hit := textHitAt (heap b) (shapes (state b)) (pt_x pos) (pt_y pos) in
  (forall i, (i < length (shapes (state b)))%nat -> hit i = true ->
             (forall j, (i < j < length (shapes (state b)))%nat -> hit j = false) ->
     handleDoubleClick e b
     = setSelectedIndices [i] (setEditingShapeIndex (Some i) (setTool select b))
     /\ exists ta r base x y,
          textArea (handleDoubleClick e b) = Some ta
          /\ shapes (state b) !! i = Some r
          /\ heap b !! r = Some (TextShape base x y (ta_value ta)))
  /\ ((forall j, (j < length (shapes (state b)))%nat -> hit j = false) ->
      handleDoubleClick e b = b).
Proof.
  intros pos hit. split.
  - intros i Hi Hhit Htop.
    assert (handleDoubleClick e b
            = setSelectedIndices [i] (setEditingShapeIndex (Some i) (setTool select b))) as Heq.
    { unfold handleDoubleClick. fold pos. fold hit.
      by rewrite (proj2 (SelectFacts.scanDown_Some hit _ i)). }
    split; [exact Heq|]. rewrite Heq.
    unfold hit, textHitAt in Hhit. unfold textArea.
    cbn [editingShapeIndex setSelectedIndices setEditingShapeIndex setTool state heap view
         mbind option_bind].
    destruct (shapes (state b) !! i) as [r|] eqn:Er; [|done]. cbn [mbind option_bind].
    destruct (heap b !! r) as [s|] eqn:Es; [|done]. cbn [mbind option_bind].
    destruct s as [[]| | | |base x y t]; try done.
    eexists _, r, base, x, y. split; [reflexivity|]. done.
  - intros Hnone. unfold handleDoubleClick. fold pos. fold hit.
    by rewrite (proj2 (SelectFacts.scanDown_None hit _)).
Qed.

End DoubleClick.

Lemma double_click_edits_the_topmost_text_under_the_pointer_witness :
  Board.editingShapeIndex Examples.board_reediting = Some 0%nat
  /\ Board.tool Examples.board_reediting = Types.select.
Proof.
  destruct (double_click_edits_the_topmost_text_under_the_pointer Examples.board_with_text
              (Examples.pointer 1 (-1))) as [Hhit _].
  destruct (Hhit 0%nat) as [Heq _].
  - vm_compute. lia.
  - vm_compute. reflexivity.
  - intros j Hj. vm_compute in Hj. lia.
  - unfold Examples.board_reediting. rewrite Heq. split; reflexivity.
Defined.

(** ** Bounding boxes *)

Module BBoxFacts.
Import Types Board.

Lemma leb_le (a b : Q) : Js.leb a b = true <-> (a <= b)%Q.
Proof. apply Qle_bool_iff. Qed.









End BBoxFacts.

Section BoundingBoxes.

Import Types Board.

Variable measureText : Q -> Js.jsstring -> TextMetrics.



End BoundingBoxes.



(** ** The view: pointer positions, wheel, text area, panning *)

Module ViewFacts.
Import Types.


Section Board.
Import Board.


End Board.
End ViewFacts.

Section PointerRoundTrip.

Import Types.


End PointerRoundTrip.


Section Wheel.

Import Types Board.


End Wheel.


Section TextAreaPlace.

Import Types Board.

Variable measureText : Q -> Js.jsstring -> TextMetrics.


End TextAreaPlace.


Module PanFacts.
Import Types Board.
Section WithMeasure.
Variable measureText : Q -> Js.jsstring -> TextMetrics.

Lemma moves_pan (b1 : Whiteboard) (start : Point) (moves : list PointerEvent) :
  startPoint b1 = Some start -> action b1 = panning ->
  forall v,
    run measureText (map PointerMove moves) (setView v b1)
    = Some (setView {| vw_x := fold_left (fun x e => x + movementX e)%Q moves (vw_x v);
                       vw_y := fold_left (fun y e => y + movementY e)%Q moves (vw_y v);
                       zoom := zoom v |} b1).
Proof.
  intros Hstart Hact. induction moves as [|e moves IH]; intros v.
  - simpl. by destruct v.
  - cbn [map run handle]. unfold handlePointerMove.
    cbn [startPoint action setView view]. rewrite Hstart, Hact. cbn [Action_eqb mbind option_bind].
    change (setView ?v' (setView v b1)) with (setView v' b1).
    rewrite IH. reflexivity.
Qed.

End WithMeasure.
End PanFacts.

Section Pan.

Import Types Board.

Variable measureText : Q -> Js.jsstring -> TextMetrics.

(** X14. A pan (pointer-down with the pan tool or with the middle button, any
    number of moves, pointer-up) adds to the offset of the view, move by
    move and in their order, the movement each move reports; the zoom, the
    scene, the objects and the history are as before, and the gesture is
    over.  The offset is given as the sums the code makes, one after the
    other. *)
Theorem pan_gesture_adds_the_pointer_movements_to_the_view_offset
  (b : Whiteboard) (now : N) (e0 : PointerEvent) (moves : list PointerEvent)
  (Hedit : editingShapeIndex b = None)
  (Hpan : tool b = pan \/ button e0 = 1) :
  exists b',
    run measureText (PointerDown now e0 :: map PointerMove moves ++ [PointerUp]) b = Some b'
    /\ state b' = state b /\ heap b' = heap b
    /\ view b'
       = {| vw_x := fold_left (fun x e => x + movementX e)%Q moves (vw_x (view b));
            vw_y := fold_left (fun y e => y + movementY e)%Q moves (vw_y (view b));
            zoom := zoom (view b) |}
    /\ tool b' = tool b /\ selectedIndices b' = selectedIndices b
    /\ action b' = act_none /\ startPoint b' = None /\ isDrawing b' = false.
Proof.
  set (pos := getPointerWorldPos e0 (view b)).
  set (b1 := setAction panning (setStartPoint (Some pos) b)).
  assert (handlePointerDown measureText now e0 b = Some (setView (view b) b1)) as Hdown.
  { unfold handlePointerDown. rewrite Hedit. fold pos. cbn [tool setStartPoint].
    assert (Tool_eqb (tool b) pan || (button e0 =? 1) = true) as ->.
    { destruct Hpan as [-> | ->]; [done|]. by rewrite orb_true_r. }
    by destruct b. }
  cbn [run handle]. rewrite Hdown. cbn [mbind option_bind].
  erewrite run_app; [|by apply (PanFacts.moves_pan measureText b1 pos)].
  cbn [run handle mbind option_bind]. unfold handlePointerUp.
  cbn [action setView b1 setAction Action_eqb].
  eexists. split; [reflexivity|]. repeat split.
Qed.

End Pan.

Lemma pan_gesture_adds_the_pointer_movements_to_the_view_offset_witness :
  exists b',
    Board.run Examples.measure
      [Board.PointerDown 1 (Examples.pointer 0 0);
       Board.PointerMove {| Board.clientX := 3; Board.clientY := 4; Board.button := 0;
                            Board.movementX := 3; Board.movementY := 4;
                            Board.rect_left := 0; Board.rect_top := 0 |};
       Board.PointerUp] (Board.setTool Types.pan Board.initialBoard) = Some b'
    /\ Board.view b' = {| Board.vw_x := 0 + 3; Board.vw_y := 0 + 4; Board.zoom := 1 |}.
Proof.
  destruct (pan_gesture_adds_the_pointer_movements_to_the_view_offset Examples.measure
              (Board.setTool Types.pan Board.initialBoard) 1 (Examples.pointer 0 0)
              [{| Board.clientX := 3; Board.clientY := 4; Board.button := 0;
                  Board.movementX := 3; Board.movementY := 4;
                  Board.rect_left := 0; Board.rect_top := 0 |}])
    as (b' & Hrun & _ & _ & Hview & _).
  - reflexivity.
  - by left.
  - exists b'. split; [exact Hrun|]. rewrite Hview. reflexivity.
Defined.

(** ** Drawing, editing and undo *)

Module DrawFacts.
Import Types Board.
Section WithMeasure.
Variable measureText : Q -> Js.jsstring -> TextMetrics.

Lemma moves_keep_scene (b1 : Whiteboard) (start : Point) (r : ref)
  (moves : list PointerEvent) :
  startPoint b1 = Some start -> action b1 = drawing -> isDrawing b1 = true ->
  Tool_eqb (tool b1) eraser = false ->
  last (shapes (state b1)) = Some r ->
  forall hp s,
    hp !! r = Some s ->
    exists hp' s',
      run measureText (map PointerMove moves) (set_heap hp b1) = Some (set_heap hp' b1)
      /\ hp' !! r = Some s'
      /\ length hp' = length hp
      /\ (forall r', r' <> r -> hp' !! r' = hp !! r').
Proof.
  intros Hstart Hact Hdraw Htool Hlast.
  induction moves as [|e moves IH]; intros hp s Hr.
  - exists hp, s. done.
  - cbn [map run handle].
    rewrite (GestureFacts.handlePointerMove_extends measureText e (set_heap hp b1) start r s)
      by done.
    cbn [mbind option_bind].
    set (pos := getPointerWorldPos e (view (set_heap hp b1))).
    edestruct (IH (<[r := updateBoundingBox measureText (extend pos s)]> hp))
      as (hp' & s' & Hrun & Hr' & Hlen & Hother).
    { apply list_lookup_insert_eq. by eapply lookup_lt_Some. }
    exists hp', s'. split; [exact Hrun|]. split; [exact Hr'|]. split.
    + by rewrite Hlen, length_insert.
    + intros r' Hne. rewrite Hother by done. by rewrite list_lookup_insert_ne.
Qed.

End WithMeasure.
End DrawFacts.

Section FirstUndo.

Import Types Board.

Variable measureText : Q -> Js.jsstring -> TextMetrics.

(** X15. Drawing a shape with the pencil, rectangle, circle or arrow tool
    commits twice, on pointer-down and on pointer-up, and both snapshots
    are the same list of references.  So the first undo after the gesture
    changes neither the scene on display nor any object (only the cursor
    moves back by one); the second undo shows the snapshot the cursor was
    on before the gesture. *)
Theorem first_undo_after_drawing_a_shape_changes_nothing_on_display
  (b : Whiteboard) (now : N) (e0 : PointerEvent) (moves : list PointerEvent) (s : Shape)
  (scene : list ref)
  (Hin : Js.inside (history (state b)) (historyIndex (state b)))
  (Hscene : Js.get (history (state b)) (historyIndex (state b)) = Some scene)
  (Hedit : editingShapeIndex b = None)
  (Hbutton : button e0 <> 1)
  (Hnew : createShape now b (getPointerWorldPos e0 (view b)) = Some s)
  (Htool : tool b <> eraser) :
  exists b3 b4 b5,
    run measureText (PointerDown now e0 :: map PointerMove moves ++ [PointerUp]) b = Some b3
    /\ shapes (state b3) = shapes (state b) ++ [length (heap b)]
    /\ historyIndex (state b3) = historyIndex (state b) + 2
    /\ handle measureText ClickUndo b3 = Some b4
    /\ shapes (state b4) = shapes (state b3) /\ heap b4 = heap b3
    /\ historyIndex (state b4) = historyIndex (state b) + 1
    /\ handle measureText ClickUndo b4 = Some b5
    /\ shapes (state b5) = scene
    /\ historyIndex (state b5) = historyIndex (state b).
Proof.
  set (r := length (heap b)).
  set (cs := shapes (state b) ++ [r]).
  set (s0 := updateBoundingBox measureText s).
  pose proof (GestureFacts.handlePointerDown_draws measureText now e0 b s Hedit Hbutton Hnew)
    as Hdown.
  set (b1 := {| heap := heap b ++ [s0]; state := commitScene cs (state b);
                tool := tool b; ui_color := ui_color b; ui_stroke := ui_stroke b;
                eraserStroke := eraserStroke b; ui_fontSize := ui_fontSize b;
                isDrawing := true; startPoint := Some (getPointerWorldPos e0 (view b));
                selectedIndices := selectedIndices b; action := drawing;
                editingShapeIndex := editingShapeIndex b; view := view b |}) in *.
  assert (Tool_eqb (tool b1) eraser = false) as Htool1.
  { cbn [tool b1]. by destruct (tool b). }
  assert (last (shapes (state b1)) = Some r) as Hlast by apply last_snoc.
  destruct (DrawFacts.moves_keep_scene measureText b1 (getPointerWorldPos e0 (view b)) r moves
              eq_refl eq_refl eq_refl Htool1 Hlast (heap b ++ [s0]) s0)
    as (hp' & s' & Hmoves & Hr' & Hlen & _).
  { by apply list_lookup_middle. }
  change (set_heap (heap b ++ [s0]) b1) with b1 in Hmoves.
  pose proof (commitScenes := TextFacts.commitScene_commits).
  pose proof (commitScenes cs (state b) Hin) as Hc1.
  destruct Hc1 as (Hh1 & Hi1 & Hin1 & Hget1).
  pose proof (JsFacts.commits_cursor _ _ _ _ _ Hin (commitScenes cs (state b) Hin)) as Hcur1.
  pose proof (commitScenes cs (commitScene cs (state b)) Hin1) as Hc2.
  pose proof (JsFacts.commits_cursor _ _ _ _ _ Hin1 Hc2) as Hcur2.
  pose proof (RoundTrip.undo_after_commit cs cs (commitScene cs (state b)) Hin1 Hget1) as Hundo1.
  cbn [run handle]. rewrite Hdown. cbn [mbind option_bind].
  erewrite run_app; [|exact Hmoves]. cbn [run handle mbind option_bind].
  rewrite (GestureFacts.handlePointerUp_commits measureText (set_heap hp' b1) r s')
    by done.
  change (shapes (state (set_heap hp' b1))) with cs.
  change (state (set_heap hp' b1)) with (commitScene cs (state b)).
  cbn [mbind option_bind]. unfold dispatch.
  do 3 eexists. split; [reflexivity|].
  change (state (endGesture ?x)) with (state x).
  cbn [state set_state]. rewrite Hundo1. cbn [mbind option_bind].
  split; [reflexivity|].
  split; [change (historyIndex (commitScene cs (commitScene cs (state b)))
                  = historyIndex (state b) + 2); lia|].
  split; [reflexivity|]. split; [reflexivity|]. split; [reflexivity|].
  change (state (set_state ?x _)) with x.
  split; [change (historyIndex (commitScene cs (state b)) = historyIndex (state b) + 1); lia|].
  change (reducer ?st UNDO)
    with (if 0 <? historyIndex st
          then match Js.get (history st) (historyIndex st - 1) with
               | Some sc => Some {| shapes := sc; history := history st;
                                    historyIndex := historyIndex st - 1 |}
               | None => None
               end
          else Some st).
  cbn [historyIndex history shapes].
  destruct (Z.ltb_spec 0 (historyIndex (commitScene cs (state b)))) as [_|Hneg];
    [|unfold Js.inside in Hin; lia].
  assert (Js.get (history (commitScene cs (commitScene cs (state b))))
                 (historyIndex (commitScene cs (state b)) - 1) = Some scene) as Hget.
  { rewrite Hcur1. replace (historyIndex (state b) + 1 - 1) with (historyIndex (state b)) by lia.
    rewrite (JsFacts.commits_keeps _ _ _ _ _ (historyIndex (state b)) Hin1 Hc2)
      by (unfold Js.inside in Hin; lia).
    rewrite (JsFacts.commits_keeps _ _ _ _ _ (historyIndex (state b)) Hin
               (commitScenes cs (state b) Hin)) by (unfold Js.inside in Hin; lia).
    exact Hscene. }
  rewrite Hget. cbn [mbind option_bind]. split; [reflexivity|].
  split; [reflexivity|].
  change (historyIndex (commitScene cs (state b)) - 1 = historyIndex (state b)). lia.
Qed.

End FirstUndo.

Lemma first_undo_after_drawing_a_shape_changes_nothing_on_display_witness :
  exists b3 b4,
    Board.run Examples.measure
      [Board.PointerDown 1 (Examples.pointer 0 0); Board.PointerMove (Examples.pointer 10 10);
       Board.PointerUp] (Board.setTool Types.rect Board.initialBoard) = Some b3
    /\ Board.handle Examples.measure Board.ClickUndo b3 = Some b4
    /\ Board.shapes (Board.state b4) = [0%nat]
    /\ Board.heap b4 = Board.heap b3.
Proof.
  destruct (first_undo_after_drawing_a_shape_changes_nothing_on_display Examples.measure
              (Board.setTool Types.rect Board.initialBoard) 1 (Examples.pointer 0 0)
              [Examples.pointer 10 10]
              (Board.RectShape (Board.newBase 1 "#1e1e1e" 4%Q 24%Q) (0 / 1)%Q (0 / 1)%Q 0%Q 0%Q)
              [])
    as (b3 & b4 & b5 & Hrun & Hs3 & _ & Hundo & Hs4 & Hheap & _).
  - vm_compute. split; congruence.
  - reflexivity.
  - reflexivity.
  - vm_compute. congruence.
  - reflexivity.
  - simpl. congruence.
  - exists b3, b4. split; [exact Hrun|]. split; [exact Hundo|]. split; [|exact Hheap].
    rewrite Hs4, Hs3. reflexivity.
Defined.

Section ReEdit.

Import Types Board.

Variable measureText : Q -> Js.jsstring -> TextMetrics.

(** X16. An existing text is edited: a new content that is not blank is typed,
    the text area is left, and undo is pressed.  The undo brings back the
    snapshot the cursor was on, but the text object, which that snapshot
    shares with the scene, holds the new content: the old content is not
    restored. *)
Theorem undo_after_editing_a_text_keeps_the_new_text
  (b : Whiteboard) (i : nat) (r : ref) (base : BaseShape) (x y : Q) (t v : Js.jsstring)
  (scene : list ref)
  (Hin : Js.inside (history (state b)) (historyIndex (state b)))
  (Hscene : Js.get (history (state b)) (historyIndex (state b)) = Some scene)
  (Hedit : editingShapeIndex b = Some i)
  (Hi : shapes (state b) !! i = Some r)
  (Hr : heap b !! r = Some (TextShape base x y t))
  (Hv : forallb Js.isWhiteSpace v = false) :
  exists b' base',
    run measureText [TextChange v; Blur; ClickUndo] b = Some b'
    /\ heap b' !! r = Some (TextShape base' x y v)
    /\ shapes (state b') = scene
    /\ historyIndex (state b') = historyIndex (state b)
    /\ editingShapeIndex b' = None.
Proof.
  cbn [run handle].
  rewrite (handleTextChange_sets measureText v b i r base x y t) by done.
  cbn [mbind option_bind].
  set (s1 := updateBoundingBox measureText (TextShape base x y v)).
  assert (exists base1, s1 = TextShape base1 x y v) as [base1 Hs1] by (eexists; reflexivity).
  assert (r < length (heap b))%nat as Hlt by (by eapply lookup_lt_Some).
  rewrite (TextFacts.finishEditingText_keeps measureText
             (set_heap (<[r := s1]> (heap b)) b) i r base1 x y v); try done.
  2:{ cbn [heap set_heap]. rewrite list_lookup_insert_eq by done. by rewrite Hs1. }
  cbn [mbind option_bind]. unfold dispatch.
  change (state (setEditingShapeIndex None (set_state ?st _))) with st.
  change (state (set_heap _ (set_heap _ b))) with (state b).
  rewrite (RoundTrip.undo_after_commit _ scene (state b) Hin Hscene).
  cbn [mbind option_bind]. do 2 eexists. split; [reflexivity|].
  cbn [heap set_state setEditingShapeIndex set_heap state shapes historyIndex
       editingShapeIndex].
  split; [|done]. rewrite list_lookup_insert_eq by (by rewrite length_insert).
  reflexivity.
Qed.

End ReEdit.

Lemma undo_after_editing_a_text_keeps_the_new_text_witness :
  exists b' base',
    Board.run Examples.measure
      [Board.TextChange [121; 111]%N; Board.Blur; Board.ClickUndo] Examples.board_reediting
    = Some b'
    /\ Board.heap b' !! 0%nat = Some (Board.TextShape base' (0 / 1)%Q (0 / 1)%Q [121; 111]%N).
Proof.
  destruct (undo_after_editing_a_text_keeps_the_new_text Examples.measure
              Examples.board_reediting 0%nat 0%nat
              (Board.shape_base
                 (default (Board.TextShape (Board.newBase 0 "" 0%Q 0%Q) 0%Q 0%Q [])
                    (Board.heap Examples.board_reediting !! 0%nat)))
              (0 / 1)%Q (0 / 1)%Q [104; 105]%N [121; 111]%N [0%nat])
    as (b' & base' & Hrun & Hr & _).
  - vm_compute. split; congruence.
  - vm_compute. reflexivity.
  - vm_compute. reflexivity.
  - vm_compute. reflexivity.
  - vm_compute. reflexivity.
  - vm_compute. reflexivity.
  - exists b', base'. split; [exact Hrun|exact Hr].
Defined.

(** ** Painting *)

Module PaintFacts.
Import Types Board Canvas2D.

Lemma concat_map_if {A B : Type} (p : A -> bool) (h : A -> list B) (l : list A) :
  concat (map (fun x => if p x then h x else []) l) = concat (map h (List.filter p l)).
Proof.
  induction l as [|x l IH]; [done|]. simpl. destruct (p x); simpl; by rewrite IH.
Qed.

Lemma concat_imap_if {A B : Type} (p : A -> bool) (h : A -> list B) (l : list A)
  (g : nat -> A -> list B) :
  (forall i x, g i x = if p x then h x else []) ->
  concat (imap g l) = concat (map h (List.filter p l)).
Proof.
  revert g. induction l as [|x l IH]; intros g Hg; [done|].
  cbn [imap concat List.filter]. rewrite Hg, (IH (g ∘ S)) by (intros; apply Hg).
  by destruct (p x).
Qed.

Section WithMath.
Variable Math_PI : Q.
Variable Math_atan2 : Q -> Q -> Q.

Lemma paintErasers_filter (objs : list Shape) :
  paintErasers Math_PI Math_atan2 objs
  = concat (map (drawShape Math_PI Math_atan2) (List.filter is_eraser objs)).
Proof. apply (concat_map_if is_eraser). Qed.

Lemma paintShapes_filter (objs : list Shape) :
  paintShapes Math_PI Math_atan2 None objs
  = concat (map (drawShape Math_PI Math_atan2)
              (List.filter (fun s => negb (is_eraser s)) objs)).
Proof.
  unfold paintShapes. apply (concat_imap_if (fun s => negb (is_eraser s))).
  intros i s. by rewrite andb_true_r.
Qed.

Lemma paintSelection_nil (v : ViewState) (objs : list Shape) :
  paintSelection [] v objs = [].
Proof.
  unfold paintSelection.
  rewrite (concat_imap_if (fun _ => false) (fun _ => [])) by done.
  induction objs; simpl; done.
Qed.

End WithMath.
End PaintFacts.

Section EraserOrder.

Import Types Board Canvas2D.

Variable Math_PI : Q.
Variable Math_atan2 : Q -> Q -> Q.

(** X17. The paint effect paints all shapes that are not eraser strokes first and
    all eraser strokes after them.  So, with no text being edited and no
    selection box to paint, two scenes with the same shapes in the same
    order and the same eraser strokes in the same order are painted by the
    same commands, however shapes and strokes are interleaved: an eraser
    stroke cuts the shapes drawn after it as it cuts those drawn before. *)
Theorem eraser_strokes_cut_whatever_their_place_in_the_scene
  (width height : Q) (b1 b2 : Whiteboard) (objs1 objs2 : list Shape)
  (Hobjs1 : mapM (fun r => heap b1 !! r) (shapes (state b1)) = Some objs1)
  (Hobjs2 : mapM (fun r => heap b2 !! r) (shapes (state b2)) = Some objs2)
  (Hshapes : List.filter (fun s => negb (is_eraser s)) objs1
             = List.filter (fun s => negb (is_eraser s)) objs2)
  (Herasers : List.filter is_eraser objs1 = List.filter is_eraser objs2)
  (Hview : view b1 = view b2)
  (Hedit1 : editingShapeIndex b1 = None) (Hedit2 : editingShapeIndex b2 = None)
  (Hsel1 : tool b1 <> select \/ selectedIndices b1 = [])
  (Hsel2 : tool b2 <> select \/ selectedIndices b2 = []) :
  paint Math_PI Math_atan2 width height b1 = paint Math_PI Math_atan2 width height b2.
Proof.
  unfold paint. rewrite Hobjs1, Hobjs2. cbn [mbind option_bind].
  rewrite Hedit1, Hedit2, Hview, !PaintFacts.paintShapes_filter, !PaintFacts.paintErasers_filter,
    Hshapes, Herasers.
  assert (forall b objs, tool b <> select \/ selectedIndices b = [] ->
            (if Tool_eqb (tool b) select
             then paintSelection (selectedIndices b) (view b2) objs else []) = []) as Hsel.
  { intros b objs [Ht| ->].
    - by destruct (tool b).
    - rewrite PaintFacts.paintSelection_nil. by destruct (Tool_eqb _ _). }
  by rewrite !Hsel.
Qed.

End EraserOrder.

Lemma eraser_strokes_cut_whatever_their_place_in_the_scene_witness :
  Board.paint Examples.three Examples.zero2 800 600 (Examples.board_of_scene [0; 1]%nat)
  = Board.paint Examples.three Examples.zero2 800 600 (Examples.board_of_scene [1; 0]%nat).
Proof.
  apply (eraser_strokes_cut_whatever_their_place_in_the_scene Examples.three Examples.zero2
           800 600 (Examples.board_of_scene [0; 1]%nat) (Examples.board_of_scene [1; 0]%nat)
           Examples.two_objects (rev Examples.two_objects)).
  - reflexivity.
  - reflexivity.
  - reflexivity.
  - reflexivity.
  - reflexivity.
  - reflexivity.
  - reflexivity.
  - by right.
  - by right.
Defined.

(** ** The room board *)

Module RoomReach.
Import Types Room.


Lemma dispatch_kept a c c' :
  (forall ids, a <> SELECT_ELEMENTS ids) -> (forall p, a <> SET_PAN p) ->
  dispatch a c = Some c' -> kept c -> kept c'.
Proof.
  intros Hsel Hpan H [Hin Hp Hs Hz Hpts].
  pose proof (RoomInvariant.room_dispatch_inside _ _ _ H Hin).
  pose proof (ZoomFacts.room_dispatch_zoom _ _ _ H Hz).
  apply ZoomFacts.room_dispatch_Some in H as (s' & Hred & ->).
  split; try done; cbn [state set_state currentElement].
  - destruct a; simpl in Hred; open_handler Hred; simplify_eq; try done.
    by destruct (Hpan pan0).
  - destruct a; simpl in Hred; open_handler Hred; simplify_eq; try done.
    by destruct (Hsel ids).
Qed.

Ltac by_dispatch :=
  unfold handleUndo, handleRedo, handleClear, handleZoomIn, handleZoomOut,
    onWhiteboardUpdate in *;
  match goal with
  | H : dispatch ?a _ = Some _ |- _ => eapply (dispatch_kept a); [done|done|exact H|done]
  end.

Lemma handle_kept ev c c' : handle ev c = Some c' -> kept c -> kept c'.
Proof.
  intros H Hk. destruct ev; simpl in H.
  - unfold handleMouseDown in H. open_handler H; simplify_eq; try done; try by_dispatch.
    all: destruct Hk; split; try done; cbn [currentElement setCurrentElement];
      intros el [= <-]; done.
  - unfold handleMouseMove in H. open_handler H; simplify_eq; try done.
    all: destruct Hk as [? ? ? ? Hpts]; split; try done;
      cbn [currentElement setCurrentElement]; intros el' [= <-]; cbn [points with_points];
      try done.
    intros [_ ?]%app_eq_nil. done.
  - unfold handleMouseUp in H. open_handler H; simplify_eq.
    + assert (kept c0) as [] by by_dispatch.
      split; done.
    + destruct Hk. split; done.
  - simplify_eq. by destruct Hk.
  - by_dispatch.
  - by_dispatch.
  - by_dispatch.
  - by_dispatch.
  - by_dispatch.
  - unfold handleTextInputChange in H. open_handler H. simplify_eq. by destruct Hk.
  - unfold handleTextInputBlur in H. open_handler H; simplify_eq.
    + assert (kept c0) as [] by by_dispatch.
      split; done.
    + by destruct Hk.
  - by_dispatch.
Qed.

Lemma handleInput_kept i c c' : handleInput i c = Some c' -> kept c -> kept c'.
Proof.
  intros H Hk. destruct i; simpl in H.
  - by eapply handle_kept.
  - by eapply (handle_kept MouseUp).
  - simplify_eq. by destruct Hk.
  - simplify_eq. by destruct Hk.
  - by eapply (handle_kept (TextInputBlur now)).
Qed.

Lemma runInputs_kept ins c c' : runInputs ins c = Some c' -> kept c -> kept c'.
Proof.
  revert c. induction ins as [|i ins IH]; intros c H Hk; simpl in H.
  - by simplify_eq.
  - destruct (handleInput i c) as [c1|] eqn:E; simplify_eq/=.
    eapply IH; [done|]. by eapply handleInput_kept.
Qed.

Lemma initialCanvas_kept : kept initialCanvas.
Proof.
  split; try done.
Qed.

End RoomReach.

Module RoomProgress.
Import Types Room RoomReach.

Lemma room_dispatch_is_Some a c :
  Js.inside (history (state c)) (historyIndex (state c)) -> is_Some (dispatch a c).
Proof.
  intros Hin. destruct (RoomHistory.whiteboardReducer_total (state c) a Hin) as (s' & Hs' & _).
  unfold dispatch. rewrite Hs'. simpl. eauto.
Qed.

Lemma handleTextInputBlur_is_Some now c :
  Js.inside (history (state c)) (historyIndex (state c)) ->
  is_Some (textInput c) -> is_Some (handleTextInputBlur now c).
Proof.
  intros Hin [t Ht]. unfold handleTextInputBlur. rewrite Ht. cbn [mbind option_bind].
  destruct (negb _); [|eauto].
  destruct (room_dispatch_is_Some (ADD_ELEMENT (textElement now c t)) c Hin) as [c' ->].
  simpl. eauto.
Qed.

Lemma handleMouseUp_is_Some c :
  Js.inside (history (state c)) (historyIndex (state c)) -> is_Some (handleMouseUp c).
Proof.
  intros Hin. unfold handleMouseUp. destruct (currentElement c) as [el|]; [|eauto].
  destruct (room_dispatch_is_Some (ADD_ELEMENT el) c Hin) as [c' ->]. simpl. eauto.
Qed.

Lemma handleInput_is_Some i c :
  kept c -> (needs_text_input i = true -> is_Some (textInput c)) ->
  is_Some (handleInput i c).
Proof.
  intros [Hin _ _ _ Hpts] Hti. destruct i as [ev| | | |]; simpl.
  - destruct ev; simpl.
    + unfold handleMouseDown. destruct (currentTool c); eauto.
      destruct (findLast _ _); [|eauto]. by apply room_dispatch_is_Some.
    + unfold handleMouseMove. destruct (isDrawing c); [|eauto].
      destruct (currentElement c) as [el|] eqn:Eel; [|eauto].
      destruct (points el) as [|p0 ps] eqn:Ep; [by destruct (Hpts el eq_refl)|].
      destruct (currentTool c); simpl; eauto.
    + by apply handleMouseUp_is_Some.
    + eauto.
    + by apply room_dispatch_is_Some.
    + by apply room_dispatch_is_Some.
    + by apply room_dispatch_is_Some.
    + by apply room_dispatch_is_Some.
    + by apply room_dispatch_is_Some.
    + destruct (Hti eq_refl) as [t Ht]. unfold handleTextInputChange. rewrite Ht. simpl. eauto.
    + apply handleTextInputBlur_is_Some; [done|]. by apply Hti.
    + by apply room_dispatch_is_Some.
  - by apply handleMouseUp_is_Some.
  - eauto.
  - eauto.
  - apply handleTextInputBlur_is_Some; [done|]. by apply Hti.
Qed.

End RoomProgress.

Module RoomGesture.
Import Types Room.

Lemma room_run_app evs1 evs2 c c1 :
  run evs1 c = Some c1 -> run (evs1 ++ evs2) c = run evs2 c1.
Proof.
  revert c. induction evs1 as [|ev evs1 IH]; intros c H; simpl in *.
  - by injection H as ->.
  - destruct (handle ev c) as [c'|]; simpl in *; [by apply IH|done].
Qed.

Lemma moves_extend (c : Canvas) (freehandTool : bool) (moves : list MouseEvent) :
  isDrawing c = true ->
  currentTool c = freehand /\ freehandTool = true
  \/ (currentTool c = rect \/ currentTool c = circle \/ currentTool c = arrow)
     /\ freehandTool = false ->
  forall el, points el <> [] ->
    run (map MouseMove moves) (setCurrentElement (Some el) c)
    = Some (setCurrentElement
              (Some (with_points el (extended freehandTool (points el)
                                       (map (fun e => getMousePos e c) moves)))) c).
Proof.
  intros Hdraw Htool. induction moves as [|e moves IH]; intros el Hel.
  - simpl. unfold extended. simpl. destruct freehandTool; [rewrite app_nil_r|]; by destruct el.
  - cbn [map run handle]. unfold handleMouseMove.
    cbn [isDrawing setCurrentElement currentElement currentTool]. rewrite Hdraw.
    destruct (points el) as [|p0 pts] eqn:Ep; [done|].
    change (getMousePos e (setCurrentElement (Some el) c)) with (getMousePos e c).
    destruct Htool as [[Ht ->]|[Ht ->]].
    + rewrite Ht. cbn [mbind option_bind].
      change (setCurrentElement ?x (setCurrentElement _ c)) with (setCurrentElement x c).
      rewrite IH by (cbn [points with_points]; by intros [_ ?]%app_eq_nil).
      cbn [points with_points extended]. do 3 f_equal.
      unfold with_points. simpl. f_equal. by rewrite <- app_assoc.
    + assert (match currentTool c with
              | freehand => Some (setCurrentElement
                                    (Some (with_points el (points el ++ [getMousePos e c])))
                                    (setCurrentElement (Some el) c))
              | rect | circle | arrow =>
                  p0 ← head (points el);
                  Some (setCurrentElement (Some (with_points el [p0; getMousePos e c]))
                          (setCurrentElement (Some el) c))
              | _ => Some (setCurrentElement (Some el) c)
              end
              = Some (setCurrentElement (Some (with_points el [p0; getMousePos e c])) c)) as Hstep.
      { rewrite Ep. by destruct Ht as [-> | [-> | ->]]. }
      rewrite Ep in Hstep. rewrite Hstep. cbn [mbind option_bind].
      rewrite IH by done. cbn [points with_points extended]. do 3 f_equal.
      unfold with_points. simpl. f_equal.
      destruct moves as [|e' moves']; [done|]. cbn [map]. rewrite last_cons_cons.
      destruct (last _) eqn:El; [done|]. by apply last_None in El.
Qed.

End RoomGesture.

Section RoomSafety.

Import Types Room.

(** X18. Whatever the user and the socket do to the room board from its initial
    state, the pan stays (0, 0), nothing is ever selected and the cursor
    points at a snapshot: [SET_PAN] and [SELECT_ELEMENTS] are never
    dispatched, the select and pan tools draw nothing. *)
Theorem room_board_never_pans_and_never_selects
  (inputs : list Input) (c : Canvas)
  (Hreach : runInputs inputs initialCanvas = Some c) :
  pan (state c) = {| pt_x := 0; pt_y := 0 |}
  /\ selectedElementIds (state c) = []
  /\ 0 <= historyIndex (state c) < Z.of_nat (length (history (state c))).
Proof.
  destruct (RoomReach.runInputs_kept _ _ _ Hreach RoomReach.initialCanvas_kept). done.
Qed.

(** X19. On every room board reached from the initial one, no handler raises,
    whatever the input (the events of the text input are considered only
    while the text input exists). *)
Theorem room_board_never_raises
  (inputs : list Input) (c : Canvas) (i : Input)
  (Hreach : runInputs inputs initialCanvas = Some c)
  (Hinput : needs_text_input i = true -> is_Some (textInput c)) :
  is_Some (handleInput i c).
Proof.
  apply RoomProgress.handleInput_is_Some; [|done].
  exact (RoomReach.runInputs_kept _ _ _ Hreach RoomReach.initialCanvas_kept).
Qed.

End RoomSafety.

Lemma room_board_never_pans_and_never_selects_witness :
  Room.pan (Room.state Examples.canvas_drawing) = {| Types.pt_x := 0; Types.pt_y := 0 |}
  /\ Room.selectedElementIds (Room.state Examples.canvas_drawing) = [].
Proof.
  destruct (room_board_never_pans_and_never_selects
              [Room.OnCanvas (Room.MouseDown 1 (Examples.mouse 0 0));
               Room.OnCanvas (Room.MouseMove (Examples.mouse 3 4))]
              Examples.canvas_drawing) as (Hpan & Hsel & _).
  - vm_compute. reflexivity.
  - split; [exact Hpan|exact Hsel].
Defined.

Lemma room_board_never_raises_witness :
  is_Some (Room.handleInput Room.MouseLeave Examples.canvas_drawing).
Proof.
  apply (room_board_never_raises
           [Room.OnCanvas (Room.MouseDown 1 (Examples.mouse 0 0));
            Room.OnCanvas (Room.MouseMove (Examples.mouse 3 4))]).
  - vm_compute. reflexivity.
  - simpl. congruence.
Defined.

Section RoomDraw.

Import Types Room.

(** X20. A drawing gesture on the room board (mouse-down, any number of moves,
    mouse-up) with the pencil, rectangle, circle or arrow tool commits one
    new element at the end of the scene.  The pencil records the position
    of the mouse-down and of every move, in order; the other three tools
    record the position of the mouse-down and of the last move (of the
    mouse-down alone when there was no move). *)
Theorem room_gesture_commits_the_pointer_positions
  (c : Canvas) (now : N) (e0 : MouseEvent) (moves : list MouseEvent)
  (Hin : Js.inside (history (state c)) (historyIndex (state c)))
  (Htool : currentTool c = freehand \/ currentTool c = rect
           \/ currentTool c = circle \/ currentTool c = arrow) :
  let p0 := getMousePos e0 c in
  let ps := map (fun e => getMousePos e c) moves in
  exists c' el,
    run (MouseDown now e0 :: map MouseMove moves ++ [MouseUp]) c = Some c'
    /\ elements (state c') = elements (state c) ++ [el]
    /\ points el = (if Tool_eqb (currentTool c) freehand then p0 :: ps
                    else match last ps with Some p => [p0; p] | None => [p0] end)
    /\ id el = pretty now /\ type el = currentTool c
    /\ color el = currentColor c /\ strokeWidth el = currentStroke c
    /\ Js.commits (history (state c)) (historyIndex (state c)) (elements (state c'))
                  (history (state c')) (historyIndex (state c'))
    /\ isDrawing c' = false /\ currentElement c' = None /\ startPoint c' = None.
Proof.
  intros p0 ps.
  set (c1 := setStartPoint (Some p0) (setIsDrawing true c)).
  assert (handleMouseDown now e0 c = Some (setCurrentElement (Some (newElement now c p0)) c1))
    as Hdown.
  { unfold handleMouseDown. fold p0. by destruct Htool as [-> | [-> | [-> | ->]]]. }
  set (fh := Tool_eqb (currentTool c) freehand).
  pose proof (RoomGesture.moves_extend c1 fh moves eq_refl) as Hmoves.
  cbn [run handle]. rewrite Hdown. cbn [mbind option_bind].
  erewrite RoomGesture.room_run_app; cycle 1.
  { apply Hmoves; [|done].
    subst fh. cbn [currentTool c1 setStartPoint setIsDrawing].
    destruct Htool as [-> | [-> | [-> | ->]]]; [left|right..]; (split; [|done]); auto. }
  cbn [run handle mbind option_bind]. unfold handleMouseUp.
  cbn [currentElement setCurrentElement]. unfold dispatch.
  cbn [whiteboardReducer mbind option_bind].
  do 2 eexists. split; [reflexivity|].
  cbn [state set_state setCurrentElement setStartPoint setIsDrawing c1 elements history
       historyIndex isDrawing currentElement startPoint].
  split; [reflexivity|]. split; [|split; [done|split; [done|split; [done|split; [done|]]]]].
  - cbn [points with_points newElement]. unfold extended.
    change (map (fun e => getMousePos e c1) moves) with ps.
    destruct fh; [done|]. by destruct (last ps).
  - split; [|done]. by apply JsFacts.slice0_commits_succ.
Qed.

End RoomDraw.

Lemma room_gesture_commits_the_pointer_positions_witness :
  exists c' el,
    Room.run [Room.MouseDown 1 (Examples.mouse 0 0); Room.MouseMove (Examples.mouse 3 4);
              Room.MouseUp] Room.initialCanvas = Some c'
    /\ Room.elements (Room.state c') = [el]
    /\ length (Room.points el) = 2%nat.
Proof.
  destruct (room_gesture_commits_the_pointer_positions Room.initialCanvas 1
              (Examples.mouse 0 0) [Examples.mouse 3 4])
    as (c' & el & Hrun & Hel & Hpts & _).
  - vm_compute. split; congruence.
  - by left.
  - exists c', el. split; [exact Hrun|]. split; [exact Hel|]. rewrite Hpts. reflexivity.
Defined.

Section RoomClick.

Import Types Room Canvas2D.

Variable Math_PI : Q.
Variable Math_atan2 : Q -> Q -> Q.
Variable Math_sqrt Math_cos Math_sin : Q -> Q.

(** X21. A click without a move with the pencil, rectangle, circle or arrow tool
    commits an element with a single point, and [drawElement] paints
    nothing for it (it only sets the stroke style): the scene looks as
    before, with one more step in the history. *)
Theorem room_click_without_a_move_commits_an_element_that_paints_nothing
  (width height : Q) (c : Canvas) (now : N) (e : MouseEvent)
  (Htool : currentTool c = freehand \/ currentTool c = rect
           \/ currentTool c = circle \/ currentTool c = arrow) :
  exists c' el,
    run [MouseDown now e; MouseUp] c = Some c'
    /\ elements (state c') = elements (state c) ++ [el]
    /\ points el = [getMousePos e c]
    /\ historyIndex (state c') = historyIndex (state c) + 1
    /\ drawElement Math_PI Math_atan2 Math_sqrt Math_cos Math_sin el
       = [SetStrokeStyle (currentColor c); SetLineWidth (currentStroke c);
          SetLineCap "round"; SetLineJoin "round"]
    /\ (currentElement c = None ->
        List.filter inks (paint Math_PI Math_atan2 Math_sqrt Math_cos Math_sin width height c')
        = List.filter inks (paint Math_PI Math_atan2 Math_sqrt Math_cos Math_sin width height c)).
Proof.
  assert (handleMouseDown now e c
          = Some (setCurrentElement (Some (newElement now c (getMousePos e c)))
                    (setStartPoint (Some (getMousePos e c)) (setIsDrawing true c)))) as Hdown.
  { unfold handleMouseDown. by destruct Htool as [-> | [-> | [-> | ->]]]. }
  cbn [run handle]. rewrite Hdown. cbn [mbind option_bind]. unfold handleMouseUp.
  cbn [currentElement setCurrentElement]. unfold dispatch.
  cbn [whiteboardReducer mbind option_bind].
  do 2 eexists. split; [reflexivity|].
  cbn [state set_state setCurrentElement setStartPoint setIsDrawing elements historyIndex].
  split; [reflexivity|]. split; [reflexivity|]. split; [reflexivity|].
  assert (drawElement Math_PI Math_atan2 Math_sqrt Math_cos Math_sin
            (newElement now c (getMousePos e c))
          = [SetStrokeStyle (currentColor c); SetLineWidth (currentStroke c);
             SetLineCap "round"; SetLineJoin "round"]) as Hdraw.
  { unfold drawElement, newElement. cbn [type points color strokeWidth].
    by destruct Htool as [-> | [-> | [-> | ->]]]. }
  split; [exact Hdraw|].
  intros Hcur. unfold paint.
  cbn [state set_state setCurrentElement setStartPoint setIsDrawing elements currentElement
       textInput zoom pan currentFontSize currentColor].
  rewrite Hcur, map_app, concat_app. cbn [map concat]. rewrite Hdraw.
  rewrite !List.filter_app. cbn [List.filter inks app]. by rewrite !app_nil_r.
Qed.

End RoomClick.

Lemma room_click_without_a_move_commits_an_element_that_paints_nothing_witness :
  exists c' el,
    Room.run [Room.MouseDown 1 (Examples.mouse 5 5); Room.MouseUp] Room.initialCanvas = Some c'
    /\ Room.elements (Room.state c') = [el]
    /\ existsb Canvas2D.inks
         (Room.drawElement Examples.three Examples.zero2 Examples.zero1 Examples.zero1
            Examples.zero1 el) = false.
Proof.
  destruct (room_click_without_a_move_commits_an_element_that_paints_nothing
              Examples.three Examples.zero2 Examples.zero1 Examples.zero1 Examples.zero1
              800 600 Room.initialCanvas 1 (Examples.mouse 5 5))
    as (c' & el & Hrun & Hel & _ & _ & Hdraw & _).
  - by left.
  - exists c', el. split; [exact Hrun|]. split; [exact Hel|]. rewrite Hdraw. reflexivity.
Defined.

Module RoomEraserFacts.
Import Types Room.

Lemma findLast_snoc {A : Type} (f : A -> bool) (l : list A) (y : A) :
  findLast f (l ++ [y]) = if f y then Some y else findLast f l.
Proof. unfold findLast. by rewrite rev_app_distr. Qed.

Lemma findLast_topmost {A : Type} (f : A -> bool) (l : list A) (k : nat) (x : A) :
  l !! k = Some x -> f x = true ->
  (forall j y, (k < j)%nat -> l !! j = Some y -> f y = false) ->
  findLast f l = Some x.
Proof.
  revert k x. induction l as [|y l IH] using rev_ind; intros k x Hk Hx Htop; [done|].
  rewrite findLast_snoc.
  destruct (decide (k = length l)) as [->|Hne].
  - rewrite list_lookup_middle in Hk by done. simplify_eq. by rewrite Hx.
  - assert (k < length l)%nat as Hlt.
    { apply lookup_lt_Some in Hk. rewrite length_app in Hk. simpl in Hk. lia. }
    rewrite (Htop (length l) y Hlt) by (by apply list_lookup_middle).
    rewrite lookup_app_l in Hk by done.
    apply (IH k x Hk Hx). intros j z Hj Hz. apply (Htop j z Hj).
    rewrite lookup_app_l; [done|]. by eapply lookup_lt_Some.
Qed.

Lemma findLast_none {A : Type} (f : A -> bool) (l : list A) :
  (forall x, x ∈ l -> f x = false) -> findLast f l = None.
Proof.
  induction l as [|y l IH] using rev_ind; intros Hall; [done|].
  rewrite findLast_snoc, (Hall y) by (apply elem_of_app; right; apply list_elem_of_singleton; done).
  apply IH. intros x Hx. apply Hall. apply elem_of_app. by left.
Qed.

Lemma includes_singleton (i j : string) : includes [i] j = negb (bool_decide (j <> i)).
Proof.
  unfold includes. simpl. rewrite orb_false_r.
  destruct (String.eqb_spec j i) as [->|Hne].
  - by rewrite bool_decide_eq_false_2 by (intros ?; done).
  - by rewrite bool_decide_eq_true_2.
Qed.

Lemma filter_except_id (i : string) (l : list WhiteboardElement) :
  List.filter (fun el => negb (includes [i] (id el))) l
  = List.filter (fun el => bool_decide (id el <> i)) l.
Proof.
  induction l as [|y l IH]; [done|]. cbn [List.filter].
  rewrite includes_singleton, negb_involutive, IH. done.
Qed.

Lemma filter_unique_id (l : list WhiteboardElement) (k : nat) (x : WhiteboardElement) :
  NoDup (map id l) -> l !! k = Some x ->
  List.filter (fun el => bool_decide (id el <> id x)) l = delete k l.
Proof.
  revert k. induction l as [|y l IH]; intros k Hnd Hk; [done|].
  simpl in Hnd. apply NoDup_cons in Hnd as [Hy Hnd].
  destruct k as [|k]; simpl in *.
  - simplify_eq. rewrite bool_decide_eq_false_2 by (intros ?; done).
    clear IH. induction l as [|z l IH]; [done|]. simpl in *.
    apply not_elem_of_cons in Hy as [Hne Hy]. apply NoDup_cons in Hnd as [_ Hnd].
    rewrite bool_decide_eq_true_2 by done. f_equal. by apply IH.
  - rewrite bool_decide_eq_true_2.
    + f_equal. by apply IH.
    + intros Heq. apply Hy. rewrite Heq. apply list_elem_of_fmap_2.
      by eapply list_elem_of_lookup_2.
Qed.

End RoomEraserFacts.

Section RoomEraserClick.

Import Types Room.

(** X22. A mouse-down with the eraser of the room board finds the last element
    of the scene that the pointer hits and commits the scene without the
    elements that carry its id (exactly that element when ids are
    distinct), emptying the selection; when the pointer hits no element
    the board is unchanged. *)
Theorem room_eraser_click_removes_the_topmost_hit
  (c : Canvas) (now : N) (e : MouseEvent)
  (Htool : currentTool c = eraser)
  (Hin : Js.inside (history (state c)) (historyIndex (state c))) :
  let point := getMousePos e c in
  (forall k hit,
      elements (state c) !! k = Some hit -> eraserHits point hit = true ->
      (forall j el, (k < j)%nat -> elements (state c) !! j = Some el ->
                    eraserHits point el = false) ->
      exists c',
        handleMouseDown now e c = Some c'
        /\ elements (state c')
           = List.filter (fun el => bool_decide (id el <> id hit)) (elements (state c))
        /\ (hit ∉ elements (state c'))
        /\ (NoDup (map id (elements (state c))) ->
            elements (state c') = delete k (elements (state c)))
        /\ selectedElementIds (state c') = []
        /\ Js.commits (history (state c)) (historyIndex (state c)) (elements (state c'))
                      (history (state c')) (historyIndex (state c')))
  /\ ((forall el, el ∈ elements (state c) -> eraserHits point el = false) ->
      handleMouseDown now e c = Some c).
Proof.
  intros point. split.
  - intros k hit Hk Hhit Htop.
    unfold handleMouseDown. rewrite Htool. fold point.
    rewrite (RoomEraserFacts.findLast_topmost _ _ k hit Hk Hhit Htop).
    unfold dispatch. cbn [whiteboardReducer mbind option_bind].
    eexists. split; [reflexivity|]. cbn [state set_state elements selectedElementIds
                                         history historyIndex].
    rewrite RoomEraserFacts.filter_except_id.
    split; [done|]. split; [|split; [|split; [done|]]].
    + rewrite list_elem_of_In, filter_In. intros [_ Hb].
      apply bool_decide_eq_true_1 in Hb. done.
    + intros Hnd. by apply RoomEraserFacts.filter_unique_id.
    + by apply JsFacts.slice0_commits_succ.
  - intros Hnone. unfold handleMouseDown. rewrite Htool. fold point.
    by rewrite RoomEraserFacts.findLast_none.
Qed.

End RoomEraserClick.

Lemma room_eraser_click_removes_the_topmost_hit_witness :
  exists c',
    Room.handleMouseDown 2 (Examples.mouse 1 1) Examples.canvas_erasing = Some c'
    /\ Room.elements (Room.state c') = [].
Proof.
  destruct (room_eraser_click_removes_the_topmost_hit Examples.canvas_erasing 2
              (Examples.mouse 1 1)) as [Hhit _].
  - reflexivity.
  - vm_compute. split; congruence.
  - destruct (Hhit 0%nat Examples.dot) as (c' & Hdown & Hel & _).
    + reflexivity.
    + vm_compute. reflexivity.
    + intros j el Hj Hlook. destruct j as [|j]; [lia|]. vm_compute in Hlook. discriminate Hlook.
    + exists c'. split; [exact Hdown|]. rewrite Hel. vm_compute. reflexivity.
Defined.

Section RoomEmit.

Import Types Room.

(** X23. What the room board sends to the socket after a change is the scene
    before the change: [emitWhiteboardUpdate] reads the [state] of the
    render that made the handler.  After a drawing or a text the message
    lacks the new element, after Clear it still holds the whole scene,
    after Undo it holds the scene that was undone; a peer that loads the
    message displays exactly what it carries. *)
Theorem room_update_sent_after_a_change_is_the_scene_before_it
  (c : Canvas) :
  (forall el, currentElement c = Some el ->
     exists c',
       handleInput (OnCanvas MouseUp) c = Some c'
       /\ emitted (OnCanvas MouseUp) c = Some (elements (state c))
       /\ elements (state c') = elements (state c) ++ [el])
  /\ (forall now t, textInput c = Some t -> forallb Js.isWhiteSpace (ti_value t) = false ->
        exists c',
          handleInput (OnCanvas (TextInputBlur now)) c = Some c'
          /\ emitted (OnCanvas (TextInputBlur now)) c = Some (elements (state c))
          /\ elements (state c') = elements (state c) ++ [textElement now c t])
  /\ (exists c',
        handleInput (OnCanvas ClickClear) c = Some c'
        /\ emitted (OnCanvas ClickClear) c = Some (elements (state c))
        /\ elements (state c') = [])
  /\ (forall scene, 0 < historyIndex (state c) ->
        Js.get (history (state c)) (historyIndex (state c) - 1) = Some scene ->
        exists c',
          handleInput (OnCanvas ClickUndo) c = Some c'
          /\ emitted (OnCanvas ClickUndo) c = Some (elements (state c))
          /\ elements (state c') = scene)
  /\ (forall data peer,
        exists peer',
          handleInput (OnCanvas (WhiteboardUpdate data)) peer = Some peer'
          /\ elements (state peer') = data).
Proof.
  split; [|split; [|split; [|split]]].
  - intros el Hel. cbn [handleInput handle emitted]. unfold handleMouseUp. rewrite Hel.
    unfold dispatch. cbn [whiteboardReducer mbind option_bind].
    eexists. split; [reflexivity|]. split; reflexivity.
  - intros now t Ht Hws. apply TextFacts.not_blank_not_empty in Hws.
    cbn [handleInput handle emitted]. unfold handleTextInputBlur. rewrite Ht.
    cbn [mbind option_bind]. rewrite Hws. cbn [negb].
    unfold dispatch. cbn [whiteboardReducer mbind option_bind].
    eexists. split; [reflexivity|]. split; reflexivity.
  - cbn [handleInput handle emitted]. unfold handleClear, dispatch.
    cbn [whiteboardReducer mbind option_bind].
    eexists. split; [reflexivity|]. split; reflexivity.
  - intros scene Hpos Hscene. cbn [handleInput handle emitted]. unfold handleUndo, dispatch.
    cbn [whiteboardReducer]. destruct (Z.ltb_spec 0 (historyIndex (state c))) as [_|]; [|lia].
    rewrite Hscene. cbn [mbind option_bind].
    eexists. split; [reflexivity|]. split; reflexivity.
  - intros data peer. cbn [handleInput handle]. unfold onWhiteboardUpdate, dispatch.
    cbn [whiteboardReducer mbind option_bind].
    eexists. split; reflexivity.
Qed.

End RoomEmit.

Lemma room_update_sent_after_a_change_is_the_scene_before_it_witness :
  exists c',
    Room.handleInput (Room.OnCanvas Room.MouseUp) Examples.canvas_drawing = Some c'
    /\ Room.emitted (Room.OnCanvas Room.MouseUp) Examples.canvas_drawing = Some []
    /\ length (Room.elements (Room.state c')) = 1%nat.
Proof.
  destruct (room_update_sent_after_a_change_is_the_scene_before_it Examples.canvas_drawing)
    as [Hup _].
  destruct (Hup (default Examples.dot (Room.currentElement Examples.canvas_drawing)))
    as (c' & Hhandle & Hemit & Hel).
  - vm_compute. reflexivity.
  - exists c'. split; [exact Hhandle|]. split; [exact Hemit|]. rewrite Hel. reflexivity.
Defined.

Section RemoteThenLocal.

Import Types Room.

(** X24. An update from the socket replaces the scene on display and leaves the
    snapshots and the cursor alone.  An undo right after it shows the
    snapshot before the cursor, so the received scene is gone from the
    display and is in no snapshot; a local drawing finished right after it
    commits the received scene with the new element at its end. *)
Theorem room_remote_scene_is_in_no_snapshot_until_a_local_commit
  (c : Canvas) (data : list WhiteboardElement)
  (Hin : Js.inside (history (state c)) (historyIndex (state c))) :
  (exists c1,
      handleInput (OnCanvas (WhiteboardUpdate data)) c = Some c1
      /\ elements (state c1) = data
      /\ history (state c1) = history (state c)
      /\ historyIndex (state c1) = historyIndex (state c)
      /\ (forall scene, 0 < historyIndex (state c) ->
            Js.get (history (state c)) (historyIndex (state c) - 1) = Some scene ->
            exists c2, handleInput (OnCanvas ClickUndo) c1 = Some c2
                       /\ elements (state c2) = scene
                       /\ history (state c2) = history (state c))
      /\ (forall el, currentElement c = Some el ->
            exists c2, handleInput (OnCanvas MouseUp) c1 = Some c2
                       /\ elements (state c2) = data ++ [el]
                       /\ Js.commits (history (state c)) (historyIndex (state c))
                                     (data ++ [el])
                                     (history (state c2)) (historyIndex (state c2)))).
Proof.
  cbn [handleInput handle]. unfold onWhiteboardUpdate, dispatch.
  cbn [whiteboardReducer mbind option_bind].
  eexists. split; [reflexivity|].
  cbn [state set_state elements history historyIndex currentElement].
  do 3 (split; [reflexivity|]). split.
  - intros scene Hpos Hscene. unfold handleUndo, dispatch.
    cbn [state set_state whiteboardReducer historyIndex history].
    destruct (Z.ltb_spec 0 (historyIndex (state c))) as [_|]; [|lia].
    rewrite Hscene. cbn [mbind option_bind].
    eexists. split; [reflexivity|]. split; reflexivity.
  - intros el Hel. unfold handleMouseUp. cbn [currentElement set_state]. rewrite Hel.
    unfold dispatch. cbn [state set_state whiteboardReducer mbind option_bind].
    eexists. split; [reflexivity|].
    cbn [state set_state setStartPoint setIsDrawing setCurrentElement elements history
         historyIndex].
    split; [reflexivity|]. by apply JsFacts.slice0_commits_succ.
Qed.

End RemoteThenLocal.

Lemma room_remote_scene_is_in_no_snapshot_until_a_local_commit_witness :
  exists c1 c2,
    Room.handleInput (Room.OnCanvas (Room.WhiteboardUpdate [Examples.dot; Examples.dot]))
      Examples.canvas_erasing = Some c1
    /\ Room.handleInput (Room.OnCanvas Room.ClickUndo) c1 = Some c2
    /\ Room.elements (Room.state c2) = [].
Proof.
  destruct (room_remote_scene_is_in_no_snapshot_until_a_local_commit Examples.canvas_erasing
              [Examples.dot; Examples.dot]) as (c1 & Hload & _ & _ & _ & Hundo & _).
  - vm_compute. split; congruence.
  - destruct (Hundo []) as (c2 & Hc2 & Hel & _); [reflexivity|reflexivity|].
    exists c1, c2. split; [exact Hload|]. split; [exact Hc2|exact Hel].
Defined.

Section RoomText.

Import Types Room.


End RoomText.


(** ** The page that opens a room *)

Module MeetFacts.
Import Meet.

Lemma toInt32_random (q : Q) :
  (0 <= q)%Q -> (q < 1)%Q -> 0 <= toInt32 (q * 16) < 16.
Proof.
  intros H0 H1. unfold toInt32.
  assert (0 <= q * 16)%Q as Hpos by lra.
  rewrite (proj2 (Qle_bool_iff 0 (q * 16)) Hpos).
  assert (0 <= Qround.Qfloor (q * 16)) as Hlo.
  { change 0 with (Qround.Qfloor 0). by apply Qround.Qfloor_resp_le. }
  assert (Qround.Qfloor (q * 16) < 16) as Hhi.
  { pose proof (Qround.Qfloor_le (q * 16)) as Hle.
    apply Z.lt_nge. intros Hge.
    assert (inject_Z 16 <= inject_Z (Qround.Qfloor (q * 16)))%Q as Hinj by (by rewrite <- Zle_Qle).
    change (inject_Z 16) with 16%Q in Hinj. lra. }
  rewrite Z.mod_small by lia. lia.
Qed.

Lemma small_cases (P : Z -> Prop) (v : Z) :
  0 <= v < 16 ->
  P 0 -> P 1 -> P 2 -> P 3 -> P 4 -> P 5 -> P 6 -> P 7 ->
  P 8 -> P 9 -> P 10 -> P 11 -> P 12 -> P 13 -> P 14 -> P 15 -> P v.
Proof.
  intros Hv. intros.
  assert (v = 0 \/ v = 1 \/ v = 2 \/ v = 3 \/ v = 4 \/ v = 5 \/ v = 6 \/ v = 7 \/ v = 8
          \/ v = 9 \/ v = 10 \/ v = 11 \/ v = 12 \/ v = 13 \/ v = 14 \/ v = 15) as Hc by lia.
  repeat destruct Hc as [-> | Hc]; try done. by subst.
Qed.

Lemma replacement_x (q : Q) :
  (0 <= q)%Q -> (q < 1)%Q ->
  exists d, replacement 120 q = [d] /\ isHexDigit d = true.
Proof.
  intros H0 H1. unfold replacement. cbn [N.eqb Pos.eqb].
  pose proof (toInt32_random q H0 H1) as Hr. revert Hr.
  generalize (toInt32 (q * 16)). intros r Hr.
  apply (small_cases (fun r => exists d, toString16 r = [d] /\ isHexDigit d = true) r Hr);
    vm_compute; eauto.
Qed.

Lemma replacement_y (q : Q) :
  (0 <= q)%Q -> (q < 1)%Q ->
  exists d, replacement 121 q = [d] /\ isVariantDigit d = true.
Proof.
  intros H0 H1. unfold replacement. cbn [N.eqb Pos.eqb].
  pose proof (toInt32_random q H0 H1) as Hr. revert Hr.
  generalize (toInt32 (q * 16)). intros r Hr.
  apply (small_cases
           (fun r => exists d, toString16 (Z.lor (Z.land r 3) 8) = [d] /\ isVariantDigit d = true)
           r Hr);
    vm_compute; eauto.
Qed.

Lemma replaceXY_digits (random : nat -> Q) (d : nat -> N -> N) (s : Js.jsstring) :
  (forall k c, replacement c (random k) = [d k c]) ->
  forall k,
    replaceXY random k s
    = (fix fill (k : nat) (s : Js.jsstring) : Js.jsstring * nat :=
         match s with
         | [] => ([], k)
         | c :: rest =>
             if ((c =? 120) || (c =? 121))%N then
               let '(out, k') := fill (S k) rest in (d k c :: out, k')
             else
               let '(out, k') := fill k rest in (c :: out, k')
         end) k s.
Proof.
  intros Hd. induction s as [|c rest IH]; intros k; [done|]. cbn [replaceXY].
  destruct ((c =? 120) || (c =? 121))%N eqn:Hc.
  - rewrite IH, Hd. by destruct (_ (S k) rest).
  - by rewrite IH.
Qed.

Lemma template_shape (random : nat -> Q) (k : nat) (d : nat -> N -> N) :
  (forall k c, (c = 120 \/ c = 121)%N -> replacement c (random k) = [d k c]) ->
  (forall k, isHexDigit (d k 120%N) = true) ->
  (forall k, isVariantDigit (d k 121%N) = true) ->
  isUUIDv4 (fst (generateUUID random k)) = true
  /\ snd (generateUUID random k) = (k + 31)%nat.
Proof.
  intros Hd Hx Hy. unfold generateUUID.
  assert (template
          = [120; 120; 120; 120; 120; 120; 120; 120; 45; 120; 120; 120; 120; 45; 52; 120; 120;
             120; 45; 121; 120; 120; 120; 45; 120; 120; 120; 120; 120; 120; 120; 120; 120; 120;
             120; 120]%N) as -> by (vm_compute; reflexivity).
  cbn [replaceXY N.eqb Pos.eqb orb].
  rewrite !Hd by auto. cbn [app fst snd].
  split.
  - unfold isUUIDv4. cbv -[isHexDigit isVariantDigit].
    rewrite !Hx, Hy. reflexivity.
  - lia.
Qed.

(** The digit each call of the callback gives, for values of [Math.random]
    from 0 up to but not including 1. *)
Lemma random_digits (random : nat -> Q) :
  (forall n, (0 <= random n /\ random n < 1)%Q) ->
  let d := fun (k : nat) (c : N) => default 0%N (head (replacement c (random k))) in
  (forall k c, (c = 120 \/ c = 121)%N -> replacement c (random k) = [d k c])
  /\ (forall k, isHexDigit (d k 120%N) = true)
  /\ (forall k, isVariantDigit (d k 121%N) = true).
Proof.
  intros Hrandom d. subst d. split; [|split].
  - intros n c [-> | ->].
    + destruct (replacement_x (random n)) as (d & -> & _); [apply Hrandom..|done].
    + destruct (replacement_y (random n)) as (d & -> & _); [apply Hrandom..|done].
  - intros n. destruct (replacement_x (random n)) as (d & -> & Hd); [apply Hrandom..|done].
  - intros n. destruct (replacement_y (random n)) as (d & -> & Hd); [apply Hrandom..|done].
Qed.

End MeetFacts.

Section UUID.

Import Meet.

(** X26. Whatever [Math.random] returns (numbers from 0 up to but not including
    1), [generateUUID] returns 36 characters: lower-case hexadecimal digits
    in groups of 8, 4, 4, 4 and 12 between hyphens, with 4 as the first
    digit of the third group and 8, 9, a or b as the first digit of the
    fourth.  It calls [Math.random] 31 times. *)
Theorem generateUUID_has_the_shape_of_a_version_4_uuid
  (random : nat -> Q) (k : nat)
  (Hrandom : forall n, (0 <= random n /\ random n < 1)%Q) :
  isUUIDv4 (fst (generateUUID random k)) = true
  /\ snd (generateUUID random k) = (k + 31)%nat.
Proof.
  destruct (MeetFacts.random_digits random Hrandom) as (Hd & Hx & Hy).
  exact (MeetFacts.template_shape random k _ Hd Hx Hy).
Qed.

End UUID.

Lemma generateUUID_has_the_shape_of_a_version_4_uuid_witness :
  Meet.isUUIDv4 (fst (Meet.generateUUID Examples.sixteenths 0)) = true
  /\ fst (Meet.generateUUID Examples.sixteenths 0)
     = Meet.fromAscii "01234567-89ab-4cde-b012-3456789abcde".
Proof.
  split.
  - apply (generateUUID_has_the_shape_of_a_version_4_uuid Examples.sixteenths 0).
    intros n. unfold Examples.sixteenths.
    pose proof (Nat.mod_upper_bound n 16 ltac:(lia)) as Hn.
    split.
    + apply Qle_shift_div_l; [reflexivity|]. rewrite Qmult_0_l.
      change 0%Q with (inject_Z 0). rewrite <- Zle_Qle. lia.
    + apply Qlt_shift_div_r; [reflexivity|]. rewrite Qmult_1_l.
      change 16%Q with (inject_Z 16). rewrite <- Zlt_Qlt. lia.
  - vm_compute. reflexivity.
Defined.

Module TrimFacts.

Lemma trimStart_idempotent (s : Js.jsstring) : Js.trimStart (Js.trimStart s) = Js.trimStart s.
Proof.
  induction s as [|c s IH]; [done|]. simpl.
  destruct (Js.isWhiteSpace c) eqn:Hc; [done|]. simpl. by rewrite Hc.
Qed.

Lemma trimStart_snoc (s : Js.jsstring) (c : N) :
  Js.isWhiteSpace c = false -> Js.trimStart (s ++ [c]) = Js.trimStart s ++ [c].
Proof.
  intros Hc. induction s as [|x s IH]; simpl.
  - by rewrite Hc.
  - by destruct (Js.isWhiteSpace x).
Qed.

(** The shape of a trimmed string that is not empty. *)
Lemma trim_cons (s : Js.jsstring) (c : N) (r : Js.jsstring) :
  Js.trim s = c :: r ->
  exists r0, Js.trimStart s = c :: r0
             /\ Js.isWhiteSpace c = false
             /\ r = rev (Js.trimStart (rev r0)).
Proof.
  unfold Js.trim, Js.trimEnd. intros Htrim.
  destruct (Js.trimStart s) as [|c0 r0] eqn:Ht; [done|].
  pose proof (JsFacts.trimStart_head s c0 r0 Ht) as Hc0.
  simpl in Htrim. rewrite trimStart_snoc, rev_app_distr in Htrim by done.
  simpl in Htrim. simplify_eq. eauto.
Qed.

Lemma trim_last (s : Js.jsstring) (z : N) :
  last (Js.trim s) = Some z -> Js.isWhiteSpace z = false.
Proof.
  unfold Js.trim, Js.trimEnd.
  destruct (Js.trimStart (rev (Js.trimStart s))) as [|c l] eqn:Ht; [done|].
  simpl. rewrite last_snoc. intros [= <-]. by eapply JsFacts.trimStart_head.
Qed.

Lemma trim_idempotent (s : Js.jsstring) : Js.trim (Js.trim s) = Js.trim s.
Proof.
  destruct (Js.trim s) as [|c r] eqn:Htrim; [done|].
  destruct (trim_cons s c r Htrim) as (r0 & _ & Hc & ->).
  unfold Js.trim, Js.trimEnd. simpl. rewrite Hc. simpl.
  rewrite rev_involutive, trimStart_snoc, trimStart_idempotent by done.
  by rewrite rev_app_distr.
Qed.

Lemma trim_not_blank (s : Js.jsstring) :
  forallb Js.isWhiteSpace s = false -> exists c r, Js.trim s = c :: r.
Proof.
  intros Hs. destruct (Js.trim s) as [|c r] eqn:Htrim; [|eauto].
  apply JsFacts.trim_nil in Htrim. congruence.
Qed.

End TrimFacts.

Section Join.

Import Meet.

(** X27. Joining a room from the page [Meet].  With a name that is empty or all
    white space, [handleJoinRoom] only shows the error that asks for a
    name.  With any other name and a room identifier, it shows no toast,
    marks the page as joining and stores the name in [localStorage]
    trimmed: the stored name is not empty, neither starts nor ends with
    white space, and trimming it again changes nothing.  When the timer
    then fires, [MeetInterface] is given the room identifier and the name
    as it was typed, not trimmed. *)
Theorem join_needs_a_name_and_stores_it_trimmed (p : Page) :
  (forallb Js.isWhiteSpace (userName p) = true ->
   handleJoinRoom p = toast toast_error (fromAscii "Please enter your name") p)
  /\ (forallb Js.isWhiteSpace (userName p) = false -> currentRoomId p <> [] ->
      exists c r,
        storedUserName (handleJoinRoom p) = Some (c :: r)
        /\ Js.trim (userName p) = c :: r
        /\ Js.isWhiteSpace c = false
        /\ (forall z, last (c :: r) = Some z -> Js.isWhiteSpace z = false)
        /\ Js.trim (c :: r) = c :: r
        /\ isJoining (handleJoinRoom p) = true
        /\ toasts (handleJoinRoom p) = toasts p
        /\ (timers p = [] ->
            meetInterfaceProps (timerFires (handleJoinRoom p))
            = Some (currentRoomId p, userName p))).
Proof.
  split.
  - intros Hblank. unfold handleJoinRoom.
    by rewrite (proj2 (JsFacts.trim_nil (userName p)) Hblank).
  - intros Hname Hroom.
    destruct (TrimFacts.trim_not_blank _ Hname) as (c & r & Htrim).
    exists c, r. unfold handleJoinRoom. rewrite Htrim. cbn [Js.isEmptyString].
    destruct (currentRoomId p) as [|x room] eqn:Er; [done|]. cbn [Js.isEmptyString].
    cbn [storedUserName isJoining toasts].
    split; [done|]. split; [done|].
    destruct (TrimFacts.trim_cons _ _ _ Htrim) as (r0 & _ & Hc & _).
    split; [exact Hc|]. split.
    { intros z Hz. rewrite <- Htrim in Hz. by eapply TrimFacts.trim_last. }
    split; [rewrite <- Htrim; apply TrimFacts.trim_idempotent|].
    split; [done|]. split; [done|].
    intros Htimers. unfold timerFires, meetInterfaceProps. cbn [timers]. rewrite Htimers.
    cbn [app hasJoined currentRoomId userName]. done.
Qed.

(** X28. After the mount effect of the page [Meet] the room identifier is never
    empty: it is the [roomId] of the route when that is a non-empty
    string, and the address bar is left alone; otherwise it is a fresh
    identifier of the shape of a version 4 UUID and the address bar shows
    [/meet/] followed by it.  So whatever name is typed afterwards,
    [handleJoinRoom] never shows the error about an invalid room. *)
Theorem room_id_is_never_invalid_after_mount
  (roomId stored : option Js.jsstring) (random : nat -> Q) (k : nat)
  (Hrandom : forall n, (0 <= random n /\ random n < 1)%Q) :
  let p := fst (mount roomId random k (initialPage stored)) in
  currentRoomId p <> []
  /\ (forall c r, roomId = Some (c :: r) -> currentRoomId p = c :: r /\ path p = None)
  /\ (roomId = None \/ roomId = Some [] ->
      isUUIDv4 (currentRoomId p) = true
      /\ path p = Some (fromAscii "/meet/" ++ currentRoomId p))
  /\ (forall value,
        (toast_error, fromAscii "Invalid room ID")
        ∉ toasts (handleJoinRoom (setUserName value p))).
Proof.
  intros p.
  destruct (MeetFacts.random_digits random Hrandom) as (Hd & Hx & Hy).
  destruct (MeetFacts.template_shape random k _ Hd Hx Hy) as [Huuid _].
  assert (currentRoomId p <> []
          /\ (roomId = None \/ roomId = Some [] ->
              isUUIDv4 (currentRoomId p) = true
              /\ path p = Some (fromAscii "/meet/" ++ currentRoomId p))) as [Hne Hnew].
  { subst p. unfold mount.
    destruct roomId as [[|c r]|]; destruct (generateUUID random k) as [newRoomId k'] eqn:Eg;
      cbn [fst currentRoomId path] in *.
    - split.
      + intros ->. vm_compute in Huuid. discriminate Huuid.
      + intros _. split; [exact Huuid|reflexivity].
    - split; [done|]. by intros [|].
    - split.
      + intros ->. vm_compute in Huuid. discriminate Huuid.
      + intros _. split; [exact Huuid|reflexivity]. }
  split; [exact Hne|]. split; [|split; [exact Hnew|]].
  - intros c r ->. subst p. unfold mount. by destruct (generateUUID random k).
  - intros value.
    assert (toasts p = []) as Htoasts.
    { subst p. unfold mount.
      destruct roomId as [[|c r]|]; by destruct (generateUUID random k). }
    unfold handleJoinRoom, toast.
    change (currentRoomId (setUserName value p)) with (currentRoomId p).
    change (toasts (setUserName value p)) with (toasts p).
    destruct (Js.isEmptyString (Js.trim (userName (setUserName value p)))).
    + cbn [toasts]. rewrite Htoasts. cbn [app].
      intros Hin%list_elem_of_singleton. discriminate Hin.
    + destruct (currentRoomId p) as [|x room]; [done|]. cbn [Js.isEmptyString toasts].
      rewrite Htoasts. apply not_elem_of_nil.
Qed.

End Join.

Lemma join_needs_a_name_and_stores_it_trimmed_witness :
  Meet.toasts (Meet.handleJoinRoom (Examples.page_in_room "  "))
  = [(Meet.toast_error, Meet.fromAscii "Please enter your name")]
  /\ Meet.storedUserName (Meet.handleJoinRoom (Examples.page_in_room " Ada Byron  "))
     = Some (Meet.fromAscii "Ada Byron")
  /\ Meet.meetInterfaceProps
       (Meet.timerFires (Meet.handleJoinRoom (Examples.page_in_room " Ada Byron  ")))
     = Some (Meet.fromAscii "abc", Meet.fromAscii " Ada Byron  ").
Proof.
  split; [|split].
  - destruct (join_needs_a_name_and_stores_it_trimmed (Examples.page_in_room "  "))
      as [Hblank _].
    rewrite Hblank; reflexivity.
  - destruct (join_needs_a_name_and_stores_it_trimmed (Examples.page_in_room " Ada Byron  "))
      as [_ Hjoin].
    destruct Hjoin as (c & r & Hstored & Htrim & _); [reflexivity|discriminate|].
    rewrite Hstored, <- Htrim. reflexivity.
  - destruct (join_needs_a_name_and_stores_it_trimmed (Examples.page_in_room " Ada Byron  "))
      as [_ Hjoin].
    destruct Hjoin as (c & r & _ & _ & _ & _ & _ & _ & _ & Hprops);
      [reflexivity|discriminate|].
    rewrite Hprops; reflexivity.
Defined.

Lemma room_id_is_never_invalid_after_mount_witness :
  Meet.currentRoomId (fst (Meet.mount None Examples.sixteenths 0 (Meet.initialPage None)))
  = Meet.fromAscii "01234567-89ab-4cde-b012-3456789abcde"
  /\ Meet.path (fst (Meet.mount None Examples.sixteenths 0 (Meet.initialPage None)))
     = Some (Meet.fromAscii "/meet/01234567-89ab-4cde-b012-3456789abcde")
  /\ Meet.isUUIDv4
       (Meet.currentRoomId (fst (Meet.mount None Examples.sixteenths 0 (Meet.initialPage None))))
     = true.
Proof.
  split; [vm_compute; reflexivity|]. split; [vm_compute; reflexivity|].
  assert (forall n, (0 <= Examples.sixteenths n /\ Examples.sixteenths n < 1)%Q) as Hrandom.
  { intros n. unfold Examples.sixteenths.
    pose proof (Nat.mod_upper_bound n 16 ltac:(lia)) as Hn.
    split.
    - apply Qle_shift_div_l; [reflexivity|]. rewrite Qmult_0_l.
      change 0%Q with (inject_Z 0). rewrite <- Zle_Qle. lia.
    - apply Qlt_shift_div_r; [reflexivity|]. rewrite Qmult_1_l.
      change 16%Q with (inject_Z 16). rewrite <- Zlt_Qlt. lia. }
  destruct (room_id_is_never_invalid_after_mount None None Examples.sixteenths 0 Hrandom)
    as (_ & _ & Hnew & _).
  destruct Hnew as [Huuid _]; [by left|]. exact Huuid.
Defined.

(** * Erasing, remote updates, text sessions and changes in progress *)

(** ** The two erasers *)

Module EraserFacts.
Import Types.

Lemma boxesIntersect_overlaps (a b : BBox) :
  Board.boxesIntersect a b = true <-> Board.overlaps a b.
Proof.
  unfold Board.boxesIntersect, Board.overlaps.
  rewrite !andb_true_iff, !GestureFacts.ltb_lt. tauto.
Qed.

Lemma erased_wiped (h : Board.Heap) (box : BBox) (r : Board.ref) :
  Board.erased h box r = true <-> Board.wiped h box r.
Proof.
  unfold Board.erased, Board.wiped. split.
  - destruct (h !! r) as [s|]; [|done]. intros [Hrigid Hbox]%andb_true_iff.
    destruct (Board.shape_bbox s) as [bb|] eqn:Hbb; [|done].
    exists s, bb. by rewrite <- boxesIntersect_overlaps.
  - intros (s & bb & -> & -> & -> & Hov). by apply boxesIntersect_overlaps.
Qed.

Lemma minOf_attained (xs : list Q) (a v : Q) :
  (Js.minOf a xs <= v)%Q <-> exists x, In x (a :: xs) /\ (x <= v)%Q.
Proof.
  unfold Js.minOf. revert a. induction xs as [|y xs IH]; intros a; simpl.
  - split; [intros H; exists a; auto|]. intros (x & [<-|[]] & Hx). done.
  - rewrite IH. split.
    + intros (x & [<-|Hin] & Hx).
      * apply Q.min_le_iff in Hx as [Hx|Hx]; [exists a|exists y]; auto.
      * exists x. auto.
    + intros (x & [<-|[<-|Hin]] & Hx).
      * exists (Qmin a y). split; [by left|]. apply Q.min_le_iff. by left.
      * exists (Qmin a y). split; [by left|]. apply Q.min_le_iff. by right.
      * exists x. split; [by right|done].
Qed.

Lemma maxOf_attained (xs : list Q) (a v : Q) :
  (v <= Js.maxOf a xs)%Q <-> exists x, In x (a :: xs) /\ (v <= x)%Q.
Proof.
  unfold Js.maxOf. revert a. induction xs as [|y xs IH]; intros a; simpl.
  - split; [intros H; exists a; auto|]. intros (x & [<-|[]] & Hx). done.
  - rewrite IH. split.
    + intros (x & [<-|Hin] & Hx).
      * apply Q.max_le_iff in Hx as [Hx|Hx]; [exists a|exists y]; auto.
      * exists x. auto.
    + intros (x & [<-|[<-|Hin]] & Hx).
      * exists (Qmax a y). split; [by left|]. apply Q.max_le_iff. by left.
      * exists (Qmax a y). split; [by left|]. apply Q.max_le_iff. by right.
      * exists x. split; [by right|done].
Qed.

Lemma some_coordinate (f : Point -> Q) (P : Q -> Prop) (ps : list Point) :
  (exists x, In x (map f ps) /\ P x) <-> exists p, p ∈ ps /\ P (f p).
Proof.
  split.
  - intros (x & Hin & Hx). apply in_map_iff in Hin as (p & <- & Hp).
    exists p. by rewrite list_elem_of_In.
  - intros (p & Hp & Hx). exists (f p). split; [|done].
    apply in_map. by rewrite <- list_elem_of_In.
Qed.

(** The test of the room board's eraser, read as a statement about the
    points of the element. *)
Lemma eraserHits_under_pointer (point : Point) (el : Room.WhiteboardElement) :
  Room.eraserHits point el = true <-> Room.under_pointer point el.
Proof.
  unfold Room.eraserHits, Room.under_pointer.
  assert (existsb
            (fun p => Js.ltb ((pt_x p - pt_x point) * (pt_x p - pt_x point)
                              + (pt_y p - pt_y point) * (pt_y p - pt_y point)) 100)
            (Room.points el) = true
          <-> exists p, p ∈ Room.points el /\ Room.near point p) as Hfree.
  { rewrite existsb_exists. unfold Room.near.
    split; intros (p & Hp & Hnear); exists p.
    - apply list_elem_of_In in Hp. by apply GestureFacts.ltb_lt in Hnear.
    - apply list_elem_of_In in Hp. split; [done|]. by apply GestureFacts.ltb_lt. }
  assert (match Room.points el with
          | [] => false
          | p :: rest =>
              Js.leb (Js.minOf (pt_x p) (map pt_x rest)) (pt_x point)
              && Js.leb (pt_x point) (Js.maxOf (pt_x p) (map pt_x rest))
              && Js.leb (Js.minOf (pt_y p) (map pt_y rest)) (pt_y point)
              && Js.leb (pt_y point) (Js.maxOf (pt_y p) (map pt_y rest))
          end = true
          <-> (exists p, p ∈ Room.points el /\ (pt_x p <= pt_x point)%Q)
              /\ (exists p, p ∈ Room.points el /\ (pt_x point <= pt_x p)%Q)
              /\ (exists p, p ∈ Room.points el /\ (pt_y p <= pt_y point)%Q)
              /\ (exists p, p ∈ Room.points el /\ (pt_y point <= pt_y p)%Q)) as Hbox.
  { destruct (Room.points el) as [|p rest].
    - split; [done|]. intros [(p & Hp & _) _]. by apply elem_of_nil in Hp.
    - rewrite !andb_true_iff, !BBoxFacts.leb_le.
      rewrite !minOf_attained, !maxOf_attained.
      change (pt_x p :: map pt_x rest) with (map pt_x (p :: rest)).
      change (pt_y p :: map pt_y rest) with (map pt_y (p :: rest)).
      rewrite (some_coordinate pt_x (fun x => (x <= pt_x point)%Q)),
        (some_coordinate pt_x (fun x => (pt_x point <= x)%Q)),
        (some_coordinate pt_y (fun y => (y <= pt_y point)%Q)),
        (some_coordinate pt_y (fun y => (pt_y point <= y)%Q)).
      tauto. }
  destruct (Room.type el); done.
Qed.

End EraserFacts.

Section Erasers.

Import Types.

Variable measureText : Q -> Js.jsstring -> Board.TextMetrics.

(** C3, against the claim as it stands: the eraser of the room board
    deletes a freehand element.  A pencil stroke is drawn from (0,0) to
    (3,4); a click with the eraser at (1,1), nearer than 10 to its first
    point, takes it out of the scene. *)
Lemma room_eraser_deletes_a_freehand_stroke :
  exists c c' stroke,
    Room.run Examples.draw_stroke Room.initialCanvas = Some c
    /\ Room.elements (Room.state c) = [stroke]
    /\ Room.type stroke = freehand
    /\ Room.handle (Room.MouseDown 2 (Examples.mouse 1 1)) c = Some c'
    /\ Room.elements (Room.state c') = []
    /\ (stroke ∉ Room.elements (Room.state c')).
Proof.
  do 3 eexists. split; [vm_compute; reflexivity|]. split; [reflexivity|].
  split; [reflexivity|]. split; [vm_compute; reflexivity|]. split; [reflexivity|].
  apply not_elem_of_nil.
Qed.

(** C3, amended.  On the standalone board, while the eraser stroke is being
    drawn (the pointer went down with the eraser, so the stroke is the last
    shape of the scene), a pointer move takes out of the scene exactly the
    shapes of a rigid kind (rectangle, ellipse, arrow, text) whose bounding
    box overlaps the square around the pointer, the pointer in its middle
    and its sides twice the width of the eraser.  Every freehand or eraser
    shape of the scene stays in the scene, every freehand object is left
    as it was, and the snapshots and the cursor are not touched.  On the
    room board the eraser acts on mouse-down: the topmost element under the
    pointer, of whatever kind, leaves the scene with every element that
    carries its id, and the scene is committed; a mouse move with the
    eraser changes nothing. *)
Theorem eraser_wipes_rigid_hits_on_move_and_topmost_element_on_room_click
  (b : Board.Whiteboard) (e : Board.PointerEvent) (start : Point) (r : Board.ref)
  (base : Board.BaseShape) (ps : list Point)
  (c : Room.Canvas) (now : N) (e' : Room.MouseEvent) (k : nat)
  (hit : Room.WhiteboardElement)
  (Hstart : Board.startPoint b = Some start)
  (Haction : Board.action b = Board.drawing)
  (Hdrawing : Board.isDrawing b = true)
  (Htool : Board.tool b = eraser)
  (Hlast : last (Board.shapes (Board.state b)) = Some r)
  (Hstroke : Board.heap b !! r = Some (Board.FreehandShape Board.ink_eraser base ps))
  (Htool' : Room.currentTool c = eraser)
  (Hin : Js.inside (Room.history (Room.state c)) (Room.historyIndex (Room.state c)))
  (Hk : Room.elements (Room.state c) !! k = Some hit)
  (Hhit : Room.under_pointer (Room.getMousePos e' c) hit)
  (Htop : forall j el, (k < j)%nat -> Room.elements (Room.state c) !! j = Some el ->
                       ~ Room.under_pointer (Room.getMousePos e' c) el) :
  let pos := Board.getPointerWorldPos e (Board.view b) in
  let box := {| bb_x := pt_x pos - Board.eraserStroke b;
                bb_y := pt_y pos - Board.eraserStroke b;
                bb_width := Board.eraserStroke b * 2;
                bb_height := Board.eraserStroke b * 2 |} in
  (exists b',
     Board.handlePointerMove measureText e b = Some b'
     /\ sublist (Board.shapes (Board.state b')) (Board.shapes (Board.state b))
     /\ (forall x, x ∈ Board.shapes (Board.state b) ->
           (x ∈ Board.shapes (Board.state b') <-> ~ Board.wiped (Board.heap b) box x))
     /\ (forall x s, x ∈ Board.shapes (Board.state b) -> Board.heap b !! x = Some s ->
           Board.shape_type s = freehand \/ Board.shape_type s = eraser ->
           x ∈ Board.shapes (Board.state b'))
     /\ (forall x s, Board.heap b !! x = Some s -> Board.shape_type s = freehand ->
           Board.heap b' !! x = Some s)
     /\ Board.history (Board.state b') = Board.history (Board.state b)
     /\ Board.historyIndex (Board.state b') = Board.historyIndex (Board.state b))
  /\ (exists c',
        Room.handleMouseDown now e' c = Some c'
        /\ Room.elements (Room.state c')
           = List.filter (fun el => bool_decide (Room.id el <> Room.id hit))
                         (Room.elements (Room.state c))
        /\ (hit ∉ Room.elements (Room.state c'))
        /\ (NoDup (map Room.id (Room.elements (Room.state c))) ->
            Room.elements (Room.state c') = delete k (Room.elements (Room.state c)))
        /\ Js.commits (Room.history (Room.state c)) (Room.historyIndex (Room.state c))
                      (Room.elements (Room.state c'))
                      (Room.history (Room.state c')) (Room.historyIndex (Room.state c'))
        /\ (forall e'', Room.handleMouseMove e'' c = Some c
                        /\ Room.handleMouseMove e'' c' = Some c')).
Proof.
  intros pos box. split.
  - pose proof (GestureFacts.handlePointerMove_eraser measureText b e start r base ps
                  Hstart Haction Hdrawing Htool Hlast Hstroke) as Hmove.
    cbv zeta in Hmove. fold pos in Hmove.
    change (Board.eraserBBox pos (Board.eraserStroke b)) with box in Hmove.
    eexists. split; [exact Hmove|].
    cbn [Board.state Board.set_state Board.set_heap Board.shapes Board.history
         Board.historyIndex Board.heap].
    assert (forall x, x ∈ Board.shapes (Board.state b) ->
              (x ∈ List.filter (fun x => negb (Board.erased (Board.heap b) box x))
                               (Board.shapes (Board.state b))
               <-> ~ Board.wiped (Board.heap b) box x)) as Hmem.
    { intros x Hx.
      rewrite list_elem_of_In, filter_In, <- list_elem_of_In, negb_true_iff,
        <- EraserFacts.erased_wiped.
      destruct (Board.erased (Board.heap b) box x); split; try tauto; try done.
      intros H. by destruct H. }
    split.
    { generalize (Board.shapes (Board.state b)). intros l.
      induction l as [|x l IH]; cbn [List.filter]; [constructor|].
      destruct (negb _); [by apply sublist_skip|by apply sublist_cons]. }
    split; [exact Hmem|]. split; [|split; [|done]].
    + intros x s Hx Hs Hkind. apply Hmem; [done|].
      intros (s' & bb & Hs' & Hrigid & _). rewrite Hs in Hs'. simplify_eq.
      rewrite GestureFacts.rigid_is_neither_ink in Hrigid.
      by destruct Hkind as [Hk' | Hk']; rewrite Hk' in Hrigid.
    + intros x s Hs Hkind. rewrite list_lookup_insert_ne; [done|].
      intros <-. rewrite Hstroke in Hs. by simplify_eq.
  - assert (Room.handleMouseDown now e' c
            = Room.dispatch (Room.DELETE_ELEMENTS [Room.id hit]) c) as Hdown.
    { unfold Room.handleMouseDown. rewrite Htool'.
      rewrite (RoomEraserFacts.findLast_topmost _ _ k hit Hk); [done| |].
      - by apply EraserFacts.eraserHits_under_pointer.
      - intros j el Hj Hel.
        destruct (Room.eraserHits (Room.getMousePos e' c) el) eqn:E; [|done].
        apply EraserFacts.eraserHits_under_pointer in E. by destruct (Htop j el). }
    rewrite Hdown. unfold Room.dispatch. cbn [Room.whiteboardReducer mbind option_bind].
    eexists. split; [reflexivity|].
    cbn [Room.state Room.set_state Room.elements Room.history Room.historyIndex].
    rewrite RoomEraserFacts.filter_except_id.
    split; [done|]. split; [|split; [|split]].
    + rewrite list_elem_of_In, filter_In. intros [_ Hb].
      apply bool_decide_eq_true_1 in Hb. done.
    + intros Hnd. by apply RoomEraserFacts.filter_unique_id.
    + by apply JsFacts.slice0_commits_succ.
    + intros e''. split.
      * unfold Room.handleMouseMove. rewrite Htool'.
        by destruct (Room.isDrawing c), (Room.currentElement c).
      * unfold Room.handleMouseMove. cbn [Room.currentTool Room.set_state Room.isDrawing
                                              Room.currentElement].
        rewrite Htool'. by destruct (Room.isDrawing c), (Room.currentElement c).
Qed.

End Erasers.

(** On [Examples.board_erasing] the scene is the rectangle 0, the freehand
    stroke 1 and the eraser stroke 2; a move at (5,5) leaves 1 and 2.  On
    the room board the pencil stroke from (0,0) to (3,4) is alone in the
    scene; a click with the eraser at (1,1) leaves nothing. *)
Lemma eraser_wipes_rigid_hits_on_move_and_topmost_element_on_room_click_witness :
  (exists b',
     Board.handlePointerMove Examples.measure (Examples.pointer 5 5) Examples.board_erasing
     = Some b'
     /\ Board.shapes (Board.state Examples.board_erasing) = [0; 1; 2]%nat
     /\ (0%nat ∉ Board.shapes (Board.state b'))
     /\ (1%nat ∈ Board.shapes (Board.state b'))
     /\ (2%nat ∈ Board.shapes (Board.state b')))
  /\ (exists c',
        Room.handleMouseDown 2 (Examples.mouse 1 1) Examples.canvas_stroke_erasing = Some c'
        /\ length (Room.elements (Room.state Examples.canvas_stroke_erasing)) = 1%nat
        /\ Room.elements (Room.state c') = []).
Proof.
  assert (exists stroke,
            Room.elements (Room.state Examples.canvas_stroke_erasing) = [stroke]
            /\ Room.type stroke = Types.freehand
            /\ Room.points stroke
               = [{| Types.pt_x := 0; Types.pt_y := 0 |}; {| Types.pt_x := 3; Types.pt_y := 4 |}])
    as (stroke & Hel & Htype & Hpoints) by (eexists; vm_compute; eauto).
  assert (exists base ps,
            Board.heap Examples.board_erasing !! 2%nat
            = Some (Board.FreehandShape Board.ink_eraser base ps)) as (base & ps & Hstroke)
    by (vm_compute; eauto).
  edestruct (eraser_wipes_rigid_hits_on_move_and_topmost_element_on_room_click
               Examples.measure Examples.board_erasing (Examples.pointer 5 5)
               {| Types.pt_x := 5; Types.pt_y := 5 |} 2%nat base ps
               Examples.canvas_stroke_erasing 2 (Examples.mouse 1 1) 0%nat stroke)
    as [(b' & Hmove & _ & Hmem & _) (c' & Hdown & Hel' & _)].
  - vm_compute. reflexivity.
  - vm_compute. reflexivity.
  - vm_compute. reflexivity.
  - vm_compute. reflexivity.
  - vm_compute. reflexivity.
  - exact Hstroke.
  - vm_compute. reflexivity.
  - vm_compute. split; congruence.
  - by rewrite Hel.
  - unfold Room.under_pointer. rewrite Htype, Hpoints.
    exists {| Types.pt_x := 0; Types.pt_y := 0 |}. split; [by left|].
    unfold Room.near. vm_compute. reflexivity.
  - intros j el Hj Hlook. rewrite Hel in Hlook. destruct j as [|j]; [lia|]. done.
  - split.
    + exists b'. split; [exact Hmove|]. split; [vm_compute; reflexivity|].
      assert (Board.shapes (Board.state Examples.board_erasing) = [0; 1; 2]%nat) as Hshapes
        by (vm_compute; reflexivity).
      split; [|split].
      * intros H0. apply Hmem in H0.
        -- apply H0. unfold Board.wiped.
           assert (exists s bb, Board.heap Examples.board_erasing !! 0%nat = Some s
                                /\ Board.is_rigid s = true
                                /\ Board.shape_bbox s = Some bb
                                /\ bb = {| Types.bb_x := 0; Types.bb_y := 0;
                                           Types.bb_width := 10; Types.bb_height := 10 |})
             as (s & bb & Hs & Hrigid & Hbb & ->) by (vm_compute; eauto 10).
           exists s, {| Types.bb_x := 0; Types.bb_y := 0;
                        Types.bb_width := 10; Types.bb_height := 10 |}.
           split; [exact Hs|]. split; [exact Hrigid|]. split; [exact Hbb|].
           unfold Board.overlaps. vm_compute. repeat split; reflexivity.
        -- rewrite Hshapes. by left.
      * assert (exists k1 base1 ps1,
                  Board.heap Examples.board_erasing !! 1%nat
                  = Some (Board.FreehandShape k1 base1 ps1)) as (k1 & base1 & ps1 & Hone)
          by (vm_compute; eauto).
        apply Hmem; [rewrite Hshapes; right; by left|].
        intros (s & bb & Hs & Hrigid & _). rewrite Hone in Hs.
        injection Hs as <-. by destruct k1.
      * apply Hmem; [rewrite Hshapes; right; right; by left|].
        intros (s & bb & Hs & Hrigid & _). rewrite Hstroke in Hs.
        injection Hs as <-. discriminate Hrigid.
    + exists c'. split; [exact Hdown|]. split; [rewrite Hel; reflexivity|].
      rewrite Hel'. rewrite Hel. cbn [List.filter].
      destruct (bool_decide_reflect (Room.id stroke <> Room.id stroke)) as [Hne|_];
        [|reflexivity].
      exfalso. apply Hne. reflexivity.
Defined.

(** ** Updates from the room *)

Section RemoteUpdate.

Import Types Room.

(** What [LOAD_STATE] does on any state: the elements become the received
    ones, nothing else is written. *)
Lemma load_state_replaces_elements_only (r : WhiteboardState)
  (data : list WhiteboardElement) :
  whiteboardReducer r (LOAD_STATE data)
  = Some {| elements := data;
            selectedElementIds := selectedElementIds r;
            history := history r; historyIndex := historyIndex r;
            zoom := zoom r; pan := pan r |}.
Proof. reflexivity. Qed.

(** C4. On every board the user and the socket can bring about from the
    initial one, a [whiteboard-update] puts exactly the received elements
    on display, whatever was there: elements that were only local are gone
    and nothing is merged.  No element is selected afterwards.
    [LOAD_STATE] writes the elements only; the selection is empty because
    it is empty on every such board, no handler ever selects.  The
    snapshots, the cursor, the zoom and the cells of the component are as
    before. *)
Theorem remote_update_replaces_the_scene_and_nothing_is_selected
  (inputs : list Input) (c : Canvas) (data : list WhiteboardElement)
  (Hreach : runInputs inputs initialCanvas = Some c) :
  exists c',
    handleInput (OnCanvas (WhiteboardUpdate data)) c = Some c'
    /\ elements (state c') = data
    /\ (forall el, el ∈ elements (state c') <-> el ∈ data)
    /\ selectedElementIds (state c') = []
    /\ history (state c') = history (state c)
    /\ historyIndex (state c') = historyIndex (state c)
    /\ zoom (state c') = zoom (state c)
    /\ pan (state c') = pan (state c)
    /\ c' = set_state (state c') c.
Proof.
  pose proof (RoomReach.runInputs_kept inputs initialCanvas c Hreach
                RoomReach.initialCanvas_kept) as [_ _ Hsel _ _].
  cbn [handleInput handle]. unfold onWhiteboardUpdate, dispatch.
  cbn [whiteboardReducer mbind option_bind].
  eexists. split; [reflexivity|].
  cbn [state set_state elements selectedElementIds history historyIndex zoom pan].
  split; [reflexivity|]. split; [reflexivity|]. split; [exact Hsel|].
  repeat split.
Qed.

End RemoteUpdate.

(** A pencil stroke is on the local board; the update holds the single
    element [Examples.dot].  Afterwards the stroke is gone and [dot] is the
    scene. *)
Lemma remote_update_replaces_the_scene_and_nothing_is_selected_witness :
  exists stroke c',
    Room.elements (Room.state Examples.canvas_stroke_erasing) = [stroke]
    /\ stroke <> Examples.dot
    /\ Room.handleInput (Room.OnCanvas (Room.WhiteboardUpdate [Examples.dot]))
         Examples.canvas_stroke_erasing = Some c'
    /\ Room.elements (Room.state c') = [Examples.dot]
    /\ Room.selectedElementIds (Room.state c') = [].
Proof.
  destruct (remote_update_replaces_the_scene_and_nothing_is_selected
              (map Room.OnCanvas Examples.draw_stroke) Examples.canvas_stroke_erasing
              [Examples.dot]) as (c' & Hupdate & Hel & _ & Hsel & _).
  - vm_compute. reflexivity.
  - eexists _, c'. split; [vm_compute; reflexivity|]. split; [discriminate|].
    split; [exact Hupdate|]. split; [exact Hel|exact Hsel].
Defined.

(** ** A text from the click to the blur *)

Module TextSessionFacts.
Import Types Room.


End TextSessionFacts.

Section TextSession.

Import Types.

Variable measureText : Q -> Js.jsstring -> Board.TextMetrics.



End TextSession.


(** ** Changes in progress *)

Module InProgressFacts.
Import Types Board.

Section WithMeasure.
Variable measureText : Q -> Js.jsstring -> TextMetrics.


End WithMeasure.


End InProgressFacts.

Section InProgress.

Import Types.

Variable measureText : Q -> Js.jsstring -> Board.TextMetrics.



End InProgress.


(** ** Where doubles and exact numbers part

    The board is zoomed once, to 1.1, on a canvas at the origin, and the
    pointer is on whole pixels. *)

Module Doubles.

Import Float64.

(** A click at x = 29: the scene point, mapped back by the view, is left
    of 29. *)
Example pointer_round_trip_is_rounded :
  ltb (textAreaLeft (atPixel 29) zoomedOnce (ofZ 0)) (ofZ 29) = true.
Proof. vm_compute. reflexivity. Qed.

(** A rectangle dragged from x = 3 to x = 1: the origin the pointer-up
    computes is right of the scene point the drag ended on. *)
Example flipped_origin_is_rounded :
  ltb (atPixel 1) (flippedX (atPixel 3) (drawnWidth (atPixel 1) (atPixel 3))) = true.
Proof. vm_compute. reflexivity. Qed.

(** An arrow from x = 3 to x = 8: its second end is right of the right
    edge of its bounding box. *)
Example arrow_end_outside_its_box :
  insideX (atPixel 8) (arrowBoxX (atPixel 3) (atPixel 8))
          (arrowBoxWidth (atPixel 3) (atPixel 8)) = false.
Proof. vm_compute. reflexivity. Qed.

(** An arrow from x = 0 to x = 1, dragged by the step of the pointer from
    x = 0 to x = 2: its bounding box is narrower than before. *)
Example translated_arrow_changes_width :
  ltb (arrowBoxWidth (add (atPixel 0) (sub (atPixel 2) (atPixel 0)))
                     (add (atPixel 1) (sub (atPixel 2) (atPixel 0))))
      (arrowBoxWidth (atPixel 0) (atPixel 1)) = true.
Proof. vm_compute. reflexivity. Qed.

End Doubles.
